(** * A shallow embedding of the BLS macro-data pipeline

    The repository holds two generations of the same pipeline:

    - [collect_data.py]: one script that fetches, parses, derives
      ['Weekly Income'] and maintains [data.csv];
    - [initial_raw_data.py], [update_raw_data.py], [process_data.py]: the
      same work split into a backfill, an incremental updater and a
      derivation step over [raw_data.csv] / [processed_data.csv].

    Every source file gets a module of its own name; the Python and pandas
    operations the scripts call are modelled once, in [Py] and [Pd]. *)

From Stdlib Require Import ZArith List String Ascii Bool Lia.
From Stdlib Require Import Permutation Sorted DecimalString Floats OrderedTypeEx.
Import ListNotations.
Open Scope Z_scope.
Set Warnings "-inexact-float".

(** ** Python: exceptions *)

Module Py.

Inductive exn : Type :=
| KeyError (key : string)
| TypeError
| ValueError
| IndexError.

(** A call either returns or raises. *)
Inductive result (A : Type) : Type :=
| Ok (a : A)
| Raise (e : exn).
Arguments Ok {A} a.
Arguments Raise {A} e.

Definition bind {A B} (m : result A) (k : A -> result B) : result B :=
  match m with
  | Ok a => k a
  | Raise e => Raise e
  end.

Definition raises {A} (m : result A) : bool :=
  match m with Ok _ => false | Raise _ => true end.

(** [for x in xs: out.extend(f(x))], stopping at the first exception. *)
Fixpoint extend_each {A B} (f : A -> result (list B)) (xs : list A)
  : result (list B) :=
  match xs with
  | [] => Ok []
  | x :: rest =>
      match f x with
      | Raise e => Raise e
      | Ok ys =>
          match extend_each f rest with
          | Raise e => Raise e
          | Ok zs => Ok (ys ++ zs)
          end
      end
  end.

(** What one turn of such a loop adds when it does not raise. *)
Definition outputs {A B} (f : A -> result (list B)) (x : A) : list B :=
  match f x with Ok ys => ys | Raise _ => [] end.

(** [[f(x) for x in xs]], stopping at the first exception. *)
Fixpoint each {A B} (f : A -> result B) (xs : list A) : result (list B) :=
  match xs with
  | [] => Ok []
  | x :: rest =>
      match f x with
      | Raise e => Raise e
      | Ok y =>
          match each f rest with
          | Raise e => Raise e
          | Ok ys => Ok (y :: ys)
          end
      end
  end.

(** [range(start, stop, step)] for a positive [step]. *)
Definition range (start stop step : Z) : list Z :=
  map (fun i => start + step * Z.of_nat i)
      (seq 0 (Z.to_nat ((stop - start + step - 1) / step))).

(** [max(xs)] by a given order; [ValueError] on an empty sequence. *)
Fixpoint max_by {A} (ltb : A -> A -> bool) (xs : list A) : result A :=
  match xs with
  | [] => Raise ValueError
  | x :: rest =>
      match max_by ltb rest with
      | Raise _ => Ok x
      | Ok m => Ok (if ltb x m then m else x)
      end
  end.

(** *** Strings

    A string is the sequence of its code points, each below 256. *)

(** [c in s] for a one-character [c]. *)
Definition contains (c : ascii) (s : string) : bool :=
  existsb (Ascii.eqb c) (list_ascii_of_string s).

(** [s.replace(c, '')] for a one-character [c]. *)
Definition replace_by_empty (c : ascii) (s : string) : string :=
  string_of_list_ascii
    (filter (fun x => negb (Ascii.eqb x c)) (list_ascii_of_string s)).

(** White space as [int()] skips it around the number.  CPython's parser
    skips the six characters of C's [isspace]: tab to carriage return
    (9-13) and the space (32); the separators 28-31 are not among them,
    although [str.strip] removes them.  In a string that is not pure ASCII
    the code points 133 (NEL) and 160 (no-break space) are turned into
    spaces before the parser runs. *)
Definition is_space (c : ascii) : bool :=
  let n := Z.of_nat (nat_of_ascii c) in
  ((9 <=? n) && (n <=? 13)) || (n =? 32) || (n =? 133) || (n =? 160).

Definition digit_value (c : ascii) : option Z :=
  let n := Z.of_nat (nat_of_ascii c) in
  if (48 <=? n) && (n <=? 57) then Some (n - 48) else None.

Fixpoint lstrip (l : list ascii) : list ascii :=
  match l with
  | c :: rest => if is_space c then lstrip rest else l
  | [] => []
  end.

Definition strip (l : list ascii) : list ascii :=
  rev (lstrip (rev (lstrip l))).

(** Decimal digits, single underscores allowed between two digits.
    [after_digit] says whether the previous character was a digit. *)
Fixpoint digits (acc : Z) (after_digit : bool) (l : list ascii) : option Z :=
  match l with
  | [] => if after_digit then Some acc else None
  | c :: rest =>
      match digit_value c with
      | Some d => digits (10 * acc + d) true rest
      | None =>
          if Ascii.eqb c "_" && after_digit then digits acc false rest
          else None
      end
  end.

(** [int(s)] on a string: optional surrounding white space, an optional
    sign, then decimal digits; anything else is a [ValueError].  So is a
    number of more than 4300 digits, which CPython refuses to convert
    ([sys.int_info.default_max_str_digits]). *)
Definition int (s : string) : result Z :=
  let l := strip (list_ascii_of_string s) in
  let '(negative, body) :=
    match l with
    | "-"%char :: rest => (true, rest)
    | "+"%char :: rest => (false, rest)
    | _ => (false, l)
    end in
  match digits 0 false body with
  | Some v =>
      let n := List.length (filter (fun c => match digit_value c with
                                              | Some _ => true
                                              | None => false
                                              end) body) in
      if (4300 <? n)%nat then Raise ValueError
      else Ok (if negative then - v else v)
  | None => Raise ValueError
  end.

(** [str(n)] for an integer. *)
Definition str (n : Z) : string := NilZero.string_of_int (Z.to_int n).

(** [f"{n:02d}"]: at least two characters, padded with a zero. *)
Definition format_02d (n : Z) : string :=
  let s := str n in
  if (String.length s <? 2)%nat then ("0" ++ s)%string else s.

(** [d.get(key, default)] on a dict written as its list of items. *)
Fixpoint get (d : list (string * string)) (key default : string) : string :=
  match d with
  | [] => default
  | (k, v) :: rest => if String.eqb k key then v else get rest key default
  end.

End Py.

Notation "x <- m ;; k" := (Py.bind m (fun x => k))
  (at level 61, m at next level, right associativity).

(** ** The JSON the BLS endpoint answers with

    [{status, ..., Results: {series: [{seriesID, data: [{year, period,
    value}]}]}}], every leaf a string. *)

Module Bls.

Record item : Type := mkItem { year : string; period : string; value : string }.

Record series_block : Type := mkSeries { seriesID : string; data : list item }.

(** The object under ['Results']; it may come without ['series']. *)
Record results : Type := mkResults { series : option (list series_block) }.

(** The top-level object: the keys it has besides ['Results'] (such as
    ['status'] and ['message']), and ['Results'] when present. *)
Record object : Type := mkObject { other_keys : list string; Results : option results }.

(** The period codes of the twelve months. *)
Definition monthly_codes : list string :=
  ["M01"; "M02"; "M03"; "M04"; "M05"; "M06";
   "M07"; "M08"; "M09"; "M10"; "M11"; "M12"]%string.

(** What a fetch hands to the parser: [None] is Python's [None]. *)
Definition json_data : Type := option object.

(** [not json_data] *)
Definition falsy (j : json_data) : bool :=
  match j with
  | None => true
  | Some o =>
      match other_keys o, Results o with
      | [], None => true
      | _, _ => false
      end
  end.

(** ['Results' in json_data], asked of a dict. *)
Definition has_Results (o : object) : bool :=
  match Results o with Some _ => true | None => false end.

(** The observations of an answer, each with the identifier of its
    series, in the order of the answer. *)
Definition observations (blocks : list series_block) : list (string * item) :=
  flat_map (fun s => map (fun it => (seriesID s, it)) (data s)) blocks.

End Bls.

(** ** pandas: timestamps and the row operations of the merge steps *)

Module Pd.

(** A [Timestamp] as the scripts read it: [.year], [.month] and the day of
    the month (the time of day plays no part in any comparison made on the
    [Date] column, whose values are all midnight). *)
Record Timestamp : Type := mkTs { year : Z; month : Z; day : Z }.

Definition ts_compare (a b : Timestamp) : comparison :=
  match year a ?= year b with
  | Eq => match month a ?= month b with
          | Eq => day a ?= day b
          | c => c
          end
  | c => c
  end.

Definition ts_eqb (a b : Timestamp) : bool :=
  match ts_compare a b with Eq => true | _ => false end.
Definition ts_ltb (a b : Timestamp) : bool :=
  match ts_compare a b with Lt => true | _ => false end.
Definition ts_leb (a b : Timestamp) : bool :=
  match ts_compare a b with Gt => false | _ => true end.

Ltac ts_cases :=
  unfold ts_eqb, ts_ltb, ts_leb, ts_compare in *;
  repeat match goal with
         | t : Timestamp |- _ => destruct t
         end;
  simpl in *;
  repeat match goal with
         | |- context [?a ?= ?b] => destruct (Z.compare_spec a b)
         | H : context [?a ?= ?b] |- _ => destruct (Z.compare_spec a b)
         end;
  subst; try reflexivity; try discriminate; try lia.

(** One row of a table whose [Date] column has been through
    [pd.to_datetime]; [vals] stands for the row's other columns. *)
Record Row (V : Type) : Type := mkRow { Date : Timestamp; vals : V }.
Arguments mkRow {V} Date vals.
Arguments Date {V} r.
Arguments vals {V} r.

Section Rows.
Context {V : Type}.

Definition DataFrame : Type := list (Row V).

Definition dates (df : DataFrame) : list Timestamp := map Date df.

(** Row [a] is dated no later than row [b]. *)
Definition by_date (a b : Row V) : Prop := ts_leb (Date a) (Date b) = true.

(** [df.empty] *)
Definition empty (df : DataFrame) : bool :=
  match df with [] => true | _ => false end.

(** [pd.concat([a, b])] of two tables with the same columns. *)
Definition concat (a b : DataFrame) : DataFrame := a ++ b.

Definition has_date (d : Timestamp) (df : DataFrame) : bool :=
  existsb (fun r => ts_eqb (Date r) d) df.

(** [df.drop_duplicates(subset=["Date"], keep="last")]: a row stays
    unless a later row carries the same date; order is kept. *)
Fixpoint drop_duplicates_last (df : DataFrame) : DataFrame :=
  match df with
  | [] => []
  | r :: rest =>
      if has_date (Date r) rest
      then drop_duplicates_last rest
      else r :: drop_duplicates_last rest
  end.

(** Insertion sort by date, one way of putting rows in date order. *)
Fixpoint insert_row (r : Row V) (sorted : DataFrame) : DataFrame :=
  match sorted with
  | [] => [r]
  | x :: rest =>
      if ts_leb (Date r) (Date x)
      then r :: x :: rest
      else x :: insert_row r rest
  end.

Fixpoint insertion_sort (df : DataFrame) : DataFrame :=
  match df with
  | [] => []
  | r :: rest => insert_row r (insertion_sort rest)
  end.

(** [df['Date'].max()]: [None] is [NaT], the maximum of no dates. *)
Fixpoint ts_max (l : list Timestamp) : option Timestamp :=
  match l with
  | [] => None
  | d :: rest =>
      match ts_max rest with
      | None => Some d
      | Some m => Some (if ts_ltb m d then d else m)
      end
  end.

(** [df[df['Date'] > last]]; every comparison with [NaT] is false. *)
Definition after (last : option Timestamp) (df : DataFrame) : DataFrame :=
  match last with
  | None => []
  | Some m => filter (fun r => ts_ltb m (Date r)) df
  end.

(** The last row of [df] dated [d], if any. *)
Fixpoint find_last (d : Timestamp) (df : DataFrame) : option (Row V) :=
  match df with
  | [] => None
  | r :: rest =>
      match find_last d rest with
      | Some r' => Some r'
      | None => if ts_eqb (Date r) d then Some r else None
      end
  end.

End Rows.
Arguments DataFrame V : clear implicits.

(** [df.sort_values('Date')].  Unless told otherwise pandas sorts with
    [kind='quicksort'], which is not stable: the rows come back in
    ascending date order, and rows with equal dates in an order the
    algorithm chooses.  All the scripts can rely on is a function that
    returns the rows it was given, in ascending date order; they are
    modelled for every such function. *)
Class Quicksort : Type := mkQuicksort
  { sort_values : forall {V : Type}, DataFrame V -> DataFrame V;
    sort_values_perm :
      forall {V : Type} (df : DataFrame V), Permutation (sort_values df) df;
    sort_values_sorted :
      forall {V : Type} (df : DataFrame V), StronglySorted by_date (sort_values df) }.

(** Insertion sort is one such function; the examples are run with it. *)
Definition insertion : Quicksort.
Proof.
assert (Hperm : forall V (r : Row V) l, Permutation (insert_row r l) (r :: l)).
{ intros V r l. induction l as [|x t IH]; simpl; [reflexivity|].
  destruct (ts_leb (Date r) (Date x)); [reflexivity|].
  rewrite IH. apply perm_swap. }
assert (Hleb : forall a b, ts_leb a b = true <->
          (year a < year b
           \/ (year a = year b
               /\ (month a < month b \/ (month a = month b /\ day a <= day b))))).
{ intros [y1 m1 d1] [y2 m2 d2]. unfold ts_leb, ts_compare. simpl.
  destruct (Z.compare_spec y1 y2), (Z.compare_spec m1 m2), (Z.compare_spec d1 d2);
    split; intros Hgoal; try reflexivity; try discriminate; lia. }
refine (mkQuicksort (fun V => @insertion_sort V) _ _).
- intros V df. induction df as [|x t IH]; simpl; [reflexivity|].
  rewrite Hperm. now constructor.
- intros V df. induction df as [|x t IH]; simpl; [constructor|].
  revert IH. generalize (insertion_sort t). clear t. intros l.
  induction 1 as [|y t Hs IH Hy]; simpl; [repeat constructor|].
  destruct (ts_leb (Date x) (Date y)) eqn:E.
  + constructor; [now constructor|]. constructor; [exact E|].
    eapply Forall_impl; [|exact Hy]. unfold by_date. intros z Hz.
    apply Hleb in E, Hz. apply Hleb. lia.
  + constructor; [exact IH|].
    eapply Permutation_Forall; [symmetry; apply Hperm|].
    constructor; [|exact Hy]. unfold by_date.
    apply Hleb. destruct (ts_leb (Date y) (Date x)) eqn:E'.
    * now apply Hleb.
    * exfalso.
      assert (H1 : ~ ts_leb (Date x) (Date y) = true) by (rewrite E; discriminate).
      assert (H2 : ~ ts_leb (Date y) (Date x) = true) by (rewrite E'; discriminate).
      rewrite Hleb in H1, H2. lia.
Defined.

(** Ascending dates with no repeat. *)
Definition strictly_increasing (l : list Timestamp) : Prop :=
  StronglySorted (fun a b => ts_ltb a b = true) l.

Fixpoint strictly_increasingb (l : list Timestamp) : bool :=
  match l with
  | [] => true
  | a :: rest => forallb (fun b => ts_ltb a b) rest && strictly_increasingb rest
  end.

(** *** Calendar arithmetic *)

Definition is_leap (y : Z) : bool :=
  (y mod 4 =? 0) && (negb (y mod 100 =? 0) || (y mod 400 =? 0)).

Definition days_in_month (y m : Z) : Z :=
  if m =? 2 then (if is_leap y then 29 else 28)
  else if (m =? 4) || (m =? 6) || (m =? 9) || (m =? 11) then 30
  else 31.

(** [t - pd.DateOffset(months=1)]: the same day of the month before,
    clipped to that month's last day. *)
Definition minus_one_month (t : Timestamp) : Timestamp :=
  let y := if month t =? 1 then year t - 1 else year t in
  let m := if month t =? 1 then 12 else month t - 1 in
  mkTs y m (Z.min (day t) (days_in_month y m)).

(** *** Long records and [pivot] *)

(** One long-format record, [{'Date': ..., 'Series': ..., 'Value': ...}]. *)
Record record : Type := mkRecord { rDate : string; rSeries : string; rValue : string }.

(** A wide table whose [Date] column still holds strings: the column
    names after [Date], and per row the date and one cell per column
    ([None] is NaN, a missing cell). *)
Record Wide : Type := mkWide
  { columns : list string; rows : list (string * list (option string)) }.

(** [pd.DataFrame()] *)
Definition no_frame : Wide := mkWide [] [].

Definition wide_empty (w : Wide) : bool :=
  match rows w with [] => true | _ => false end.

(** The sorted distinct values of a column, as the axes of a pivoted
    table hold them. *)
Fixpoint insert_unique (k : string) (l : list string) : list string :=
  match l with
  | [] => [k]
  | x :: rest =>
      if String.ltb k x then k :: x :: rest
      else if String.ltb x k then x :: insert_unique k rest
      else x :: rest
  end.

Definition sorted_unique (l : list string) : list string :=
  fold_right insert_unique [] l.

Definition str_lt (a b : string) : Prop := String.ltb a b = true.

(** The pair a pivot files a record under. *)
Definition key (r : record) : string * string := (rDate r, rSeries r).

Definition same_key (d c : string) (r : record) : bool :=
  String.eqb (rDate r) d && String.eqb (rSeries r) c.

Fixpoint duplicate_entries (rs : list record) : bool :=
  match rs with
  | [] => false
  | r :: rest =>
      existsb (same_key (rDate r) (rSeries r)) rest || duplicate_entries rest
  end.

Definition cell (rs : list record) (d c : string) : option string :=
  option_map rValue (find (same_key d c) rs).

(** [pd.DataFrame(records).pivot(index='Date', columns='Series',
    values='Value')] followed by [reset_index]: no records give a frame
    without a ['Date'] column ([KeyError]); two records for the same
    date and series cannot be reshaped ([ValueError]); otherwise one row
    per date and one column per series, both in ascending order. *)
Definition pivot (rs : list record) : Py.result Wide :=
  match rs with
  | [] => Py.Raise (Py.KeyError "Date")
  | _ =>
      if duplicate_entries rs then Py.Raise Py.ValueError
      else
        let cols := sorted_unique (map rSeries rs) in
        Py.Ok (mkWide cols
                 (map (fun d => (d, map (cell rs d) cols))
                      (sorted_unique (map rDate rs))))
  end.

(** [table[name]]: the cells of one column, [KeyError] without it. *)
Fixpoint position (name : string) (cols : list string) : option nat :=
  match cols with
  | [] => None
  | c :: rest =>
      if String.eqb c name then Some O
      else option_map S (position name rest)
  end.

Definition column (name : string) (w : Wide) : Py.result (list (option string)) :=
  match position name (columns w) with
  | None => Py.Raise (Py.KeyError name)
  | Some i => Py.Ok (map (fun row => nth i (snd row) None) (rows w))
  end.

(** A table after [table['Date'] = pd.to_datetime(table['Date'])]. *)
Record Frame : Type := mkFrame
  { frame_columns : list string; frame_rows : list (Row (list (option string))) }.

(** *** float64 columns *)

Local Open Scope float_scope.

Definition two52 : float := 4503599627370496.

Definition sign_bit (x : float) : bool :=
  (x <? 0) || ((x =? 0) && (1 / x <? 0)).

(** [np.rint]: the nearest integer, ties to even; values of magnitude
    2^52 and more, infinities and NaN are returned as they are. *)
Definition rint (x : float) : float :=
  if abs x <? two52 then
    let r := (abs x + two52) - two52 in
    if sign_bit x then - r else r
  else x.

(** [Series.round(2)], which numpy computes as
    [rint(x * 100.0) / 100.0]. *)
Definition round2 (x : float) : float := rint (x * 100) / 100.

(** [round(series)], that is [Series.round(0)]. *)
Definition round0 (x : float) : float := rint x.

(** NaN and the infinities on the specification side of binary64. *)
Definition sf_nan (s : spec_float) : bool :=
  match s with S754_nan => true | _ => false end.

Definition sf_inf (s : spec_float) : bool :=
  match s with S754_infinity _ => true | _ => false end.

Definition sf_zero (s : spec_float) : bool :=
  match s with S754_zero _ => true | _ => false end.

End Pd.

(** ** initial_raw_data.py *)

Module InitialRawData.
Import Py Pd.

Definition START_YEAR : Z := 2008.
Definition END_YEAR : Z := 2024.

Definition SERIES_MAPPING : list (string * string) :=
  [ ("LNS14000000", "Unemployment Rate");
    ("CES0000000001", "Employment Level");
    ("CUUR0000SA0", "CPI");
    ("CES0500000003", "Hourly Earnings");
    ("CES0500000002", "Hours Worked") ]%string.

(** [list(SERIES_MAPPING.keys())] *)
Definition series_list : list string := map fst SERIES_MAPPING.

(** The body of the inner loop of [parse_bls_response], lines 51-59:
    the records one observation adds. *)
Definition parse_item (col_name : string) (it : Bls.item) : result (list record) :=
  let year := Bls.year it in
  let period := Bls.period it in
  let value := Bls.value it in
  if contains "M" period && negb (String.eqb period "M13") then
    month <- int (replace_by_empty "M" period) ;;
    let date_str := (year ++ "-" ++ format_02d month ++ "-01")%string in
    Ok [mkRecord date_str col_name value]
  else Ok [].

Definition parse_series (s : Bls.series_block) : result (list record) :=
  let series_id := Bls.seriesID s in
  let col_name := get SERIES_MAPPING series_id series_id in
  extend_each (parse_item col_name) (Bls.data s).

(** [parse_bls_response], lines 41-60. *)
Definition parse_bls_response (json_data : Bls.json_data) : result (list record) :=
  match json_data with
  | None => Ok []
  | Some o =>
      if Bls.falsy json_data || negb (Bls.has_Results o) then Ok []
      else
        match Bls.Results o with
        | None => Ok []
        | Some res =>
            match Bls.series res with
            | None => Raise (KeyError "series")
            | Some blocks => extend_each parse_series blocks
            end
        end
  end.

(** What [main] leaves on disk. *)
Inductive written : Type :=
| ToCsv (df_wide : Frame)    (* [df_wide.to_csv(OUTPUT_FILE, index=False)] *)
| NoFile.                    (* "FAILURE: No data found." *)

Section Main.
Context {q : Quicksort}.
(** The HTTP round trip of [fetch_bls_chunk] ([None] when it failed)
    and pandas' date parser are taken as given. *)
Variable fetch_bls_chunk : list string -> Z -> Z -> Bls.json_data.
Variable to_datetime : string -> result Timestamp.

(** [main], lines 76-94: pivot, convert the dates, sort, save. *)
Definition save (all_records : list record) : result written :=
  match all_records with
  | [] => Ok NoFile
  | _ =>
      df_wide <- pivot all_records ;;
      dates <- each to_datetime (map fst (rows df_wide)) ;;
      let table := map (fun dr => mkRow (fst dr) (snd (snd dr)))
                       (combine dates (rows df_wide)) in
      Ok (ToCsv (mkFrame (columns df_wide) (sort_values table)))
  end.

(** One turn of the loop of lines 69-73. *)
Definition chunk (end_year y : Z) : result (list record) :=
  let chunk_end := Z.min (y + 9) end_year in
  let json_data := fetch_bls_chunk series_list y chunk_end in
  parse_bls_response json_data.

(** [main] for the span [start_year .. end_year]. *)
Definition main_span (start_year end_year : Z) : result written :=
  all_records <- extend_each (chunk end_year) (range start_year (end_year + 1) 10) ;;
  save all_records.

Definition main : result written := main_span START_YEAR END_YEAR.

(** The comparison point of the chunking claim: one request for the
    whole span, parsed and saved by the same code. *)
Definition single_fetch (start_year end_year : Z) : result written :=
  records <- parse_bls_response (fetch_bls_chunk series_list start_year end_year) ;;
  save records.

End Main.

(** Modelled from the spec: the external time-series API of sections 4.1
    and 6, which is not part of the repository.  Over a fixed underlying
    [dataset] (the observations it holds for each series identifier) a
    request for the inclusive range [start_year .. end_year] is answered
    with one block per requested series, holding the observations whose
    year lies in the range. *)
Definition in_span (start_year end_year : Z) (it : Bls.item) : bool :=
  match int (Bls.year it) with
  | Ok y => (start_year <=? y) && (y <=? end_year)
  | Raise _ => false
  end.

Definition blocks (dataset : string -> list Bls.item) (series_ids : list string)
    (selected : Bls.item -> bool) : list Bls.series_block :=
  map (fun sid => Bls.mkSeries sid (filter selected (dataset sid))) series_ids.

Definition bls_api (dataset : string -> list Bls.item)
    (series_ids : list string) (start_year end_year : Z) : Bls.json_data :=
  Some (Bls.mkObject ["status"; "responseTime"; "message"]%string
          (Some (Bls.mkResults
             (Some (blocks dataset series_ids (in_span start_year end_year)))))).

(** The records [parse_bls_response] draws from such an answer, and
    whether it raises on it. *)
Definition recs (dataset : string -> list Bls.item) (series_ids : list string)
    (selected : Bls.item -> bool) : list record :=
  flat_map (outputs parse_series) (blocks dataset series_ids selected).

Definition bad (dataset : string -> list Bls.item) (series_ids : list string)
    (selected : Bls.item -> bool) : bool :=
  existsb (fun s => raises (parse_series s)) (blocks dataset series_ids selected).

End InitialRawData.

(** ** update_raw_data.py *)

Module UpdateRawData.
Import Py Pd.

Definition SERIES_MAPPING : list (string * string) :=
  [ ("LNS14000000", "Unemployment Rate");
    ("CES0000000001", "Employment Level");
    ("CUUR0000SA0", "CPI");
    ("CES0500000003", "Hourly Earnings");
    ("CES0500000002", "Hours Worked") ]%string.

(** The body of the inner loop of [parse_and_process], lines 44-47. *)
Definition parse_item (col_name : string) (it : Bls.item) : result (list record) :=
  if contains "M" (Bls.period it) && negb (String.eqb (Bls.period it) "M13") then
    month <- int (replace_by_empty "M" (Bls.period it)) ;;
    let date_str := (Bls.year it ++ "-" ++ format_02d month ++ "-01")%string in
    Ok [mkRecord date_str col_name (Bls.value it)]
  else Ok [].

Definition parse_series (s : Bls.series_block) : result (list record) :=
  let series_id := Bls.seriesID s in
  let col_name := get SERIES_MAPPING series_id series_id in
  extend_each (parse_item col_name) (Bls.data s).

(** Lines 37-47: the long records. *)
Definition parse_records (json_data : Bls.json_data) : result (option (list record)) :=
  match json_data with
  | None => Ok None
  | Some o =>
      if Bls.falsy json_data || negb (Bls.has_Results o) then Ok None
      else
        match Bls.Results o with
        | None => Ok None
        | Some res =>
            match Bls.series res with
            | None => Raise (KeyError "series")
            | Some blocks =>
                records <- extend_each parse_series blocks ;;
                Ok (Some records)
            end
        end
  end.

(** [parse_and_process], lines 36-55. *)
Definition parse_and_process (json_data : Bls.json_data) : result Wide :=
  found <- parse_records json_data ;;
  match found with
  | None => Ok no_frame           (* line 39 *)
  | Some [] => Ok no_frame        (* line 50 *)
  | Some records => pivot records
  end.

Inductive written (V : Type) : Type :=
| ToCsv (df_combined : DataFrame V)   (* [df_combined.to_csv(DATA_FILE, index=False)] *)
| Untouched.                          (* every path that returns without writing *)
Arguments ToCsv {V} df_combined.
Arguments Untouched {V}.

(** [main], lines 58-97.  [file] is [raw_data.csv] ([None] when it does
    not exist) and [df_new] the table [parse_and_process] returned on
    line 75, read after the conversion of its [Date] column on line 82. *)
Definition main {q : Quicksort} {V} (file : option (DataFrame V)) (df_new : DataFrame V)
  : written V :=
  match file with
  | None => Untouched
  | Some df_existing =>
      let last_date := ts_max (dates df_existing) in
      if empty df_new then Untouched
      else
        let df_new := after last_date df_new in
        if empty df_new then Untouched
        else
          let df_combined := concat df_existing df_new in
          let df_combined := sort_values df_combined in
          ToCsv df_combined
  end.

End UpdateRawData.

(** ** process_data.py *)

Module ProcessData.
Import Py Pd.
Local Open Scope float_scope.

(** A field of [raw_data.csv] as [pd.read_csv] returns it.  A column is
    read as float64 when each of its fields is a number or empty, and at
    least one is empty or has a decimal point; its cells are [Float]s, an
    empty field being NaN.  A column of whole numbers without an empty field
    is read as int64, and a column with a field that is not a number, such
    as the placeholder ["-"], as object: strings, and NaN for the empty
    fields.  The cells of those two kinds that are not float64 values are
    [Other], carrying the text of the field. *)
Inductive cell : Type :=
| Float (x : float)
| Other (text : string).

(** The cells of a row, by column name. *)
Definition Cells : Type := list (string * cell).

(** A table: the names of its columns besides [Date], and its rows,
    dated as after line 16. *)
Record Table : Type := mkTable { header : list string; body : DataFrame Cells }.

Fixpoint lookup (name : string) (cs : Cells) : option cell :=
  match cs with
  | [] => None
  | (k, c) :: rest => if String.eqb k name then Some c else lookup name rest
  end.

(** The field of a row under a column name; a row that is short of it
    reads as NaN. *)
Definition value (name : string) (r : Row Cells) : cell :=
  match lookup name (vals r) with
  | Some c => c
  | None => Float nan
  end.

(** [df[name]], a [KeyError] when the table has no such column. *)
Definition column (name : string) (df : Table) : result (list cell) :=
  if existsb (String.eqb name) (header df)
  then Ok (map (value name) (body df))
  else Raise (KeyError name).

Fixpoint set (name : string) (c : cell) (cs : Cells) : Cells :=
  match cs with
  | [] => [(name, c)]
  | (k, v) :: rest =>
      if String.eqb k name then (k, c) :: rest else (k, v) :: set name c rest
  end.

Fixpoint set_rows (name : string) (rows : DataFrame Cells) (values : list cell)
  : DataFrame Cells :=
  match rows with
  | [] => []
  | r :: rows =>
      match values with
      | v :: values => mkRow (Date r) (set name v (vals r)) :: set_rows name rows values
      | [] => mkRow (Date r) (set name (Float nan) (vals r)) :: set_rows name rows []
      end
  end.

(** [df[name] = values]: new values in the column of that name, or a
    new last column. *)
Definition assign (name : string) (values : list cell) (df : Table) : Table :=
  mkTable
    (if existsb (String.eqb name) (header df) then header df
     else (header df ++ [name])%list)
    (set_rows name (body df) values).

Definition is_float (c : cell) : bool :=
  match c with Float _ => true | Other _ => false end.

Definition number (c : cell) : float :=
  match c with Float x => x | Other _ => nan end.

(** The values of a column when it is float64. *)
Definition float64 (xs : list cell) : option (list float) :=
  if forallb is_float xs then Some (map number xs) else None.

Fixpoint zip_with (f : float -> float -> float) (xs ys : list float) : list float :=
  match xs, ys with
  | x :: xs, y :: ys => f x y :: zip_with f xs ys
  | _, _ => []
  end.

(** [series.iloc[-1]] *)
Definition iloc_last {A} (l : list A) : result A :=
  match rev l with
  | [] => Raise IndexError
  | x :: _ => Ok x
  end.

(** What [*], [/] and [.round(2)] do on a column that is not float64
    depends on its cells and on the version of pandas: on an object column
    an elementwise operation may raise [TypeError] or go through, on int64
    columns the arithmetic is that of machine integers.  These cases are
    taken as given: the script is modelled for every behaviour of them. *)
Class OtherDtypes : Type := mkOtherDtypes
  { other_mul : list cell -> list cell -> result (list cell);
    other_div : list cell -> list cell -> result (list cell);
    other_scale : list cell -> cell -> result (list cell);
    other_round : list cell -> result (list cell) }.

Section Script.
Context {q : Quicksort} {o : OtherDtypes}.

(** [a * b] and [a / b] on two columns: binary64 arithmetic, cell by
    cell, when both are float64. *)
Definition mul (a b : list cell) : result (list cell) :=
  match float64 a, float64 b with
  | Some xs, Some ys => Ok (map Float (zip_with PrimFloat.mul xs ys))
  | _, _ => other_mul a b
  end.

Definition div (a b : list cell) : result (list cell) :=
  match float64 a, float64 b with
  | Some xs, Some ys => Ok (map Float (zip_with PrimFloat.div xs ys))
  | _, _ => other_div a b
  end.

(** [a * k] for a column and a scalar. *)
Definition scale (a : list cell) (k : cell) : result (list cell) :=
  match float64 a, k with
  | Some xs, Float c => Ok (map (fun x => Float (x * c)) xs)
  | _, _ => other_scale a k
  end.

(** [a.round(2)] *)
Definition round_2 (a : list cell) : result (list cell) :=
  match float64 a with
  | Some xs => Ok (map (fun x => Float (round2 x)) xs)
  | None => other_round a
  end.

(** [process_macro_data], lines 7-36.  [file] is [raw_data.csv] as read
    on line 10, its dates converted on line 16; the result is what went to
    [processed_data.csv], [None] after the [FileNotFoundError] branch. *)
Definition process_macro_data (file : option Table) : result (option Table) :=
  match file with
  | None => Ok None
  | Some df =>
      (* df.sort_values('Date', inplace=True) *)
      let df := mkTable (header df) (sort_values (body df)) in
      (* df['Weekly Earnings'] = df['Hourly Earnings'] * df['Hours Worked'] *)
      hourly <- column "Hourly Earnings" df ;;
      hours <- column "Hours Worked" df ;;
      weekly <- mul hourly hours ;;
      let df := assign "Weekly Earnings" weekly df in
      (* latest_cpi = df['CPI'].iloc[-1] *)
      cpi <- column "CPI" df ;;
      latest_cpi <- iloc_last cpi ;;
      (* df['Real Weekly Earnings'] = (df['Weekly Earnings'] / df['CPI']) * latest_cpi *)
      weekly <- column "Weekly Earnings" df ;;
      cpi <- column "CPI" df ;;
      ratio <- div weekly cpi ;;
      real <- scale ratio latest_cpi ;;
      let df := assign "Real Weekly Earnings" real df in
      (* df['Weekly Earnings'] = df['Weekly Earnings'].round(2) *)
      weekly <- column "Weekly Earnings" df ;;
      weekly <- round_2 weekly ;;
      let df := assign "Weekly Earnings" weekly df in
      (* df['Real Weekly Earnings'] = df['Real Weekly Earnings'].round(2) *)
      real <- column "Real Weekly Earnings" df ;;
      real <- round_2 real ;;
      let df := assign "Real Weekly Earnings" real df in
      Ok (Some df)
  end.

End Script.

(** The table has the column and the column is float64. *)
Definition is_float64 (name : string) (df : Table) : bool :=
  existsb (String.eqb name) (header df)
  && forallb (fun r => is_float (value name r)) (body df).

(** The three columns of a row that the script reads, as numbers, and
    the two it writes. *)
Definition CPI (r : Row Cells) : float := number (value "CPI" r).
Definition Hourly_Earnings (r : Row Cells) : float := number (value "Hourly Earnings" r).
Definition Hours_Worked (r : Row Cells) : float := number (value "Hours Worked" r).
Definition Weekly_Earnings (r : Row Cells) : cell := value "Weekly Earnings" r.
Definition Real_Weekly_Earnings (r : Row Cells) : cell := value "Real Weekly Earnings" r.

(** Comparisons of two column names that are written out are decided. *)
Ltac column_names :=
  repeat match goal with
         | |- context [String.eqb (String ?a ?s) (String ?b ?t)] =>
             let v := eval vm_compute in (String.eqb (String a s) (String b t)) in
             change (String.eqb (String a s) (String b t)) with v
         end.

(** An instance of [OtherDtypes] for the examples, whose tables are
    float64 where the script computes: one that raises [TypeError]. *)
Definition raising : OtherDtypes :=
  mkOtherDtypes (fun _ _ => Raise TypeError) (fun _ _ => Raise TypeError)
                (fun _ _ => Raise TypeError) (fun _ => Raise TypeError).

End ProcessData.

(** ** collect_data.py *)

Module CollectData.
Import Py Pd.
Local Open Scope float_scope.

Definition series_keys : list (string * string) :=
  [ ("LNS14000000", "Unemployment Rate");
    ("CES0000000001", "Employment Level");
    ("CUUR0000SA0", "CPI");
    ("CES0500000003", "Hourly Earnings");
    ("CES0500000002", "Hours Worked") ]%string.

(** The body of the inner loop of [parse_json], lines 47-52. *)
Definition parse_item (col_names : string) (it : Bls.item) : result (list record) :=
  let year := Bls.year it in
  let period := Bls.period it in
  let value := Bls.value it in
  month <- int (replace_by_empty "M" period) ;;
  let date_str := (year ++ "-" ++ format_02d month ++ "-01")%string in
  Ok [mkRecord date_str col_names value].

Definition parse_series (s : Bls.series_block) : result (list record) :=
  let series_id := Bls.seriesID s in
  let col_names := get series_keys series_id series_id in
  extend_each (parse_item col_names) (Bls.data s).

(** [parse_json], lines 40-52: the long records.  [None['Results']] is a
    [TypeError], a dict without the key a [KeyError]. *)
Definition parse_json_records (json_data : Bls.json_data) : result (list record) :=
  match json_data with
  | None => Raise TypeError
  | Some o =>
      match Bls.Results o with
      | None => Raise (KeyError "Results")
      | Some res =>
          match Bls.series res with
          | None => Raise (KeyError "series")
          | Some blocks => extend_each parse_series blocks
          end
      end
  end.

(** A row of the table [parse_json] returns: the pivoted cells, the two
    columns made numeric on lines 59-60, and ['Weekly Income']. *)
Record Parsed : Type := mkParsed
  { cells : list (option string);
    Hourly_Earnings : float;
    Hours_Worked : float;
    Weekly_Income : float }.

Section ParseJson.
(** pandas' parsers: [pd.to_datetime] on one string, and
    [pd.to_numeric(..., errors='coerce')] on one cell. *)
Variable to_datetime : string -> result Timestamp.
Variable to_numeric : option string -> float.

Fixpoint zip_rows (dates : list Timestamp) (rows : list (string * list (option string)))
    (he hw : list (option string)) : list (Row Parsed) :=
  match dates, rows, he, hw with
  | d :: dates, row :: rows, e :: he, w :: hw =>
      let e := to_numeric e in
      let w := to_numeric w in
      mkRow d (mkParsed (snd row) e w (round0 (e * w)))
        :: zip_rows dates rows he hw
  | _, _, _, _ => []
  end.

(** [parse_json], lines 38-65. *)
Definition parse_json (json_data : Bls.json_data) : result (list string * DataFrame Parsed) :=
  records <- parse_json_records json_data ;;
  table <- pivot records ;;
  dates <- each to_datetime (map fst (rows table)) ;;
  he <- column "Hourly Earnings" table ;;
  hw <- column "Hours Worked" table ;;
  Ok ((columns table ++ ["Weekly Income"%string])%list,
      zip_rows dates (rows table) he hw).

End ParseJson.

(** What a run left in [data.csv]. *)
Inductive written (V : Type) : Type :=
| ToCsv (df : DataFrame V)   (* [df.to_csv(output, index=False)] *)
| Untouched.                 (* 'no new data available.' *)
Arguments ToCsv {V} df.
Arguments Untouched {V}.

(** [update_data], lines 98-106.  [df] is [data.csv] as read on lines
    88-89 and [new_df] the table [parse_json] returned on line 96.  The
    value of [df.sort_values('Date')] on line 101 is not bound to
    anything: the table written is the one [drop_duplicates] returned. *)
Definition update_data {q : Quicksort} {V} (df new_df : DataFrame V) : written V :=
  if negb (empty new_df) then
    let df := concat df new_df in
    let df := drop_duplicates_last df in
    let _ := sort_values df in
    ToCsv df
  else
    Untouched.

Local Open Scope Z_scope.

Definition default_start_year : Z := 2008.

Section InitialData.
Context {q : Quicksort} {V : Type}.
(** [request_json] of line 22 and [parse_json] of line 38, the latter
    with its rows taken as values of any type [V], as [update_data] has
    them; [default_end_year] is [datetime.now().year] of line 10. *)
Variable request_json : list string -> Z -> Z -> Bls.json_data.
Variable parse_json : Bls.json_data -> result (DataFrame V).
Variable default_end_year : Z.

(** One turn of the loop, lines 75-79.  [df] is [None] for the
    [pd.DataFrame()] of line 69, which has no column; concatenating a
    table to it gives that table. *)
Definition turn (start_year : Z) (df : option (DataFrame V))
  : result (option (DataFrame V)) :=
  let series_id := map fst series_keys in
  let end_year := Z.min (start_year + 9) default_end_year in
  let new_json_data := request_json series_id start_year end_year in
  new_df <- parse_json new_json_data ;;
  let df := match df with None => new_df | Some df => concat df new_df end in
  Ok (Some df).

(** The [while] loop of lines 74-79, with a bound on its turns: [None]
    when the bound is reached before the loop condition fails. *)
Fixpoint while_loop (turns : nat) (start_year : Z) (df : option (DataFrame V))
  : option (result (option (DataFrame V))) :=
  if start_year <=? default_end_year then
    match turns with
    | O => None
    | S turns =>
        match turn start_year df with
        | Raise e => Some (Raise e)
        | Ok df => while_loop turns (start_year + 10) df
        end
    end
  else Some (Ok df).

(** [initial_data], lines 67-82.  The loop cannot take more turns than
    there are years from [default_start_year] to [default_end_year].  On
    line 81 [sort_values('Date')] is evaluated and its value dropped; on
    the table without columns it raises [KeyError('Date')]. *)
Definition initial_data : option (result (written V)) :=
  let turns := Z.to_nat (default_end_year + 1 - default_start_year) in
  match while_loop turns default_start_year None with
  | None => None
  | Some (Raise e) => Some (Raise e)
  | Some (Ok None) => Some (Raise (KeyError "Date"))
  | Some (Ok (Some df)) =>
      let _ := sort_values df in
      Some (Ok (ToCsv df))
  end.

(** For the statements about the loop: the table the window starting at
    [y] contributes, and what the loop holds after the tables [ts] were
    concatenated to [df] one by one. *)
Definition window (y : Z) : result (DataFrame V) :=
  parse_json (request_json (map fst series_keys) y (Z.min (y + 9) default_end_year)).

Definition gathered (df : option (DataFrame V)) (ts : list (DataFrame V))
  : option (DataFrame V) :=
  match ts, df with
  | [], _ => df
  | _, None => Some (List.concat ts)
  | _, Some d => Some (d ++ List.concat ts)
  end.

(** [update_data], lines 86-106, on the table [df] that lines 88-89 read
    from [data.csv]; [now] is [datetime.now()] on line 92. *)
Definition run_update_data (df : DataFrame V) (now : Timestamp) : result (written V) :=
  latest <- max_by ts_ltb (dates df) ;;
  let start_year := year latest in
  let end_year := year now in
  let series_id := map fst series_keys in
  let new_json_data := request_json series_id start_year end_year in
  new_df <- parse_json new_json_data ;;
  Ok (update_data df new_df).

(** What a run of [collect_data] ended with. *)
Inductive outcome : Type :=
| UpToDate                      (* "data.csv found. data is up to date": no fetch *)
| UpdateData (w : written V)    (* [update_data()] returned *)
| InitialData (w : written V).  (* [initial_data()] returned *)

(** [collect_data], lines 109-125.  [file] is [data.csv] ([None] when
    [os.path.isfile] says no), [now] is [datetime.now()] on line 114 and
    [later] the same clock when [update_data] reads it on line 92.  An
    exception of [update_data()] or [initial_data()] is one of
    [collect_data]; the result is [None] only if the loop of
    [initial_data] does not end. *)
Definition collect_data (file : option (DataFrame V)) (now later : Timestamp)
  : option (result outcome) :=
  match file with
  | Some df =>
      Some (
        let current_date := minus_one_month now in
        data_date <- max_by ts_ltb (dates df) ;;
        let month_diff :=
          (year current_date - year data_date) * 12
          + (month current_date - month data_date) in
        if month_diff <? 1 then Ok UpToDate
        else
          w <- run_update_data df later ;;
          Ok (UpdateData w))
  | None =>
      match initial_data with
      | None => None
      | Some r => Some (w <- r ;; Ok (InitialData w))
      end
  end.

End InitialData.
Arguments UpToDate {V}.
Arguments UpdateData {V} w.
Arguments InitialData {V} w.

End CollectData.

(** ** Sample data *)

Module Examples.
Import Pd.
Local Open Scope float_scope.

Definition june_2024 : Timestamp := mkTs 2024 6 1.
Definition july_2024 : Timestamp := mkTs 2024 7 1.

(** A snapshot holding June 2024, and an update bringing a corrected June
    and a new July. *)
Definition snapshot : DataFrame string := [mkRow june_2024 "3.0"%string].
Definition update : DataFrame string :=
  [mkRow june_2024 "4.1"%string; mkRow july_2024 "4.3"%string].

(** A CPI series with the 2019 annual average and December 2019. *)
Definition annual_average_payload : Bls.json_data :=
  Some (Bls.mkObject ["status"; "responseTime"; "message"]%string
     (Some (Bls.mkResults (Some
        [Bls.mkSeries "CUUR0000SA0"
           [Bls.mkItem "2019" "M13" "255.657";
            Bls.mkItem "2019" "M12" "256.974"]])))).

(** Rows and tables of [raw_data.csv]: three float64 columns, the whole
    numbers of ['Employment Level'] read as int64. *)
Definition raw_columns : list string :=
  ["CPI"; "Employment Level"; "Hourly Earnings"; "Hours Worked";
   "Unemployment Rate"]%string.

Definition raw_row (y m : Z) (cpi he hw : float) : Row ProcessData.Cells :=
  mkRow (mkTs y m 1)
    [ ("CPI", ProcessData.Float cpi);
      ("Employment Level", ProcessData.Other "158000");
      ("Hourly Earnings", ProcessData.Float he);
      ("Hours Worked", ProcessData.Float hw);
      ("Unemployment Rate", ProcessData.Float 4.0) ]%string.

Definition three_months : ProcessData.Table :=
  ProcessData.mkTable raw_columns
    [ raw_row 2024 4 258.115 28.02 34.2;
      raw_row 2024 5 300.991 30.0 34.0;
      raw_row 2024 6 300.991 27.15 33.3 ].

Definition month_with_missing_hours : ProcessData.Table :=
  ProcessData.mkTable raw_columns
    [ raw_row 2024 5 300.991 30.0 34.0;
      raw_row 2024 6 301.5 27.15 nan ].

(** A file with the field [inf] under ['Hourly Earnings'] and [0.0]
    under ['Hours Worked']. *)
Definition month_with_infinite_earnings : ProcessData.Table :=
  ProcessData.mkTable raw_columns [ raw_row 2024 6 301.5 infinity 0 ].

(** A date parser for the form [YYYY-MM-DD], standing in for
    [pd.to_datetime] in the examples. *)
Definition iso_date (s : string) : Py.result Timestamp :=
  match Py.int (substring 0 4 s), Py.int (substring 5 2 s), Py.int (substring 8 2 s) with
  | Py.Ok y, Py.Ok m, Py.Ok d =>
      if (String.length s =? 10)%nat && (1 <=? m)%Z && (m <=? 12)%Z
         && (1 <=? d)%Z && (d <=? days_in_month y m)%Z
      then Py.Ok (mkTs y m d)
      else Py.Raise Py.ValueError
  | _, _, _ => Py.Raise Py.ValueError
  end.

(** A number reader for the strings of the examples, standing in for
    [pd.to_numeric(..., errors='coerce')]. *)
Definition to_float (c : option string) : float :=
  match c with
  | Some "30.0"%string => 30.0
  | Some "34.0"%string => 34.0
  | Some "27.15"%string => 27.15
  | Some "33.3"%string => 33.3
  | _ => nan
  end.

(** An answer with the CPI series alone, and one with the two series the
    old script derives from. *)
Definition cpi_only_payload : Bls.json_data :=
  Some (Bls.mkObject ["status"]%string
     (Some (Bls.mkResults (Some
        [Bls.mkSeries "CUUR0000SA0" [Bls.mkItem "2019" "M12" "256.974"]])))).

Definition earnings_payload : Bls.json_data :=
  Some (Bls.mkObject ["status"]%string
     (Some (Bls.mkResults (Some
        [Bls.mkSeries "CES0500000003"
           [Bls.mkItem "2024" "M06" "27.15"; Bls.mkItem "2024" "M05" "30.0"];
         Bls.mkSeries "CES0500000002"
           [Bls.mkItem "2024" "M06" "33.3"; Bls.mkItem "2024" "M05" "34.0"]])))).

(** A dataset with one month of the two earnings series in each of the
    windows 2008-2017 and 2018-2024, and an answer without any series. *)
Definition two_window_dataset (sid : string) : list Bls.item :=
  if String.eqb sid "CES0500000003" then
    [Bls.mkItem "2018" "M01" "27.15"; Bls.mkItem "2008" "M01" "30.0"]
  else if String.eqb sid "CES0500000002" then
    [Bls.mkItem "2018" "M01" "33.3"; Bls.mkItem "2008" "M01" "34.0"]
  else [].

(** A dataset whose two earnings series stop after January 2008. *)
Definition discontinued_dataset (sid : string) : list Bls.item :=
  if String.eqb sid "CES0500000003" then [Bls.mkItem "2008" "M01" "30.0"]
  else if String.eqb sid "CES0500000002" then [Bls.mkItem "2008" "M01" "34.0"]
  else [].

Definition no_series_payload : Bls.json_data :=
  Some (Bls.mkObject ["status"]%string (Some (Bls.mkResults (Some [])))).

End Examples.

(** * Properties *)

Import Pd.

(** ** The order on timestamps *)

Section TimestampOrder.
Import Pd.

Lemma ts_eqb_eq a b : ts_eqb a b = true <-> a = b.
Proof.
  split.
  - ts_cases. 
  - intros ->. ts_cases.
Qed.

Lemma ts_eqb_refl a : ts_eqb a a = true.
Proof. now apply ts_eqb_eq. Qed.

Lemma ts_eqb_sym a b : ts_eqb a b = ts_eqb b a.
Proof. ts_cases. Qed.

Lemma ts_ltb_irrefl a : ts_ltb a a = false.
Proof. ts_cases. Qed.

Lemma ts_ltb_trans a b c : ts_ltb a b = true -> ts_ltb b c = true -> ts_ltb a c = true.
Proof. ts_cases. Qed.

Lemma ts_leb_ltb a b : ts_leb a b = negb (ts_ltb b a).
Proof. ts_cases. Qed.

Lemma ts_ltb_leb a b : ts_ltb a b = true -> ts_leb a b = true.
Proof. ts_cases. Qed.

Lemma ts_leb_trans a b c : ts_leb a b = true -> ts_leb b c = true -> ts_leb a c = true.
Proof. ts_cases. Qed.

Lemma ts_leb_ltb_trans a b c : ts_leb a b = true -> ts_ltb b c = true -> ts_ltb a c = true.
Proof. ts_cases. Qed.

Lemma ts_trichotomy a b : ts_ltb a b = true \/ a = b \/ ts_ltb b a = true.
Proof.
  destruct (ts_ltb a b) eqn:Hab; [now left|].
  destruct (ts_ltb b a) eqn:Hba; [now right; right|].
  right; left. apply ts_eqb_eq. revert Hab Hba. ts_cases.
Qed.

Lemma ts_leb_refl a : ts_leb a a = true.
Proof. ts_cases. Qed.

Lemma ts_leb_antisym a b : ts_leb a b = true -> ts_leb b a = true -> a = b.
Proof.
  intros H1 H2. rewrite ts_leb_ltb in H1, H2.
  destruct (ts_trichotomy a b) as [H|[H|H]]; [|assumption|].
  - rewrite H in H2. discriminate.
  - rewrite H in H1. discriminate.
Qed.

Lemma ts_total a b : ts_ltb a b = true \/ ts_leb b a = true.
Proof.
  rewrite ts_leb_ltb. destruct (ts_ltb a b); auto.
Qed.

Lemma ts_ltb_neq a b : ts_ltb a b = true -> a <> b.
Proof. intros H ->. rewrite ts_ltb_irrefl in H. discriminate. Qed.
End TimestampOrder.

(** ** Rows: duplicates, sorting, maxima *)

Section RowFacts.
Import Pd.
Context {V : Type}.
Implicit Types (df l a b added : DataFrame V) (r : Row V) (d : Timestamp).

Lemma has_date_In d l : has_date d l = true <-> In d (dates l).
Proof.
  unfold has_date, dates. rewrite existsb_exists, in_map_iff.
  split; intros [r [H1 H2]]; exists r.
  - apply ts_eqb_eq in H2. auto.
  - split; [assumption|]. now apply ts_eqb_eq.
Qed.

Lemma has_date_false d l : has_date d l = false <-> ~ In d (dates l).
Proof.
  rewrite <- has_date_In. destruct (has_date d l); split; congruence.
Qed.

Lemma drop_duplicates_incl l r : In r (drop_duplicates_last l) -> In r l.
Proof.
  induction l as [|x t IH]; simpl; [tauto|].
  destruct (has_date (Date x) t); simpl; intuition.
Qed.

Lemma drop_duplicates_dates l d :
  In d (dates (drop_duplicates_last l)) <-> In d (dates l).
Proof.
  induction l as [|x t IH]; simpl; [tauto|].
  destruct (has_date (Date x) t) eqn:E; simpl.
  - rewrite IH. apply has_date_In in E. split; [auto|].
    intros [<-|H]; assumption.
  - rewrite IH. tauto.
Qed.

Lemma drop_duplicates_NoDup l : NoDup (dates (drop_duplicates_last l)).
Proof.
  induction l as [|x t IH]; simpl; [constructor|].
  destruct (has_date (Date x) t) eqn:E; simpl; [assumption|].
  constructor; [|assumption].
  rewrite drop_duplicates_dates. now apply has_date_false.
Qed.

Lemma find_last_None d l : ~ In d (dates l) -> find_last d l = None.
Proof.
  induction l as [|x t IH]; simpl; [reflexivity|].
  intros H. rewrite IH by tauto.
  destruct (ts_eqb (Date x) d) eqn:E; [|reflexivity].
  apply ts_eqb_eq in E. tauto.
Qed.

Lemma find_last_In d l r : find_last d l = Some r -> In r l /\ Date r = d.
Proof.
  induction l as [|x t IH]; simpl; [discriminate|].
  destruct (find_last d t) as [r'|].
  - intros [= <-]. destruct (IH eq_refl). auto.
  - destruct (ts_eqb (Date x) d) eqn:E; [|discriminate].
    intros [= <-]. apply ts_eqb_eq in E. auto.
Qed.

Lemma find_last_Some d l : In d (dates l) -> exists r, find_last d l = Some r.
Proof.
  induction l as [|x t IH]; simpl; [tauto|].
  intros H. destruct (find_last d t) as [r'|] eqn:E; [eauto|].
  destruct H as [H|H].
  - rewrite <- H, ts_eqb_refl. eauto.
  - destruct (IH H) as [r Hr]. discriminate.
Qed.

Lemma find_last_app d a b :
  In d (dates b) -> find_last d (a ++ b) = find_last d b.
Proof.
  intros H. induction a as [|x t IH]; simpl; [reflexivity|].
  rewrite IH. destruct (find_last_Some d b H) as [r ->]. reflexivity.
Qed.

Lemma drop_duplicates_find_last l r :
  In r (drop_duplicates_last l) -> find_last (Date r) l = Some r.
Proof.
  induction l as [|x t IH]; simpl; [tauto|].
  destruct (has_date (Date x) t) eqn:E; simpl.
  - intros H. now rewrite (IH H).
  - intros [<-|H].
    + rewrite find_last_None by now apply has_date_false.
      now rewrite ts_eqb_refl.
    + now rewrite (IH H).
Qed.

(** *** Rows in date order *)

(** Sorted rows with pairwise distinct dates have strictly increasing
    dates. *)
Lemma sorted_NoDup_strict l :
  StronglySorted by_date l -> NoDup (dates l) -> strictly_increasing (dates l).
Proof.
  unfold strictly_increasing.
  induction 1 as [|x t Hs IH Hx]; simpl; intros Hnd; [constructor|].
  inversion Hnd as [|? ? Hnotin Hnd']; subst.
  constructor; [now apply IH|].
  apply Forall_forall. intros d Hd.
  apply in_map_iff in Hd. destruct Hd as [r [<- Hr]].
  rewrite Forall_forall in Hx. specialize (Hx r Hr). unfold by_date in Hx.
  destruct (ts_trichotomy (Date x) (Date r)) as [H|[H|H]]; [assumption| |].
  - exfalso. apply Hnotin. rewrite H. now apply in_map.
  - rewrite ts_leb_ltb, H in Hx. discriminate.
Qed.

Lemma strictly_increasing_NoDup (ds : list Timestamp) :
  strictly_increasing ds -> NoDup ds.
Proof.
  induction 1 as [|x t Hs IH Hx]; constructor; [|assumption].
  intros Hin. rewrite Forall_forall in Hx. specialize (Hx x Hin).
  now rewrite ts_ltb_irrefl in Hx.
Qed.

Lemma strictly_increasingb_spec (ds : list Timestamp) :
  strictly_increasingb ds = true <-> strictly_increasing ds.
Proof.
  unfold strictly_increasing. induction ds as [|x t IH]; simpl.
  - split; [constructor|reflexivity].
  - rewrite andb_true_iff, forallb_forall, IH. split.
    + intros [H1 H2]. constructor; [assumption|]. now apply Forall_forall.
    + intros H. inversion H; subst. split; [now apply Forall_forall|assumption].
Qed.

(** Rows in date order, each date once: the order is forced. *)
Lemma sorted_rows_ext (l1 : DataFrame V) :
  forall l2,
    StronglySorted by_date l1 -> StronglySorted by_date l2 ->
    NoDup (dates l1) -> Permutation l1 l2 -> l1 = l2.
Proof.
  induction l1 as [|a t1 IH]; intros l2 H1 H2 Hnd Hp.
  - apply Permutation_nil in Hp. now subst.
  - destruct l2 as [|b t2]; [symmetry in Hp; apply Permutation_nil in Hp; discriminate|].
    inversion H1 as [|? ? Hs1 Ha]; subst. inversion H2 as [|? ? Hs2 Hb]; subst.
    rewrite Forall_forall in Ha, Hb.
    assert (Hab : a = b).
    { assert (Hin1 : In b (a :: t1)) by (eapply Permutation_in; [symmetry; exact Hp|now left]).
      assert (Hin2 : In a (b :: t2)) by (eapply Permutation_in; [exact Hp|now left]).
      destruct Hin1 as [E|Hin1]; [assumption|].
      destruct Hin2 as [E|Hin2]; [now symmetry|].
      assert (Date a = Date b)
        by (apply ts_leb_antisym; [now apply Ha|now apply Hb]).
      exfalso. inversion Hnd as [|? ? Hnotin _]; subst. apply Hnotin.
      rewrite H. now apply in_map. }
    subst b. f_equal. apply IH; try assumption.
    + now inversion Hnd.
    + eapply Permutation_cons_inv; eassumption.
Qed.

Lemma strictly_increasing_sorted (l : DataFrame V) :
  strictly_increasing (dates l) -> StronglySorted by_date l.
Proof.
  unfold strictly_increasing, dates.
  induction l as [|r t IH]; intros H; [constructor|].
  simpl in H. inversion H as [|? ? Hs Hall]; subst. constructor; [now apply IH|].
  apply Forall_forall. intros b Hb. unfold by_date. apply ts_ltb_leb.
  rewrite Forall_forall in Hall. apply Hall. now apply in_map.
Qed.

Lemma sorted_tail (l1 l2 : DataFrame V) :
  StronglySorted by_date (l1 ++ l2) -> StronglySorted by_date l2.
Proof.
  induction l1 as [|x t IH]; simpl; [tauto|].
  intros H. inversion H; subst. now apply IH.
Qed.

(** *** [sort_values]

    What holds of every sort: where the dates are pairwise distinct the
    result does not depend on the algorithm. *)

Context {q : Quicksort}.

Lemma sort_values_unique (l l' : DataFrame V) :
  NoDup (dates l) -> Permutation l l' -> sort_values l = sort_values l'.
Proof.
  intros Hnd Hp. apply sorted_rows_ext; try apply sort_values_sorted.
  - eapply Permutation_NoDup; [|exact Hnd].
    apply Permutation_map. symmetry. apply sort_values_perm.
  - rewrite sort_values_perm, Hp. symmetry. apply sort_values_perm.
Qed.

(** A table with strictly increasing dates is left as it is. *)
Lemma sorted_is_its_own_sort (df : DataFrame V) :
  strictly_increasing (dates df) -> sort_values df = df.
Proof.
  intros H. apply sorted_rows_ext.
  - apply sort_values_sorted.
  - now apply strictly_increasing_sorted.
  - eapply Permutation_NoDup; [|apply strictly_increasing_NoDup; exact H].
    apply Permutation_map. symmetry. apply sort_values_perm.
  - apply sort_values_perm.
Qed.

(** Rows in date order that hold the rows of [l], whose dates strictly
    increase, and rows that all come later, begin with [l]. *)
Lemma sorted_begins_with (l : DataFrame V) :
  forall s added,
    StronglySorted by_date s -> Permutation s (l ++ added) ->
    strictly_increasing (dates l) ->
    (forall e r, In e l -> In r added -> ts_ltb (Date e) (Date r) = true) ->
    exists added', s = l ++ added' /\ Permutation added' added.
Proof.
  induction l as [|x t IH]; intros s added Hs Hp Hl Hlater.
  - exists s. split; [reflexivity|assumption].
  - destruct s as [|h s'];
      [apply Permutation_nil in Hp; discriminate|].
    inversion Hs as [|? ? Hs' Hh]; subst. rewrite Forall_forall in Hh.
    simpl in Hl. inversion Hl as [|? ? Hl' Hx]; subst. rewrite Forall_forall in Hx.
    assert (Hbefore : forall r, In r (t ++ added) -> ts_ltb (Date x) (Date r) = true).
    { intros r Hr. apply in_app_or in Hr. destruct Hr as [Hr|Hr].
      - apply Hx. now apply in_map.
      - apply Hlater; [now left|assumption]. }
    assert (Hhx : h = x).
    { assert (Hin : In h (x :: t ++ added))
        by (eapply Permutation_in; [exact Hp|now left]).
      destruct Hin as [E|Hin]; [now symmetry|].
      assert (Hxs : In x (h :: s'))
        by (eapply Permutation_in; [symmetry; exact Hp|now left]).
      destruct Hxs as [E|Hxs]; [assumption|].
      specialize (Hh x Hxs). unfold by_date in Hh.
      specialize (Hbefore h Hin). rewrite ts_leb_ltb, Hbefore in Hh. discriminate. }
    subst h. simpl in Hp. apply Permutation_cons_inv in Hp.
    destruct (IH s' added Hs' Hp Hl') as [added' [-> Hadded]].
    + intros e r He Hr. apply Hlater; [now right|assumption].
    + exists added'. split; [reflexivity|assumption].
Qed.

(** A table with strictly increasing dates is left as it is, and rows
    that all come later are put in date order behind it. *)
Lemma sort_values_append (l added : DataFrame V) :
  strictly_increasing (dates l) ->
  (forall e r, In e l -> In r added -> ts_ltb (Date e) (Date r) = true) ->
  exists added',
    sort_values (l ++ added) = l ++ added'
    /\ Permutation added' added /\ StronglySorted by_date added'.
Proof.
  intros Hl Hlater.
  destruct (sorted_begins_with l (sort_values (l ++ added)) added
              (sort_values_sorted _) (sort_values_perm _) Hl Hlater)
    as [added' [E Hp]].
  exists added'. split; [assumption|]. split; [assumption|].
  apply (sorted_tail l). rewrite <- E. apply sort_values_sorted.
Qed.

(** *** Maxima *)

Lemma ts_max_None (ds : list Timestamp) : ts_max ds = None <-> ds = [].
Proof.
  destruct ds as [|x t]; simpl; [tauto|].
  destruct (ts_max t); split; discriminate.
Qed.

Lemma ts_max_spec (ds : list Timestamp) m :
  ts_max ds = Some m -> In m ds /\ forall d, In d ds -> ts_leb d m = true.
Proof.
  revert m. induction ds as [|x t IH]; simpl; [discriminate|].
  intros m. destruct (ts_max t) as [m'|] eqn:E.
  - destruct (IH m' eq_refl) as [Hin Hle].
    destruct (ts_ltb m' x) eqn:L; intros [= <-].
    + split; [now left|]. intros d [<-|Hd]; [apply ts_leb_refl|].
      apply ts_ltb_leb. eapply ts_leb_ltb_trans; eauto.
    + split; [now right|]. intros d [<-|Hd]; [|auto].
      now rewrite ts_leb_ltb, L.
  - intros [= <-]. apply ts_max_None in E. subst t.
    split; [now left|]. intros d [<-|[]]. apply ts_leb_refl.
Qed.

Lemma max_by_Raise (ds : list Timestamp) e :
  Py.max_by ts_ltb ds = Py.Raise e -> ds = [].
Proof.
  destruct ds as [|x t]; simpl; [reflexivity|].
  destruct (Py.max_by ts_ltb t); discriminate.
Qed.

Lemma max_by_Ok (ds : list Timestamp) m :
  Py.max_by ts_ltb ds = Py.Ok m ->
  In m ds /\ forall d, In d ds -> ts_leb d m = true.
Proof.
  revert m. induction ds as [|x t IH]; simpl; [discriminate|].
  intros m. destruct (Py.max_by ts_ltb t) as [m'|e] eqn:E.
  - destruct (IH m' eq_refl) as [Hin Hle].
    destruct (ts_ltb x m') eqn:L; intros [= <-].
    + split; [now right|]. intros d [<-|Hd]; [now apply ts_ltb_leb|auto].
    + split; [now left|]. intros d [<-|Hd]; [apply ts_leb_refl|].
      eapply ts_leb_trans; [apply (Hle d Hd)|]. now rewrite ts_leb_ltb, L.
  - intros [= <-]. apply max_by_Raise in E. subst t.
    split; [now left|]. intros d [<-|[]]. apply ts_leb_refl.
Qed.

(** Python's [max] finds the maximum of the dates. *)
Lemma max_by_spec (ds : list Timestamp) m :
  In m ds -> (forall d, In d ds -> ts_leb d m = true) ->
  Py.max_by ts_ltb ds = Py.Ok m.
Proof.
  intros Hin Hle. destruct (Py.max_by ts_ltb ds) as [m'|e] eqn:E.
  - destruct (max_by_Ok _ _ E) as [Hin' Hle']. f_equal.
    apply ts_leb_antisym; auto.
  - apply max_by_Raise in E. subst ds. destruct Hin.
Qed.

Lemma after_In m df r :
  In r (after (Some m) df) <-> In r df /\ ts_ltb m (Date r) = true.
Proof. unfold after. apply filter_In. Qed.

End RowFacts.

(** ** The merge steps *)

Section Merge.
Import Pd.
Context {q : Quicksort} {V : Type}.
Implicit Types (existing incoming merged : DataFrame V).

Lemma update_data_writes existing incoming :
  incoming <> [] ->
  CollectData.update_data existing incoming
  = CollectData.ToCsv (drop_duplicates_last (existing ++ incoming)).
Proof.
  intros H. unfold CollectData.update_data.
  destruct incoming; [contradiction|reflexivity].
Qed.

Lemma main_writes existing incoming merged :
  UpdateRawData.main (Some existing) incoming = UpdateRawData.ToCsv merged ->
  exists last_date,
    ts_max (dates existing) = Some last_date /\
    after (Some last_date) incoming <> [] /\
    merged = sort_values (existing ++ after (Some last_date) incoming).
Proof.
  unfold UpdateRawData.main. cbv zeta.
  destruct (empty incoming); [discriminate|].
  destruct (ts_max (dates existing)) as [m|]; [|discriminate].
  destruct (after (Some m) incoming) as [|r t] eqn:E; [discriminate|].
  cbn [empty]. intros [= <-]. exists m. rewrite E.
  split; [reflexivity|]. split; [discriminate|reflexivity].
Qed.

Lemma main_keeps_existing_dates existing incoming merged :
  UpdateRawData.main (Some existing) incoming = UpdateRawData.ToCsv merged ->
  forall r, In r merged -> In (Date r) (dates existing) -> In r existing.
Proof.
  intros H r Hr Hd.
  destruct (main_writes _ _ _ H) as [m [Hm [_ ->]]].
  apply (Permutation_in _ (sort_values_perm _)) in Hr.
  apply in_app_or in Hr. destruct Hr as [Hr|Hr]; [assumption|].
  apply after_In in Hr. destruct Hr as [_ Hlt].
  destruct (ts_max_spec _ _ Hm) as [_ Hle].
  specialize (Hle _ Hd). rewrite ts_leb_ltb, Hlt in Hle. discriminate.
Qed.

Lemma main_NoDup existing incoming merged :
  UpdateRawData.main (Some existing) incoming = UpdateRawData.ToCsv merged ->
  NoDup (dates existing) -> NoDup (dates incoming) -> NoDup (dates merged).
Proof.
  intros H He Hi.
  destruct (main_writes _ _ _ H) as [m [Hm [_ ->]]].
  eapply Permutation_NoDup.
  { apply Permutation_map. symmetry. apply sort_values_perm. }
  unfold dates. rewrite map_app. apply NoDup_app.
  - assumption.
  - unfold after. clear - Hi. induction incoming as [|x t IH]; simpl; [constructor|].
    inversion Hi; subst. destruct (ts_ltb m (Date x)); simpl; [|auto].
    constructor; [|auto]. intros Hin. apply in_map_iff in Hin.
    destruct Hin as [r [Hr1 Hr2]]. apply filter_In in Hr2.
    match goal with H : ~ In _ _ |- _ => apply H end.
    rewrite <- Hr1. apply in_map. tauto.
  - intros d Hd1 Hd2. apply in_map_iff in Hd2. destruct Hd2 as [r [<- Hr]].
    apply after_In in Hr. destruct Hr as [_ Hlt].
    destruct (ts_max_spec _ _ Hm) as [_ Hle].
    specialize (Hle _ Hd1). rewrite ts_leb_ltb, Hlt in Hle. discriminate.
Qed.

(** A snapshot with strictly increasing dates stays so after
    [update_raw_data.main] wrote to it. *)
Lemma main_writes_strictly_increasing_dates existing incoming merged :
  UpdateRawData.main (Some existing) incoming = UpdateRawData.ToCsv merged ->
  strictly_increasing (dates existing) -> NoDup (dates incoming) ->
  strictly_increasing (dates merged).
Proof.
  intros H He Hi. apply sorted_NoDup_strict.
  - destruct (main_writes _ _ _ H) as [m [_ [_ ->]]]. apply sort_values_sorted.
  - eapply main_NoDup; eauto. now apply strictly_increasing_NoDup.
Qed.

(** What a sort returns when the order is forced. *)
Lemma sort_values_is (l sorted : DataFrame V) :
  StronglySorted by_date sorted -> NoDup (dates sorted) -> Permutation l sorted ->
  sort_values l = sorted.
Proof.
  intros Hs Hnd Hp. symmetry. apply sorted_rows_ext; try assumption.
  - apply sort_values_sorted.
  - rewrite sort_values_perm. now symmetry.
Qed.

End Merge.


(** ** Claims about the merge *)

(** C1 (as amended).  [collect_data.update_data]: for every existing
    snapshot and every non-empty incoming table the written table holds each
    date of either table exactly once, and a row whose date occurs in the
    incoming table is the incoming table's (last) row for that date.
    [update_raw_data.main]: whenever it writes, a row whose date occurs in the
    existing snapshot is a row of the existing snapshot, so on a date held by
    both tables the existing values stay; dates stay distinct when they were
    distinct in both tables. *)
Theorem merge_incoming_wins_in_update_data_only :
  forall (q : Quicksort) (V : Type) (existing incoming : DataFrame V),
    incoming <> [] ->
    (exists merged,
        CollectData.update_data existing incoming = CollectData.ToCsv merged /\
        NoDup (dates merged) /\
        (forall d, In d (dates merged) <-> In d (dates existing) \/ In d (dates incoming)) /\
        (forall r, In r merged -> In (Date r) (dates incoming) ->
                   In r incoming /\ find_last (Date r) incoming = Some r))
    /\
    (forall merged,
        UpdateRawData.main (Some existing) incoming = UpdateRawData.ToCsv merged ->
        (forall r, In r merged -> In (Date r) (dates existing) -> In r existing) /\
        (NoDup (dates existing) -> NoDup (dates incoming) -> NoDup (dates merged))).
Proof.
  intros q V existing incoming Hne. split.
  - exists (drop_duplicates_last (existing ++ incoming)).
    split; [now apply update_data_writes|].
    split; [apply drop_duplicates_NoDup|].
    split.
    + intros d. rewrite drop_duplicates_dates. unfold dates.
      rewrite map_app, in_app_iff. reflexivity.
    + intros r Hr Hd. apply drop_duplicates_find_last in Hr.
      rewrite find_last_app in Hr by assumption.
      split; [|assumption]. now apply find_last_In in Hr.
  - intros merged H. split.
    + now apply main_keeps_existing_dates with (incoming := incoming).
    + now apply main_NoDup.
Qed.

Lemma merge_incoming_wins_in_update_data_only_witness :
  let q := insertion in
  let existing := Examples.snapshot in
  let incoming := Examples.update in
  (exists merged,
      CollectData.update_data existing incoming = CollectData.ToCsv merged /\
      NoDup (dates merged) /\
      (forall d, In d (dates merged) <-> In d (dates existing) \/ In d (dates incoming)) /\
      (forall r, In r merged -> In (Date r) (dates incoming) ->
                 In r incoming /\ find_last (Date r) incoming = Some r))
  /\
  (forall merged,
      UpdateRawData.main (Some existing) incoming = UpdateRawData.ToCsv merged ->
      (forall r, In r merged -> In (Date r) (dates existing) -> In r existing) /\
      (NoDup (dates existing) -> NoDup (dates incoming) -> NoDup (dates merged))).
Proof.
  intros q existing incoming.
  apply (merge_incoming_wins_in_update_data_only q string existing incoming).
  discriminate.
Defined.

(** C1 as stated fails on [update_raw_data.main]: the snapshot holds June
    2024 with 3.0, the incoming table brings June with the corrected 4.1 and
    July with 4.3; the written table keeps 3.0 for June.  The example is
    run with insertion sort; the dates to sort are distinct, so that any
    other sort writes the same table ([sort_values_is]). *)
Lemma main_keeps_the_existing_value_on_a_shared_date :
  let q := insertion in
  let existing := Examples.snapshot in
  let incoming := Examples.update in
  incoming <> [] /\
  In Examples.june_2024 (dates existing) /\ In Examples.june_2024 (dates incoming) /\
  UpdateRawData.main (Some existing) incoming
  = UpdateRawData.ToCsv [mkRow Examples.june_2024 "3.0"%string; mkRow Examples.july_2024 "4.3"%string] /\
  ~ (forall r merged,
        UpdateRawData.main (Some existing) incoming = UpdateRawData.ToCsv merged ->
        In r merged -> In (Date r) (dates existing) -> In (Date r) (dates incoming) ->
        In r incoming).
Proof.
  cbv zeta. split; [discriminate|]. split; [now left|]. split; [now left|].
  split; [reflexivity|].
  intros H.
  specialize (H (mkRow Examples.june_2024 "3.0"%string) _ eq_refl).
  simpl in H. destruct H as [H|[H|[]]]; auto; discriminate.
Qed.

(** C9 at its failing input.  [data.csv] holds May and June 2024 and the
    API answers with May alone: [update_data] writes June before May, since
    the sorted copy made on line 101 is never used. *)
Theorem update_data_writes_unsorted_dates :
  forall q : Quicksort,
  let may := mkTs 2024 5 1 in
  let june := mkTs 2024 6 1 in
  let df := [mkRow may "3.9"%string; mkRow june "4.1"%string] in
  let new_df := [mkRow may "4.0"%string] in
  CollectData.update_data df new_df
  = CollectData.ToCsv [mkRow june "4.1"%string; mkRow may "4.0"%string]
  /\ strictly_increasingb [june; may] = false
  /\ ~ strictly_increasing [june; may]
  /\ sort_values (drop_duplicates_last (concat df new_df))
     = [mkRow may "4.0"%string; mkRow june "4.1"%string].
Proof.
  intros q. cbv zeta. split; [reflexivity|]. split; [reflexivity|]. split.
  - intros H. apply strictly_increasingb_spec in H. discriminate.
  - apply sort_values_is.
    + apply strictly_increasing_sorted, strictly_increasingb_spec. reflexivity.
    + repeat constructor; simpl; intuition discriminate.
    + apply perm_swap.
Qed.

(** C10.  Whenever [update_raw_data.main] writes, the rows added are the
    incoming rows dated strictly after the snapshot's maximum date (every
    incoming row at or before it is discarded), and the written table is the
    existing rows, unchanged, together with the added rows, put in date
    order by whatever sort pandas uses.  On a snapshot whose dates strictly
    increase the existing rows stay where they are and the added rows come
    behind them, in date order. *)
Theorem update_raw_data_main_is_append_only :
  forall (q : Quicksort) (V : Type) (existing incoming merged : DataFrame V),
    UpdateRawData.main (Some existing) incoming = UpdateRawData.ToCsv merged ->
    exists last_date added,
      ts_max (dates existing) = Some last_date /\
      In last_date (dates existing) /\
      (forall e, In e existing -> ts_leb (Date e) last_date = true) /\
      added = filter (fun r => ts_ltb last_date (Date r)) incoming /\
      (forall r, In r incoming -> ts_leb (Date r) last_date = true -> ~ In r added) /\
      (forall r, In r added -> forall e, In e existing -> ts_ltb (Date e) (Date r) = true) /\
      Permutation merged (existing ++ added) /\
      (forall r, In r merged -> In r existing \/ In r added) /\
      StronglySorted by_date merged /\
      (strictly_increasing (dates existing) ->
       exists ordered,
         Permutation ordered added /\ StronglySorted by_date ordered /\
         merged = existing ++ ordered).
Proof.
  intros q V existing incoming merged H.
  destruct (main_writes _ _ _ H) as [m [Hm [Hne ->]]].
  destruct (ts_max_spec _ _ Hm) as [Hin Hle].
  exists m, (after (Some m) incoming).
  assert (Hlater : forall r, In r (after (Some m) incoming) ->
                   forall e, In e existing -> ts_ltb (Date e) (Date r) = true).
  { intros r Hr e He. apply after_In in Hr. destruct Hr as [_ Hr].
    eapply ts_leb_ltb_trans; [|exact Hr]. apply Hle. now apply in_map. }
  split; [assumption|]. split; [assumption|].
  split; [intros e He; apply Hle; now apply in_map|].
  split; [reflexivity|].
  split.
  { intros r _ Hr Hadd. apply after_In in Hadd. destruct Hadd as [_ Hlt].
    rewrite ts_leb_ltb, Hlt in Hr. discriminate. }
  split; [assumption|].
  split; [apply sort_values_perm|].
  split.
  { intros r Hr. apply in_app_or.
    eapply Permutation_in; [apply sort_values_perm|exact Hr]. }
  split; [apply sort_values_sorted|].
  intros Hs.
  destruct (sort_values_append existing (after (Some m) incoming) Hs)
    as [ordered [E [Hp Ho]]].
  { intros e r He Hr. now apply Hlater. }
  exists ordered. auto.
Qed.

Lemma update_raw_data_main_is_append_only_witness :
  let q := insertion in
  let existing := Examples.snapshot in
  let incoming := Examples.update in
  let merged := [mkRow Examples.june_2024 "3.0"%string; mkRow Examples.july_2024 "4.3"%string] in
  exists last_date added,
    ts_max (dates existing) = Some last_date /\
    In last_date (dates existing) /\
    (forall e, In e existing -> ts_leb (Date e) last_date = true) /\
    added = filter (fun r => ts_ltb last_date (Date r)) incoming /\
    (forall r, In r incoming -> ts_leb (Date r) last_date = true -> ~ In r added) /\
    (forall r, In r added -> forall e, In e existing -> ts_ltb (Date e) (Date r) = true) /\
    Permutation merged (existing ++ added) /\
    (forall r, In r merged -> In r existing \/ In r added) /\
    StronglySorted by_date merged /\
    (strictly_increasing (dates existing) ->
     exists ordered,
       Permutation ordered added /\ StronglySorted by_date ordered /\
       merged = existing ++ ordered).
Proof.
  intros q existing incoming merged.
  apply (update_raw_data_main_is_append_only q string existing incoming merged).
  reflexivity.
Defined.

(** ** The orchestrator *)

Lemma minus_one_month_index (N : Timestamp) :
  year (minus_one_month N) * 12 + month (minus_one_month N)
  = year N * 12 + month N - 1.
Proof.
  unfold minus_one_month. simpl.
  destruct (month N =? 1) eqn:E; [apply Z.eqb_eq in E|]; lia.
Qed.

Section Orchestrator.
Import Py CollectData.
Context {q : Quicksort} {V : Type}.
Variable request_json : list string -> Z -> Z -> Bls.json_data.
Variable parse_json : Bls.json_data -> result (DataFrame V).
Variable default_end_year : Z.

(** The call of [update_data()] on line 123, as part of [collect_data]. *)
Lemma collect_data_branch (df : DataFrame V) (D N later : Timestamp) :
  In D (dates df) -> (forall d, In d (dates df) -> ts_leb d D = true) ->
  collect_data request_json parse_json default_end_year (Some df) N later
  = Some (if (year (minus_one_month N) - year D) * 12
             + (month (minus_one_month N) - month D) <? 1
          then Ok UpToDate
          else w <- run_update_data request_json parse_json df later ;;
               Ok (UpdateData w)).
Proof.
  intros Hin Hmax. unfold collect_data.
  rewrite (max_by_spec _ D Hin Hmax). reflexivity.
Qed.

Lemma update_branch_is_not_up_to_date (r : result (written V)) :
  (w <- r ;; Ok (UpdateData w)) <> Ok UpToDate.
Proof. destruct r; discriminate. Qed.

End Orchestrator.

(** C4.  For every snapshot whose maximum date is [D] and every current
    date [N], [collect_data] takes the no-fetch branch exactly when the
    difference in whole months between [N] minus one month and [D] is less
    than 1, and calls [update_data] otherwise, ending as that call ends;
    the difference is one less than the number of months from [D]'s month
    to [N]'s.  A snapshot ending 2024-06-01 is up to date on 2024-06-15 and
    updated on 2024-08-01. *)
Theorem collect_data_fresh_iff_less_than_one_month :
  forall (q : Quicksort) (V : Type)
         (request_json : list string -> Z -> Z -> Bls.json_data)
         (parse_json : Bls.json_data -> Py.result (DataFrame V))
         (default_end_year : Z)
         (df : DataFrame V) (D N later : Timestamp),
    In D (dates df) ->
    (forall d, In d (dates df) -> ts_leb d D = true) ->
    let before := minus_one_month N in
    let month_diff := (year before - year D) * 12 + (month before - month D) in
    let collect_data :=
      CollectData.collect_data request_json parse_json default_end_year (Some df) in
    let update_data :=
      w <- CollectData.run_update_data request_json parse_json df later ;;
      Py.Ok (CollectData.UpdateData w) in
    (collect_data N later = Some (Py.Ok CollectData.UpToDate) <-> month_diff < 1) /\
    (collect_data N later = Some update_data <-> 1 <= month_diff) /\
    month_diff = (year N * 12 + month N) - (year D * 12 + month D) - 1 /\
    (D = mkTs 2024 6 1 ->
     collect_data (mkTs 2024 6 15) later = Some (Py.Ok CollectData.UpToDate) /\
     collect_data (mkTs 2024 8 1) later = Some update_data).
Proof.
  intros q V request_json parse_json default_end_year df D N later Hin Hmax
         before month_diff collect_data update_data.
  assert (Hbranch := fun N =>
            collect_data_branch request_json parse_json default_end_year
              df D N later Hin Hmax).
  unfold collect_data. rewrite (Hbranch N). fold before. fold month_diff.
  fold update_data.
  assert (Hne : update_data <> Py.Ok CollectData.UpToDate)
    by apply update_branch_is_not_up_to_date.
  split; [|split; [|split]].
  - destruct (Z.ltb_spec month_diff 1); split; intros H1; try lia; try reflexivity.
    injection H1 as H1. contradiction.
  - destruct (Z.ltb_spec month_diff 1); split; intros H1; try lia; try reflexivity.
    injection H1 as H1. symmetry in H1. contradiction.
  - pose proof (minus_one_month_index N). fold before in H. unfold month_diff. lia.
  - intros ->. rewrite !Hbranch. split; reflexivity.
Qed.

Lemma collect_data_fresh_iff_less_than_one_month_witness :
  let q := insertion in
  let request_json := fun (_ : list string) (_ _ : Z) => Examples.no_series_payload in
  let parse_json := fun _ : Bls.json_data => Py.Ok Examples.update in
  let df := [mkRow (mkTs 2024 5 1) "3.9"%string; mkRow (mkTs 2024 6 1) "4.1"%string] in
  let D := mkTs 2024 6 1 in
  let N := mkTs 2024 6 15 in
  let later := mkTs 2024 6 15 in
  let before := minus_one_month N in
  let month_diff := (year before - year D) * 12 + (month before - month D) in
  let collect_data :=
    CollectData.collect_data request_json parse_json 2024 (Some df) in
  let update_data :=
    w <- CollectData.run_update_data request_json parse_json df later ;;
    Py.Ok (CollectData.UpdateData w) in
  (collect_data N later = Some (Py.Ok CollectData.UpToDate) <-> month_diff < 1) /\
  (collect_data N later = Some update_data <-> 1 <= month_diff) /\
  month_diff = (year N * 12 + month N) - (year D * 12 + month D) - 1 /\
  (D = mkTs 2024 6 1 ->
   collect_data (mkTs 2024 6 15) later = Some (Py.Ok CollectData.UpToDate) /\
   collect_data (mkTs 2024 8 1) later = Some update_data).
Proof.
  intros q request_json parse_json df D N later.
  apply (collect_data_fresh_iff_less_than_one_month q string request_json parse_json
           2024 df D N later).
  - simpl. auto.
  - intros d [<-|[<-|[]]]; reflexivity.
Defined.

(** ** The parsers *)

(** The guarded parsers return an empty result for a payload that is
    [None], empty, or without ['Results']. *)
Lemma guarded_parsers_on_missing_results (json_data : Bls.json_data) :
  json_data = None \/
  (exists o, json_data = Some o /\ Bls.Results o = None) ->
  UpdateRawData.parse_and_process json_data = Py.Ok no_frame /\
  rows no_frame = [] /\
  InitialRawData.parse_bls_response json_data = Py.Ok [].
Proof.
  intros [->|[o [-> Ho]]]; [repeat split|].
  unfold UpdateRawData.parse_and_process, UpdateRawData.parse_records,
    InitialRawData.parse_bls_response, Bls.falsy, Bls.has_Results.
  rewrite Ho. destruct (Bls.other_keys o); repeat split.
Qed.

(** The filter of [parse_and_process] and [parse_bls_response] lets every
    monthly code through, with its month number, and stops ["M13"]. *)
Lemma filter_keeps_monthly_codes col (it : Bls.item) :
  In (Bls.period it) Bls.monthly_codes ->
  exists month,
    1 <= month <= 12 /\
    Py.int (Py.replace_by_empty "M" (Bls.period it)) = Py.Ok month /\
    UpdateRawData.parse_item col it
    = Py.Ok [mkRecord (Bls.year it ++ "-" ++ Py.format_02d month ++ "-01") col (Bls.value it)] /\
    InitialRawData.parse_item col it
    = Py.Ok [mkRecord (Bls.year it ++ "-" ++ Py.format_02d month ++ "-01") col (Bls.value it)] /\
    CollectData.parse_item col it
    = Py.Ok [mkRecord (Bls.year it ++ "-" ++ Py.format_02d month ++ "-01") col (Bls.value it)].
Proof.
  unfold UpdateRawData.parse_item, InitialRawData.parse_item, CollectData.parse_item.
  destruct it as [y p v]. simpl Bls.period. simpl Bls.year. simpl Bls.value.
  unfold Bls.monthly_codes.
  intros H.
  repeat (destruct H as [<-|H];
          [eexists; split;
           [|split; [vm_compute; reflexivity|split; [reflexivity|split; reflexivity]]];
           lia|]).
  destruct H.
Qed.

Lemma filter_drops_M13 col (it : Bls.item) :
  Bls.period it = "M13"%string ->
  UpdateRawData.parse_item col it = Py.Ok [] /\
  InitialRawData.parse_item col it = Py.Ok [].
Proof.
  unfold UpdateRawData.parse_item, InitialRawData.parse_item.
  intros ->. split; reflexivity.
Qed.

Lemma filter_drops_codes_without_M col (it : Bls.item) :
  Py.contains "M" (Bls.period it) = false ->
  UpdateRawData.parse_item col it = Py.Ok [] /\
  InitialRawData.parse_item col it = Py.Ok [].
Proof.
  unfold UpdateRawData.parse_item, InitialRawData.parse_item.
  intros ->. split; reflexivity.
Qed.

(** C2 at its failing input.  For a CPI series holding the 2019 annual
    average (period ["M13"]) and December 2019, [collect_data.parse_json]
    builds a record dated ["2019-13-01"] for the annual average and the
    pivoted table gets a row for it; the two guarded parsers keep December
    alone. *)
Theorem parse_json_keeps_the_annual_average :
  CollectData.parse_json_records Examples.annual_average_payload
  = Py.Ok [mkRecord "2019-13-01" "CPI" "255.657";
           mkRecord "2019-12-01" "CPI" "256.974"]
  /\ (records <- CollectData.parse_json_records Examples.annual_average_payload ;; pivot records)
     = Py.Ok (mkWide ["CPI"%string]
                [("2019-12-01"%string, [Some "256.974"%string]);
                 ("2019-13-01"%string, [Some "255.657"%string])])
  /\ UpdateRawData.parse_and_process Examples.annual_average_payload
     = Py.Ok (mkWide ["CPI"%string] [("2019-12-01"%string, [Some "256.974"%string])])
  /\ InitialRawData.parse_bls_response Examples.annual_average_payload
     = Py.Ok [mkRecord "2019-12-01" "CPI" "256.974"].
Proof. repeat split. Qed.

(** Beside the point of C2's failing input: the guard is a substring test,
    so it also lets through codes outside M01..M12 that the API does not
    use. *)
Lemma filter_lets_other_M_codes_through :
  UpdateRawData.parse_item "CPI" (Bls.mkItem "2019" "M14" "1.0")
  = Py.Ok [mkRecord "2019-14-01" "CPI" "1.0"]
  /\ ~ In "M14"%string Bls.monthly_codes.
Proof.
  split; [reflexivity|]. unfold Bls.monthly_codes. intros H.
  repeat (destruct H as [H|H]; [discriminate|]). destruct H.
Qed.

(** C3 at its failing inputs.  [collect_data.parse_json] indexes the payload
    without looking: [None] raises a [TypeError], a dict without ['Results']
    (the empty dict among them) a [KeyError], and a well-formed answer with
    no observation fails in [pivot].  None of them yields an empty table. *)
Theorem parse_json_raises_on_missing_results :
  forall (to_datetime : string -> Py.result Timestamp)
         (to_numeric : option string -> float),
    CollectData.parse_json to_datetime to_numeric None = Py.Raise Py.TypeError
    /\ CollectData.parse_json to_datetime to_numeric (Some (Bls.mkObject [] None))
       = Py.Raise (Py.KeyError "Results")
    /\ (forall keys,
           CollectData.parse_json to_datetime to_numeric (Some (Bls.mkObject keys None))
           = Py.Raise (Py.KeyError "Results"))
    /\ CollectData.parse_json to_datetime to_numeric
         (Some (Bls.mkObject ["status"%string] (Some (Bls.mkResults (Some [])))))
       = Py.Raise (Py.KeyError "Date")
    /\ UpdateRawData.parse_and_process None = Py.Ok no_frame
    /\ UpdateRawData.parse_and_process (Some (Bls.mkObject [] None)) = Py.Ok no_frame
    /\ UpdateRawData.parse_and_process
         (Some (Bls.mkObject ["status"%string] (Some (Bls.mkResults (Some [])))))
       = Py.Ok no_frame.
Proof. intros. repeat split. Qed.

(** ** The order on strings and the axes of a pivoted table *)

Section StringOrder.

Lemma str_ltb_lt a b : String.ltb a b = true <-> String_as_OT.lt a b.
Proof.
  unfold String.ltb. rewrite <- String_as_OT.cmp_lt. unfold String_as_OT.cmp.
  destruct (String.compare a b); split; congruence.
Qed.

Lemma str_ltb_irrefl a : String.ltb a a = false.
Proof.
  unfold String.ltb.
  now rewrite (proj2 (String_as_OT.cmp_eq a a) eq_refl : String.compare a a = Eq).
Qed.

Lemma str_ltb_trans a b c :
  String.ltb a b = true -> String.ltb b c = true -> String.ltb a c = true.
Proof.
  rewrite !str_ltb_lt. apply String_as_OT.lt_trans.
Qed.

Lemma str_ltb_total a b :
  String.ltb a b = false -> String.ltb b a = false -> a = b.
Proof.
  unfold String.ltb. rewrite (String.compare_antisym b a).
  destruct (String.compare a b) eqn:E; simpl; try discriminate.
  intros _ _. now apply String.compare_eq_iff.
Qed.

Lemma insert_unique_In k l x :
  In x (insert_unique k l) <-> x = k \/ In x l.
Proof.
  induction l as [|y t IH]; simpl; [intuition|].
  destruct (String.ltb k y) eqn:E1; simpl; [intuition|].
  destruct (String.ltb y k) eqn:E2; simpl.
  - rewrite IH. intuition.
  - pose proof (str_ltb_total _ _ E1 E2). subst. intuition.
Qed.

Lemma insert_unique_sorted k l :
  StronglySorted str_lt l -> StronglySorted str_lt (insert_unique k l).
Proof.
  induction 1 as [|y t Hs IH Hy]; simpl; [repeat constructor|].
  destruct (String.ltb k y) eqn:E1.
  - constructor; [now constructor|]. constructor; [exact E1|].
    eapply Forall_impl; [|exact Hy]. intros z Hz. eapply str_ltb_trans; eauto.
  - destruct (String.ltb y k) eqn:E2.
    + constructor; [assumption|]. apply Forall_forall. intros z Hz.
      apply insert_unique_In in Hz. destruct Hz as [->|Hz]; [exact E2|].
      rewrite Forall_forall in Hy. now apply Hy.
    + now constructor.
Qed.

Lemma sorted_unique_In l x : In x (sorted_unique l) <-> In x l.
Proof.
  induction l as [|y t IH]; simpl; [tauto|].
  rewrite insert_unique_In, IH. intuition.
Qed.

Lemma sorted_unique_sorted l : StronglySorted str_lt (sorted_unique l).
Proof.
  induction l as [|y t IH]; simpl; [constructor|].
  now apply insert_unique_sorted.
Qed.

(** Two strictly ascending lists with the same members are the same
    list. *)
Lemma strictly_sorted_ext l1 :
  forall l2,
    StronglySorted str_lt l1 -> StronglySorted str_lt l2 ->
    (forall x, In x l1 <-> In x l2) -> l1 = l2.
Proof.
  induction l1 as [|a t1 IH]; intros [|b t2] H1 H2 Hext.
  - reflexivity.
  - exfalso. apply (proj2 (Hext b)). now left.
  - exfalso. apply (proj1 (Hext a)). now left.
  - inversion H1 as [|? ? Hs1 Ha]; subst. inversion H2 as [|? ? Hs2 Hb]; subst.
    rewrite Forall_forall in Ha, Hb. unfold str_lt in Ha, Hb.
    assert (a = b) as <-.
    { destruct (proj1 (Hext a) (or_introl eq_refl)) as [E|Hin1]; [now symmetry|].
      destruct (proj2 (Hext b) (or_introl eq_refl)) as [E|Hin2]; [assumption|].
      pose proof (str_ltb_trans _ _ _ (Ha _ Hin2) (Hb _ Hin1)) as C.
      rewrite str_ltb_irrefl in C. discriminate. }
    f_equal. apply IH; [assumption|assumption|].
    intros x. split; intros Hx.
    + destruct (proj1 (Hext x) (or_intror Hx)) as [E|Hin]; [|assumption].
      subst x. specialize (Ha _ Hx). rewrite str_ltb_irrefl in Ha. discriminate.
    + destruct (proj2 (Hext x) (or_intror Hx)) as [E|Hin]; [|assumption].
      subst x. specialize (Hb _ Hx). rewrite str_ltb_irrefl in Hb. discriminate.
Qed.

Lemma sorted_unique_ext l l' :
  (forall x, In x l <-> In x l') -> sorted_unique l = sorted_unique l'.
Proof.
  intros H. apply strictly_sorted_ext; try apply sorted_unique_sorted.
  intros x. rewrite !sorted_unique_In. apply H.
Qed.

Lemma sorted_unique_perm l l' :
  Permutation l l' -> sorted_unique l = sorted_unique l'.
Proof.
  intros H. apply sorted_unique_ext. intros x.
  split; apply Permutation_in; [assumption|now symmetry].
Qed.

End StringOrder.

(** ** [pivot] does not depend on the order of the records *)

Section PivotOrder.

Lemma same_key_spec d c r : same_key d c r = true <-> key r = (d, c).
Proof.
  unfold same_key, key. rewrite andb_true_iff, !String.eqb_eq.
  split; [intros [-> ->]; reflexivity|intros [= -> ->]; auto].
Qed.

Lemma duplicate_entries_spec rs :
  duplicate_entries rs = false <-> NoDup (map key rs).
Proof.
  induction rs as [|r t IH]; simpl.
  - split; [constructor|reflexivity].
  - rewrite orb_false_iff, IH. split.
    + intros [H1 H2]. constructor; [|assumption].
      intros Hin. apply in_map_iff in Hin. destruct Hin as [x [Hx1 Hx2]].
      assert (existsb (same_key (rDate r) (rSeries r)) t = true) as C.
      { apply existsb_exists. exists x. split; [assumption|].
        now apply same_key_spec. }
      congruence.
    + intros H. inversion H as [|? ? Hnotin Hnd]; subst. split; [|assumption].
      destruct (existsb (same_key (rDate r) (rSeries r)) t) eqn:E; [|reflexivity].
      exfalso. apply Hnotin. apply existsb_exists in E. destruct E as [x [Hx1 Hx2]].
      apply same_key_spec in Hx2. apply in_map_iff. exists x. auto.
Qed.

Lemma duplicate_entries_perm rs rs' :
  Permutation rs rs' -> duplicate_entries rs = duplicate_entries rs'.
Proof.
  intros H.
  destruct (duplicate_entries rs) eqn:E1, (duplicate_entries rs') eqn:E2;
    try reflexivity; exfalso.
  - apply duplicate_entries_spec in E2.
    apply (Permutation_NoDup (Permutation_map key (Permutation_sym H))) in E2.
    apply duplicate_entries_spec in E2. congruence.
  - apply duplicate_entries_spec in E1.
    apply (Permutation_NoDup (Permutation_map key H)) in E1.
    apply duplicate_entries_spec in E1. congruence.
Qed.

Lemma find_unique d c rs r :
  NoDup (map key rs) -> In r rs -> same_key d c r = true ->
  find (same_key d c) rs = Some r.
Proof.
  induction rs as [|x t IH]; simpl; [tauto|].
  intros Hnd Hin Hr. inversion Hnd as [|? ? Hnotin Hnd']; subst.
  destruct (same_key d c x) eqn:Ex.
  - destruct Hin as [->|Hin]; [reflexivity|].
    exfalso. apply Hnotin. apply same_key_spec in Ex, Hr.
    rewrite Ex, <- Hr. now apply in_map.
  - destruct Hin as [->|Hin]; [congruence|]. now apply IH.
Qed.

Lemma find_none_iff {A} (f : A -> bool) l :
  find f l = None <-> forall x, In x l -> f x = false.
Proof.
  split; [apply find_none|].
  induction l as [|x t IH]; simpl; [reflexivity|].
  intros H. rewrite (H x (or_introl eq_refl)). apply IH. auto.
Qed.

Lemma cell_perm rs rs' d c :
  NoDup (map key rs) -> Permutation rs rs' -> cell rs d c = cell rs' d c.
Proof.
  intros Hnd Hp. unfold cell. f_equal.
  assert (Hnd' : NoDup (map key rs'))
    by (eapply Permutation_NoDup; [apply Permutation_map; exact Hp|assumption]).
  destruct (find (same_key d c) rs) as [r|] eqn:E.
  - apply find_some in E. destruct E as [Hin Hr]. symmetry.
    apply find_unique; [assumption| |assumption].
    eapply Permutation_in; eassumption.
  - symmetry. apply find_none_iff. intros x Hx.
    apply (find_none _ _ E). eapply Permutation_in; [symmetry|]; eassumption.
Qed.

Theorem pivot_perm rs rs' : Permutation rs rs' -> pivot rs = pivot rs'.
Proof.
  intros Hp. unfold pivot.
  destruct rs as [|r t].
  { apply Permutation_nil in Hp. subst. reflexivity. }
  destruct rs' as [|r' t'].
  { symmetry in Hp. apply Permutation_nil in Hp. discriminate. }
  rewrite <- (duplicate_entries_perm _ _ Hp).
  destruct (duplicate_entries (r :: t)) eqn:E; [reflexivity|].
  apply duplicate_entries_spec in E.
  rewrite <- (sorted_unique_perm _ _ (Permutation_map rSeries Hp)).
  rewrite <- (sorted_unique_perm _ _ (Permutation_map rDate Hp)).
  do 2 f_equal. apply map_ext. intros d. f_equal.
  apply map_ext. intros c. now apply cell_perm.
Qed.

(** The rows of a pivoted table come in strictly ascending date order. *)
Lemma pivot_dates_strictly_sorted rs w :
  pivot rs = Py.Ok w -> StronglySorted str_lt (map fst (rows w)).
Proof.
  unfold pivot. destruct rs as [|r t]; [discriminate|].
  destruct (duplicate_entries (r :: t)); [discriminate|].
  intros [= <-]. cbn [rows]. rewrite map_map. cbn [fst]. rewrite map_id.
  apply (sorted_unique_sorted (map rDate (r :: t))).
Qed.

End PivotOrder.

(** ** Loops that may raise *)

Section Loops.
Import Py.

Lemma int_raises_ValueError s e : int s = Raise e -> e = ValueError.
Proof.
unfold int.
destruct (strip (list_ascii_of_string s)) as [|c l]; simpl.
- intros [= <-]. reflexivity.
- destruct (match c with
            | "-"%char => (true, l)
            | "+"%char => (false, l)
            | _ => (false, c :: l)
            end) as [negative body].
  destruct (digits 0 false body); [|intros [= <-]; reflexivity].
  destruct (4300 <? _)%nat; [|discriminate].
  intros [= <-]. reflexivity.
Qed.

Lemma extend_each_spec {A B} (f : A -> result (list B)) xs :
(forall x e, In x xs -> f x = Raise e -> e = ValueError) ->
extend_each f xs
= if existsb (fun x => raises (f x)) xs then Raise ValueError
  else Ok (flat_map (outputs f) xs).
Proof.
induction xs as [|x t IH]; intros H; simpl; [reflexivity|].
unfold outputs at 1. unfold raises at 1.
destruct (f x) as [ys|e] eqn:E; simpl.
- rewrite IH by (intros; eapply H; [right|]; eauto).
  destruct (existsb _ t); reflexivity.
- now rewrite (H x e (or_introl eq_refl) E).
Qed.

End Loops.

(** ** Lists split by two disjoint tests *)

Section Split.
Context {A B : Type}.

Lemma filter_split_perm (p p1 p2 : A -> bool) l :
(forall x, p x = p1 x || p2 x) ->
(forall x, p1 x = true -> p2 x = false) ->
Permutation (filter p l) (filter p1 l ++ filter p2 l).
Proof.
intros Hp Hd. induction l as [|x t IH]; simpl; [reflexivity|].
rewrite Hp. destruct (p1 x) eqn:E1; simpl.
- rewrite (Hd x E1). now constructor.
- destruct (p2 x); [|assumption].
  now apply Permutation_cons_app.
Qed.

Lemma existsb_filter_split (q p p1 p2 : A -> bool) l :
(forall x, p x = p1 x || p2 x) ->
existsb q (filter p l) = existsb q (filter p1 l) || existsb q (filter p2 l).
Proof.
intros Hp. induction l as [|x t IH]; simpl; [reflexivity|].
rewrite Hp. destruct (p1 x), (p2 x); simpl; rewrite IH;
  destruct (q x), (existsb q (filter p1 t)), (existsb q (filter p2 t)); reflexivity.
Qed.

Lemma filter_none (p : A -> bool) l : (forall x, p x = false) -> filter p l = [].
Proof.
intros H. induction l as [|x t IH]; simpl; [reflexivity|]. now rewrite H.
Qed.

Lemma perm_app_split (a a1 a2 b b1 b2 : list B) :
Permutation a (a1 ++ a2) -> Permutation b (b1 ++ b2) ->
Permutation (a ++ b) ((a1 ++ b1) ++ (a2 ++ b2)).
Proof.
intros Ha Hb. rewrite Ha, Hb.
rewrite <- !app_assoc. apply Permutation_app_head.
rewrite !app_assoc. apply Permutation_app_tail. apply Permutation_app_comm.
Qed.

End Split.

(** ** Chunked and single fetches over the same data *)

Section Chunks.
Import Py InitialRawData.
Context {q : Quicksort}.
Variable dataset : string -> list Bls.item.
Variable to_datetime : string -> result Timestamp.

Lemma parse_item_raises col it e : parse_item col it = Raise e -> e = ValueError.
Proof.
unfold parse_item.
destruct (contains "M" (Bls.period it) && negb (Bls.period it =? "M13")%string);
  [|discriminate].
destruct (int (replace_by_empty "M" (Bls.period it))) as [m|e'] eqn:E; simpl;
  [discriminate|].
intros [= <-]. eapply int_raises_ValueError; eassumption.
Qed.

Lemma parse_series_spec s :
parse_series s
= let col := get SERIES_MAPPING (Bls.seriesID s) (Bls.seriesID s) in
  if existsb (fun it => raises (parse_item col it)) (Bls.data s)
  then Raise ValueError
  else Ok (flat_map (outputs (parse_item col)) (Bls.data s)).
Proof.
unfold parse_series. cbv zeta. apply extend_each_spec.
intros x e _. apply parse_item_raises.
Qed.

Lemma parse_series_raises s e : parse_series s = Raise e -> e = ValueError.
Proof.
rewrite parse_series_spec. cbv zeta.
destruct (existsb _ (Bls.data s)); [|discriminate]. intros [= <-]. reflexivity.
Qed.

(** Parsing an answer of the API either raises [ValueError] or gives the
  records of the observations the request selected. *)
Lemma parse_api ids start_year end_year :
parse_bls_response (bls_api dataset ids start_year end_year)
= if bad dataset ids (in_span start_year end_year) then Raise ValueError
  else Ok (recs dataset ids (in_span start_year end_year)).
Proof.
unfold parse_bls_response, bls_api.
cbn [Bls.falsy Bls.has_Results Bls.other_keys Bls.Results Bls.series orb negb].
apply extend_each_spec. intros x e _. apply parse_series_raises.
Qed.

Lemma bad_split ids p p1 p2 :
(forall x, p x = p1 x || p2 x) ->
bad dataset ids p = bad dataset ids p1 || bad dataset ids p2.
Proof.
intros Hp. unfold bad, blocks.
induction ids as [|sid t IH]; simpl; [reflexivity|].
rewrite IH. rewrite !parse_series_spec. cbv zeta. cbn [Bls.data Bls.seriesID].
rewrite (existsb_filter_split _ p p1 p2 _ Hp).
repeat match goal with
       | |- context [existsb ?f ?l] =>
           let b := fresh "b" in generalize (existsb f l); intro b
       end.
repeat match goal with b : bool |- _ => destruct b end; reflexivity.
Qed.

Lemma recs_split ids p p1 p2 :
(forall x, p x = p1 x || p2 x) ->
(forall x, p1 x = true -> p2 x = false) ->
bad dataset ids p = false ->
Permutation (recs dataset ids p) (recs dataset ids p1 ++ recs dataset ids p2).
Proof.
intros Hp Hd. unfold bad, recs, blocks.
induction ids as [|sid t IH]; simpl; [reflexivity|].
intros Hbad. apply orb_false_iff in Hbad. destruct Hbad as [Hs Ht].
apply perm_app_split; [|now apply IH].
revert Hs. unfold outputs. rewrite !parse_series_spec. cbv zeta.
cbn [Bls.data Bls.seriesID].
rewrite (existsb_filter_split _ p p1 p2 _ Hp).
destruct (existsb _ (filter p1 (dataset sid))); [discriminate|].
destruct (existsb _ (filter p2 (dataset sid))); [discriminate|].
intros _. simpl. rewrite <- flat_map_app.
apply Permutation_flat_map. now apply filter_split_perm.
Qed.

Lemma recs_none ids p :
(forall x, p x = false) -> bad dataset ids p = false /\ recs dataset ids p = [].
Proof.
intros Hp. unfold bad, recs, blocks.
induction ids as [|sid t [IH1 IH2]]; simpl; [auto|].
rewrite IH1, IH2. unfold outputs. rewrite parse_series_spec. cbv zeta.
cbn [Bls.data]. rewrite (filter_none p _ Hp). auto.
Qed.

(** The loop of line 69 visits [start_year], [start_year + 10], ... while
  they do not pass [end_year]. *)
Lemma range_step start_year end_year :
range start_year (end_year + 1) 10
= if start_year <=? end_year
  then start_year :: range (start_year + 10) (end_year + 1) 10
  else [].
Proof.
unfold range.
destruct (Z.leb_spec start_year end_year) as [H|H].
- replace (end_year + 1 - start_year + 10 - 1) with ((end_year - start_year) + 1 * 10) by lia.
  rewrite Z.div_add by lia.
  replace (end_year + 1 - (start_year + 10) + 10 - 1) with (end_year - start_year) by lia.
  assert (0 <= (end_year - start_year) / 10) by (apply Z.div_pos; lia).
  rewrite Z2Nat.inj_add by lia. rewrite Nat.add_comm.
  change (Z.to_nat 1) with 1%nat. cbn [Nat.add seq map].
  f_equal; [lia|]. rewrite <- seq_shift, map_map. apply map_ext. intros i.
  rewrite Nat2Z.inj_succ. lia.
- assert ((end_year + 1 - start_year + 10 - 1) / 10 <= 0).
  { apply Z.lt_succ_r. apply Z.div_lt_upper_bound; lia. }
  destruct ((end_year + 1 - start_year + 10 - 1) / 10); try lia; reflexivity.
Qed.

(** A span is its first window of ten years and the rest, with nothing in
  both. *)
Lemma in_span_split start_year end_year it :
start_year <= end_year ->
in_span start_year end_year it
= in_span start_year (Z.min (start_year + 9) end_year) it
  || in_span (start_year + 10) end_year it.
Proof.
intros H. unfold in_span. destruct (int (Bls.year it)) as [y|]; [|reflexivity].
destruct (Z.leb_spec start_year y), (Z.leb_spec y end_year),
  (Z.leb_spec y (Z.min (start_year + 9) end_year)),
  (Z.leb_spec (start_year + 10) y); simpl; try reflexivity; lia.
Qed.

Lemma in_span_disjoint start_year end_year it :
in_span start_year (Z.min (start_year + 9) end_year) it = true ->
in_span (start_year + 10) end_year it = false.
Proof.
unfold in_span. destruct (int (Bls.year it)) as [y|]; [|reflexivity].
destruct (Z.leb_spec start_year y), (Z.leb_spec y end_year),
  (Z.leb_spec y (Z.min (start_year + 9) end_year)),
  (Z.leb_spec (start_year + 10) y); simpl; try reflexivity; try discriminate; lia.
Qed.

Lemma in_span_empty start_year end_year it :
end_year < start_year -> in_span start_year end_year it = false.
Proof.
intros H. unfold in_span. destruct (int (Bls.year it)) as [y|]; [|reflexivity].
destruct (Z.leb_spec start_year y), (Z.leb_spec y end_year); simpl; try reflexivity; lia.
Qed.

Lemma chunk_spec end_year y :
chunk (bls_api dataset) end_year y
= if bad dataset series_list (in_span y (Z.min (y + 9) end_year)) then Raise ValueError
  else Ok (recs dataset series_list (in_span y (Z.min (y + 9) end_year))).
Proof. unfold chunk. cbv zeta. apply parse_api. Qed.

Lemma chunk_raises end_year y e :
chunk (bls_api dataset) end_year y = Raise e -> e = ValueError.
Proof.
rewrite chunk_spec. destruct (bad _ _ _); [|discriminate]. intros [= <-]. reflexivity.
Qed.

(** The windows of the loop cover the span: some window fails to parse
  exactly when the whole span does, and otherwise the pooled records are
  those of the whole span in another order. *)
Lemma chunks_cover end_year (n : nat) :
forall start_year,
  end_year - start_year < 10 * Z.of_nat n ->
  existsb (fun y => raises (chunk (bls_api dataset) end_year y))
          (range start_year (end_year + 1) 10)
  = bad dataset series_list (in_span start_year end_year)
  /\ (bad dataset series_list (in_span start_year end_year) = false ->
      Permutation
        (flat_map (outputs (chunk (bls_api dataset) end_year))
                  (range start_year (end_year + 1) 10))
        (recs dataset series_list (in_span start_year end_year))).
Proof.
induction n as [|n IH]; intros start_year Hn; rewrite range_step.
- destruct (Z.leb_spec start_year end_year); [lia|].
  destruct (recs_none series_list (in_span start_year end_year)) as [E1 E2];
    [intros; now apply in_span_empty|].
  rewrite E1, E2. simpl. auto.
- destruct (Z.leb_spec start_year end_year) as [Hle|Hgt].
  + destruct (IH (start_year + 10)) as [IHb IHp]; [lia|].
    pose proof (bad_split series_list (in_span start_year end_year) _ _
                  (fun it => in_span_split start_year end_year it Hle)) as Hb.
    simpl. rewrite IHb. unfold outputs at 1. rewrite chunk_spec.
    split.
    * rewrite Hb.
      destruct (bad dataset series_list (in_span start_year (Z.min (start_year + 9) end_year)));
        reflexivity.
    * intros Hok. rewrite Hok in Hb. symmetry in Hb. apply orb_false_iff in Hb.
      destruct Hb as [Hb1 Hb2]. rewrite Hb1.
      rewrite (IHp Hb2). symmetry.
      apply recs_split; [|apply in_span_disjoint|assumption].
      intros it. now apply in_span_split.
  + destruct (recs_none series_list (in_span start_year end_year)) as [E1 E2];
      [intros; now apply in_span_empty|].
    rewrite E1, E2. simpl. auto.
Qed.

Lemma save_perm rs rs' :
Permutation rs rs' -> save to_datetime rs = save to_datetime rs'.
Proof.
intros Hp. unfold save. rewrite (pivot_perm _ _ Hp).
destruct rs as [|r t].
- apply Permutation_nil in Hp. now subst.
- destruct rs' as [|r' t']; [|reflexivity].
  symmetry in Hp. apply Permutation_nil in Hp. discriminate.
Qed.

Lemma main_span_single_fetch start_year end_year :
main_span (bls_api dataset) to_datetime start_year end_year
= single_fetch (bls_api dataset) to_datetime start_year end_year.
Proof.
unfold main_span, single_fetch.
rewrite parse_api.
rewrite extend_each_spec by (intros y e _; apply chunk_raises).
destruct (chunks_cover end_year (Z.to_nat (end_year - start_year + 1)) start_year)
  as [Hb Hp]; [lia|].
rewrite Hb.
destruct (bad dataset series_list (in_span start_year end_year)); [reflexivity|].
simpl. apply save_perm. now apply Hp.
Qed.

(** What [main] writes is in date order. *)
Lemma save_sorted rs df_wide :
save to_datetime rs = Ok (ToCsv df_wide) ->
StronglySorted by_date (frame_rows df_wide).
Proof.
unfold save. destruct rs as [|r t]; [discriminate|].
destruct (pivot (r :: t)) as [w|]; [|discriminate]. simpl.
destruct (each to_datetime (map fst (rows w))); [|discriminate]. simpl.
intros [= <-]. apply sort_values_sorted.
Qed.

End Chunks.

(** The chunking claim holds of [initial_raw_data.main].  Over any fixed
    underlying dataset and any span of years its backfill, which asks for
    one window of at most ten years at a time and pools the parsed records,
    ends with the same result as one request for the whole span parsed and
    saved by the same code: the same table written, or the same failure.
    This holds in particular for the span 2008-2024 that [main] is run
    on. *)
Theorem chunked_backfill_equals_single_fetch :
  forall (q : Quicksort) (dataset : string -> list Bls.item)
         (to_datetime : string -> Py.result Timestamp)
         (start_year end_year : Z),
    InitialRawData.main_span (InitialRawData.bls_api dataset) to_datetime start_year end_year
    = InitialRawData.single_fetch (InitialRawData.bls_api dataset) to_datetime start_year end_year
    /\ InitialRawData.main (InitialRawData.bls_api dataset) to_datetime
       = InitialRawData.single_fetch (InitialRawData.bls_api dataset) to_datetime 2008 2024.
Proof.
  intros. split; [apply main_span_single_fetch|].
  unfold InitialRawData.main. apply main_span_single_fetch.
Qed.

(** C8 at its failing input.  [collect_data.initial_data] does not give
    what one request for the span gives.  Over a dataset whose observations all lie in 2008 and
    with the clock in 2024, its window 2008-2017 parses to a table of one
    row, its window 2018-2024 is answered without observations, for which
    [parse_json] raises [KeyError('Date')] in [pivot], and [initial_data]
    ends with that exception and writes nothing; one request for 2008-2024
    over the same dataset parses to the table of one row.
    [initial_raw_data.main] on this dataset ends as a single fetch of
    2008-2024 parsed and saved by its code does. *)
Theorem initial_data_raises_where_a_single_fetch_parses :
  forall q : Quicksort,
    let request_json := InitialRawData.bls_api Examples.discontinued_dataset in
    let parse_json := fun json_data =>
      table <- CollectData.parse_json Examples.iso_date Examples.to_float json_data ;;
      Py.Ok (snd table) in
    let series_id := map fst CollectData.series_keys in
    let january_2008 :=
      [mkRow (mkTs 2008 1 1)
         (CollectData.mkParsed [Some "30.0"; Some "34.0"]%string 30.0 34.0 1020.0)] in
    CollectData.initial_data request_json parse_json 2024
    = Some (Py.Raise (Py.KeyError "Date"))
    /\ parse_json (request_json series_id 2008 2024) = Py.Ok january_2008
    /\ CollectData.window request_json parse_json 2024 2008 = Py.Ok january_2008
    /\ CollectData.window request_json parse_json 2024 2018
       = Py.Raise (Py.KeyError "Date")
    /\ InitialRawData.main request_json Examples.iso_date
       = InitialRawData.single_fetch request_json Examples.iso_date 2008 2024.
Proof.
  intros q request_json parse_json series_id january_2008.
  split; [vm_compute; reflexivity|]. split; [vm_compute; reflexivity|].
  split; [vm_compute; reflexivity|]. split; [vm_compute; reflexivity|].
  unfold InitialRawData.main. apply main_span_single_fetch.
Qed.

(** ** binary64: which operations produce NaN *)

Section NotANumber.

Lemma SFeqb_refl s : SFeqb s s = negb (sf_nan s).
Proof.
  unfold SFeqb. destruct s as [[]|[]| |[] m e]; simpl; try reflexivity;
    rewrite Z.compare_refl, Pos.compare_cont_refl; reflexivity.
Qed.

Lemma is_nan_spec x : PrimFloat.is_nan x = sf_nan (Prim2SF x).
Proof.
  unfold PrimFloat.is_nan. rewrite eqb_spec, SFeqb_refl. apply negb_involutive.
Qed.

Lemma is_infinity_spec x : PrimFloat.is_infinity x = sf_inf (Prim2SF x).
Proof.
  unfold PrimFloat.is_infinity. rewrite eqb_spec, abs_spec.
  destruct (Prim2SF x) as [[]|[]| |[] m e]; reflexivity.
Qed.

(** Shifting right and rounding keep a mantissa non-negative, so the
    rounding step never answers NaN. *)
Lemma shr_1_nonneg mrs : 0 <= shr_m mrs -> 0 <= shr_m (shr_1 mrs).
Proof.
  destruct mrs as [m r s]. simpl.
  destruct m as [|[p|p|]|[p|p|]]; simpl; lia.
Qed.

Lemma iter_pos_nonneg p :
  forall mrs, 0 <= shr_m mrs -> 0 <= shr_m (iter_pos shr_1 p mrs).
Proof.
  induction p as [p IH|p IH|]; intros mrs H; simpl.
  - apply IH, IH. now apply shr_1_nonneg.
  - now apply IH, IH.
  - now apply shr_1_nonneg.
Qed.

Lemma shr_fexp_nonneg prec emax m e l :
  0 <= m -> 0 <= shr_m (fst (shr_fexp prec emax m e l)).
Proof.
  intros H. unfold shr_fexp, shr.
  assert (0 <= shr_m (shr_record_of_loc m l)) by (destruct l as [|[]]; exact H).
  destruct (fexp prec emax (Zdigits2 m + e) - e); simpl; try assumption.
  now apply iter_pos_nonneg.
Qed.

Lemma round_nearest_even_nonneg m l : 0 <= m -> 0 <= round_nearest_even m l.
Proof.
  intros H. destruct l as [|[]]; simpl; try lia.
  destruct (Z.even m); lia.
Qed.

Lemma binary_round_aux_not_nan prec emax sx mx ex lx :
  0 <= mx -> sf_nan (binary_round_aux prec emax sx mx ex lx) = false.
Proof.
  intros H. unfold binary_round_aux.
  pose proof (shr_fexp_nonneg prec emax mx ex lx H) as H1.
  destruct (shr_fexp prec emax mx ex lx) as [mrs' e']. simpl in H1.
  pose proof (shr_fexp_nonneg prec emax _ e' loc_Exact
                (round_nearest_even_nonneg _ (loc_of_shr_record mrs') H1)) as H2.
  destruct (shr_fexp prec emax (round_nearest_even (shr_m mrs') (loc_of_shr_record mrs'))
              e' loc_Exact) as [mrs'' e'']. simpl in H2.
  destruct (shr_m mrs'') as [|m|m]; [reflexivity| |lia].
  destruct (e'' <=? emax - prec); reflexivity.
Qed.

Lemma binary_normalize_not_nan prec emax m e s :
  sf_nan (binary_normalize prec emax m e s) = false.
Proof.
  unfold binary_normalize, binary_round.
  destruct m as [|p|p]; [reflexivity| |];
    destruct (shl_align p e _) as [mz ez]; apply binary_round_aux_not_nan; lia.
Qed.

Lemma SFmul_nan prec emax a b :
  sf_inf a = false -> sf_inf b = false ->
  sf_nan (SFmul prec emax a b) = sf_nan a || sf_nan b.
Proof.
  destruct a as [sa|sa| |sa ma ea], b as [sb|sb| |sb mb eb]; simpl;
    try discriminate; try reflexivity.
  intros _ _. apply binary_round_aux_not_nan. lia.
Qed.

Lemma SFadd_not_nan prec emax a b :
  sf_nan a = false -> sf_nan b = false -> sf_inf a = false -> sf_inf b = false ->
  sf_nan (SFadd prec emax a b) = false.
Proof.
  destruct a as [[]|sa| |sa ma ea], b as [[]|sb| |sb mb eb]; simpl;
    try discriminate; try reflexivity.
  intros. apply binary_normalize_not_nan.
Qed.

Lemma SFsub_not_nan prec emax a b :
  sf_nan a = false -> sf_nan b = false -> sf_inf b = false ->
  sf_nan (SFsub prec emax a b) = false.
Proof.
  destruct a as [[]|sa| |sa ma ea], b as [[]|sb| |sb mb eb]; simpl;
    try discriminate; try reflexivity.
  intros. apply binary_normalize_not_nan.
Qed.

Lemma SFdiv_core_nonneg prec emax m1 e1 m2 e2 :
  0 <= fst (fst (SFdiv_core_binary prec emax (Zpos m1) e1 (Zpos m2) e2)).
Proof.
  unfold SFdiv_core_binary.
  set (s := _ - _ - Z.min _ _).
  set (m' := match s with Z0 => _ | Zpos _ => _ | Zneg _ => _ end).
  assert (0 <= m').
  { unfold m'. destruct s; try lia. apply Z.shiftl_nonneg. lia. }
  pose proof (Z_div_mod m' (Zpos m2) ltac:(lia)) as Hd.
  destruct (Z.div_eucl m' (Zpos m2)) as [q r]. simpl.
  destruct Hd as [Hq Hr]. nia.
Qed.

Lemma SFdiv_by_finite_nan prec emax a sb mb eb :
  sf_nan (SFdiv prec emax a (S754_finite sb mb eb)) = sf_nan a.
Proof.
  destruct a as [sa|sa| |sa ma ea]; simpl; try reflexivity.
  pose proof (SFdiv_core_nonneg prec emax ma ea mb eb) as H.
  destruct (SFdiv_core_binary prec emax (Zpos ma) ea (Zpos mb) eb) as [[mz ez] lz].
  simpl in H. now apply binary_round_aux_not_nan.
Qed.

Lemma SFmul_by_finite_nan prec emax a sb mb eb :
  sf_nan (SFmul prec emax a (S754_finite sb mb eb)) = sf_nan a.
Proof.
  destruct a as [sa|sa| |sa ma ea]; simpl; try reflexivity.
  apply binary_round_aux_not_nan. lia.
Qed.

Local Open Scope float_scope.

(** NaN in, NaN out. *)
Lemma mul_nan_l a b : is_nan a = true -> is_nan (a * b) = true.
Proof.
  rewrite !is_nan_spec, mul_spec. destruct (Prim2SF a); try discriminate. reflexivity.
Qed.

Lemma div_nan_l a b : is_nan a = true -> is_nan (a / b) = true.
Proof.
  rewrite !is_nan_spec, div_spec. destruct (Prim2SF a); try discriminate. reflexivity.
Qed.

(** For operands that are not infinite, a product is NaN exactly when an
    operand is. *)
Lemma mul_nan_iff a b :
  is_infinity a = false -> is_infinity b = false ->
  (is_nan (a * b) = true <-> is_nan a = true \/ is_nan b = true).
Proof.
  rewrite !is_nan_spec, !is_infinity_spec, mul_spec. unfold SF64mul.
  intros Ha Hb. rewrite (SFmul_nan _ _ _ _ Ha Hb). apply orb_true_iff.
Qed.

Lemma Prim2SF_100 :
  Prim2SF 100 = S754_finite false 7036874417766400 (-46).
Proof. reflexivity. Qed.

Lemma Prim2SF_two52 :
  Prim2SF two52 = S754_finite false 4503599627370496 0.
Proof. reflexivity. Qed.

Lemma rint_nan x : is_nan (rint x) = is_nan x.
Proof.
  unfold rint. destruct (abs x <? two52) eqn:E; [|reflexivity].
  rewrite ltb_spec, abs_spec, Prim2SF_two52 in E.
  assert (Hx : sf_nan (Prim2SF x) = false /\ sf_inf (Prim2SF x) = false).
  { destruct (Prim2SF x) as [[]|[]| |[] m e]; try discriminate; auto. }
  destruct Hx as [Hn Hi].
  assert (Hr : is_nan (abs x + two52 - two52) = false).
  { rewrite is_nan_spec, sub_spec, add_spec, abs_spec, Prim2SF_two52.
    apply SFsub_not_nan; try reflexivity.
    apply SFadd_not_nan; try reflexivity;
      destruct (Prim2SF x) as [[]|[]| |[] m e]; try discriminate; reflexivity. }
  rewrite (is_nan_spec x), Hn.
  destruct (sign_bit x); [|assumption].
  rewrite is_nan_spec, opp_spec. rewrite is_nan_spec in Hr.
  destruct (Prim2SF (abs x + two52 - two52)); try discriminate; reflexivity.
Qed.

(** Rounding to two decimals neither makes nor removes a NaN. *)
Lemma round2_nan x : is_nan (round2 x) = is_nan x.
Proof.
  unfold round2.
  rewrite is_nan_spec, div_spec, Prim2SF_100. unfold SF64div.
  rewrite SFdiv_by_finite_nan, <- is_nan_spec, rint_nan.
  rewrite is_nan_spec, mul_spec, Prim2SF_100. unfold SF64mul.
  rewrite SFmul_by_finite_nan, <- is_nan_spec. reflexivity.
Qed.

End NotANumber.

(** ** The derivation step *)

Section Derivation.
Import Py ProcessData.
Local Open Scope float_scope.
Context {q : Quicksort} {o : OtherDtypes}.

Lemma lookup_set name n c cs :
  lookup name (set n c cs) = if String.eqb n name then Some c else lookup name cs.
Proof.
  induction cs as [|[k v] t IH]; simpl.
  - destruct (String.eqb n name); reflexivity.
  - destruct (String.eqb k n) eqn:E; simpl.
    + apply String.eqb_eq in E. subst k.
      destruct (String.eqb n name); reflexivity.
    + destruct (String.eqb k name) eqn:E2.
      * apply String.eqb_eq in E2. subst k. rewrite String.eqb_sym in E.
        now rewrite E.
      * exact IH.
Qed.

Lemma value_set name n c d cs :
  value name (mkRow d (set n c cs))
  = if String.eqb n name then c else value name (mkRow d cs).
Proof.
  unfold value. cbn [vals]. rewrite lookup_set.
  destruct (String.eqb n name); reflexivity.
Qed.

(** A column that was assigned is found with its values, as long as
    there were as many values as rows; any other column is as before. *)
Lemma column_set_rows_same name (rows : DataFrame Cells) :
  forall values,
    List.length values = List.length rows ->
    map (value name) (set_rows name rows values) = values.
Proof.
  induction rows as [|r t IH]; intros [|v values] Hlen; simpl in *;
    try discriminate; [reflexivity|].
  rewrite value_set, String.eqb_refl. f_equal. apply IH. now injection Hlen.
Qed.

Lemma set_rows_length n (rows : DataFrame Cells) values :
  List.length (set_rows n rows values) = List.length rows.
Proof.
  revert values. induction rows as [|r t IH]; intros values; simpl; [reflexivity|].
  destruct values as [|v values]; simpl; now rewrite IH.
Qed.

Lemma column_set_rows_other name n (rows : DataFrame Cells) values :
  String.eqb n name = false ->
  map (value name) (set_rows n rows values) = map (value name) rows.
Proof.
  intros E. revert values. induction rows as [|r t IH]; intros values; simpl; [reflexivity|].
  destruct values as [|v values]; simpl; rewrite value_set, E, IH; destruct r; reflexivity.
Qed.

Lemma set_rows_dates n (rows : DataFrame Cells) values :
  dates (set_rows n rows values) = dates rows.
Proof.
  unfold dates. revert values.
  induction rows as [|r t IH]; intros values; simpl; [reflexivity|].
  destruct values as [|v values]; simpl; now rewrite IH.
Qed.

Lemma set_rows_map n (rows : DataFrame Cells) (f : Row Cells -> cell) :
  set_rows n rows (map f rows)
  = map (fun r => mkRow (Date r) (set n (f r) (vals r))) rows.
Proof. induction rows as [|r t IH]; simpl; [reflexivity|]. now rewrite IH. Qed.

Lemma float64_floats {A} (f : A -> float) (l : list A) :
  float64 (map (fun x => Float (f x)) l) = Some (map f l).
Proof.
  unfold float64.
  assert (H : forallb is_float (map (fun x => Float (f x)) l) = true)
    by (induction l; simpl; auto).
  rewrite H, map_map. reflexivity.
Qed.

Lemma zip_with_map {A} (op : float -> float -> float) (f g : A -> float) (l : list A) :
  zip_with op (map f l) (map g l) = map (fun x => op (f x) (g x)) l.
Proof. induction l as [|x t IH]; simpl; [reflexivity|]. now rewrite IH. Qed.

Lemma float_column name (rows : DataFrame Cells) :
  forallb (fun r => is_float (value name r)) rows = true ->
  map (value name) rows = map (fun r => Float (number (value name r))) rows.
Proof.
  intros H. apply map_ext_in. intros r Hr.
  rewrite forallb_forall in H. specialize (H r Hr).
  destruct (value name r); [reflexivity|discriminate].
Qed.

Lemma forallb_perm {A} (p : A -> bool) l l' :
  Permutation l l' -> forallb p l = forallb p l'.
Proof.
  induction 1; simpl; try congruence.
  destruct (p x), (p y); reflexivity.
Qed.

Lemma is_float64_sorted name df :
  is_float64 name df = true ->
  existsb (String.eqb name) (header df) = true
  /\ map (value name) (sort_values (body df))
     = map (fun r => Float (number (value name r))) (sort_values (body df)).
Proof.
  unfold is_float64. intros H. apply andb_true_iff in H. destruct H as [Hh Hf].
  split; [assumption|]. apply float_column.
  now rewrite (forallb_perm _ _ _ (sort_values_perm (body df))).
Qed.

Lemma column_assign name n values (t : Table) :
  column name (assign n values t)
  = if existsb (String.eqb name) (header t) || String.eqb name n
    then Ok (map (value name) (set_rows n (body t) values))
    else Raise (KeyError name).
Proof.
  unfold column, assign. cbn [header body].
  destruct (existsb (String.eqb n) (header t)) eqn:En.
  - destruct (String.eqb name n) eqn:E.
    + apply String.eqb_eq in E. subst name. rewrite En. reflexivity.
    + rewrite orb_false_r. reflexivity.
  - rewrite existsb_app. cbn [existsb]. rewrite orb_false_r. reflexivity.
Qed.

Lemma header_assign name n values (t : Table) :
  existsb (String.eqb name) (header (assign n values t))
  = existsb (String.eqb name) (header t) || String.eqb name n.
Proof.
  unfold assign. cbn [header].
  destruct (existsb (String.eqb n) (header t)) eqn:En.
  - destruct (String.eqb name n) eqn:E.
    + apply String.eqb_eq in E. subst name. rewrite En. reflexivity.
    + rewrite orb_false_r. reflexivity.
  - rewrite existsb_app. cbn [existsb]. rewrite orb_false_r. reflexivity.
Qed.

Lemma body_assign n values (t : Table) :
  body (assign n values t) = set_rows n (body t) values.
Proof. reflexivity. Qed.

(** The script on a table whose two earnings columns are float64: the
    Weekly Earnings it writes, whatever happens to the CPI. *)
Lemma process_macro_data_weekly (df out : Table) :
  is_float64 "Hourly Earnings" df = true ->
  is_float64 "Hours Worked" df = true ->
  process_macro_data (Some df) = Ok (Some out) ->
  dates (body out) = dates (sort_values (body df))
  /\ map Weekly_Earnings (body out)
     = map (fun r => Float (round2 (Hourly_Earnings r * Hours_Worked r)))
           (sort_values (body df))
  /\ forall name,
       String.eqb name "Weekly Earnings" = false ->
       String.eqb name "Real Weekly Earnings" = false ->
       map (value name) (body out) = map (value name) (sort_values (body df)).
Proof.
  intros He Hw.
  destruct (is_float64_sorted _ _ He) as [Hhe Ece].
  destruct (is_float64_sorted _ _ Hw) as [Hhw Ecw].
  unfold process_macro_data. cbv zeta.
  set (sorted := sort_values (body df)) in *.
  unfold column at 1 2. cbn [header body]. rewrite Hhe, Hhw. cbn [bind].
  rewrite Ece, Ecw. unfold mul. rewrite !float64_floats. cbn [bind].
  rewrite zip_with_map, map_map.
  rewrite !column_assign, ?header_assign, ?body_assign. cbn [header body]. column_names.
  rewrite ?orb_false_r, ?orb_true_r.
  destruct (existsb (String.eqb "CPI") (header df)); cbn [bind]; [|discriminate].
  destruct (iloc_last _) as [latest|]; cbn [bind]; [|discriminate].
  destruct (div _ _) as [ratio|]; cbn [bind]; [|discriminate].
  destruct (scale ratio latest) as [real|]; cbn [bind]; [|discriminate].
  rewrite !column_assign, ?header_assign, ?body_assign. cbn [header body]. column_names.
  rewrite ?orb_false_r, ?orb_true_r. cbn [bind].
  rewrite (column_set_rows_other "Weekly Earnings" "Real Weekly Earnings") by reflexivity.
  rewrite column_set_rows_same by (now rewrite !length_map).
  unfold round_2 at 1. rewrite float64_floats. cbn [bind]. rewrite map_map.
  rewrite !column_assign, ?header_assign, ?body_assign. cbn [header body]. column_names.
  rewrite ?orb_false_r, ?orb_true_r. cbn [bind].
  destruct (round_2 _) as [real'|]; cbn [bind]; [|discriminate].
  intros [= <-]. rewrite !body_assign. cbn [body]. split; [|split].
  - now rewrite !set_rows_dates.
  - unfold Weekly_Earnings.
    rewrite (column_set_rows_other "Weekly Earnings" "Real Weekly Earnings") by reflexivity.
    rewrite column_set_rows_same; [reflexivity|].
    now rewrite !set_rows_length, length_map.
  - intros name E1 E2. rewrite String.eqb_sym in E1, E2.
    now rewrite !column_set_rows_other by assumption.
Qed.

Lemma iloc_last_map {A B} (f : A -> B) (l : list A) :
  iloc_last (map f l)
  = match rev l with [] => Raise IndexError | x :: _ => Ok (f x) end.
Proof.
  unfold iloc_last. rewrite <- map_rev. destruct (rev l); reflexivity.
Qed.

(** The script on a table whose three columns are float64: it fails on
    a table without rows, and otherwise rescales by the CPI of the last
    row in date order. *)
Lemma process_macro_data_real (df : Table) :
  is_float64 "Hourly Earnings" df = true ->
  is_float64 "Hours Worked" df = true ->
  is_float64 "CPI" df = true ->
  match rev (sort_values (body df)) with
  | [] => process_macro_data (Some df) = Raise IndexError
  | latest :: _ =>
      exists out,
        process_macro_data (Some df) = Ok (Some out)
        /\ map Real_Weekly_Earnings (body out)
           = map (fun r => Float (round2 (Hourly_Earnings r * Hours_Worked r
                                          / CPI r * CPI latest)))
                 (sort_values (body df))
  end.
Proof.
  intros He Hw Hc.
  destruct (is_float64_sorted _ _ He) as [Hhe Ece].
  destruct (is_float64_sorted _ _ Hw) as [Hhw Ecw].
  destruct (is_float64_sorted _ _ Hc) as [Hhc Ecc].
  assert (Hstart :
    process_macro_data (Some df)
    = match rev (sort_values (body df)) with
      | [] => Raise IndexError
      | latest :: _ =>
          let sorted := sort_values (body df) in
          let product := fun r => Hourly_Earnings r * Hours_Worked r in
          let t1 := assign "Weekly Earnings" (map (fun r => Float (product r)) sorted)
                      (mkTable (header df) sorted) in
          let t2 := assign "Real Weekly Earnings"
                      (map (fun r => Float (product r / CPI r * CPI latest)) sorted) t1 in
          let t3 := assign "Weekly Earnings"
                      (map (fun r => Float (round2 (product r))) sorted) t2 in
          Ok (Some (assign "Real Weekly Earnings"
                      (map (fun r => Float (round2 (product r / CPI r * CPI latest)))
                           sorted) t3))
      end).
  { unfold process_macro_data. cbv zeta.
    set (sorted := sort_values (body df)) in *.
    unfold column at 1 2. cbn [header body]. rewrite Hhe, Hhw. cbn [bind].
    rewrite Ece, Ecw. unfold mul. rewrite !float64_floats. cbn [bind].
    rewrite zip_with_map, map_map.
    rewrite ?column_assign, ?header_assign, ?body_assign. cbn [header body bind]. column_names.
    rewrite ?orb_false_r, ?orb_true_r. cbn [bind].
    rewrite Hhc. cbn [bind].
    rewrite (column_set_rows_other "CPI" "Weekly Earnings") by reflexivity.
    rewrite Ecc, iloc_last_map.
    destruct (rev sorted) as [|latest rest]; [reflexivity|]. cbn [bind].
    rewrite column_set_rows_same by (now rewrite !length_map).
    unfold div. rewrite !float64_floats. cbn [bind]. rewrite zip_with_map, map_map.
    unfold scale. rewrite float64_floats. cbn [bind number]. rewrite map_map.
    rewrite ?column_assign, ?header_assign, ?body_assign. cbn [header body bind]. column_names.
    rewrite ?orb_false_r, ?orb_true_r. cbn [bind].
    rewrite (column_set_rows_other "Weekly Earnings" "Real Weekly Earnings") by reflexivity.
    rewrite column_set_rows_same by (now rewrite !length_map).
    unfold round_2 at 1. rewrite float64_floats. cbn [bind]. rewrite map_map.
    rewrite ?column_assign, ?header_assign, ?body_assign. cbn [header body bind]. column_names.
    rewrite ?orb_false_r, ?orb_true_r. cbn [bind].
    rewrite (column_set_rows_other "Real Weekly Earnings" "Weekly Earnings") by reflexivity.
    rewrite column_set_rows_same by (now rewrite !set_rows_length, !length_map).
    unfold round_2. rewrite float64_floats. cbn [bind]. rewrite map_map.
    reflexivity. }
  rewrite Hstart. destruct (rev (sort_values (body df))) as [|latest rest]; [reflexivity|].
  cbv zeta. eexists. split; [reflexivity|].
  rewrite !body_assign. cbn [body]. unfold Real_Weekly_Earnings.
  rewrite column_set_rows_same; [reflexivity|].
  now rewrite !set_rows_length, !length_map.
Qed.

Lemma sort_values_nonempty {V} (df : DataFrame V) : df <> [] -> sort_values df <> [].
Proof.
  intros H E. apply H. apply Permutation_nil.
  rewrite <- E. apply sort_values_perm.
Qed.

(** The last row of a table in date order carries the maximum date. *)
Lemma last_row_is_latest {V} (l : DataFrame V) latest t :
  StronglySorted by_date l -> rev l = latest :: t ->
  In latest l /\ forall r, In r l -> ts_leb (Date r) (Date latest) = true.
Proof.
  intros Hs Hrev.
  assert (Hl : l = rev t ++ [latest]).
  { rewrite <- (rev_involutive l), Hrev. reflexivity. }
  subst l. clear Hrev. split; [apply in_or_app; right; now left|].
  induction (rev t) as [|x u IH]; simpl in *.
  - intros r [<-|[]]. apply ts_leb_refl.
  - inversion Hs as [|? ? Hs' Hx]; subst.
    intros r [<-|Hr]; [|now apply IH].
    rewrite Forall_forall in Hx. apply Hx. apply in_or_app. right. now left.
Qed.

(** On a table with rows whose three columns are float64 the script
    returns, and the CPI it rescales by is that of a row of the maximum
    date. *)
Lemma process_macro_data_total (df : Table) :
  is_float64 "Hourly Earnings" df = true ->
  is_float64 "Hours Worked" df = true ->
  is_float64 "CPI" df = true ->
  body df <> [] ->
  exists latest out,
    process_macro_data (Some df) = Ok (Some out)
    /\ In latest (body df)
    /\ (forall r, In r (body df) -> ts_leb (Date r) (Date latest) = true)
    /\ map Real_Weekly_Earnings (body out)
       = map (fun r => Float (round2 (Hourly_Earnings r * Hours_Worked r
                                      / CPI r * CPI latest)))
             (sort_values (body df)).
Proof.
  intros He Hw Hc Hne.
  pose proof (process_macro_data_real df He Hw Hc) as H.
  destruct (rev (sort_values (body df))) as [|latest t] eqn:E.
  - exfalso. apply (sort_values_nonempty (body df) Hne).
    rewrite <- (rev_involutive (sort_values (body df))), E. reflexivity.
  - destruct H as [out [H Hr]]. exists latest, out.
    destruct (last_row_is_latest _ _ _ (sort_values_sorted (body df)) E) as [Hin Hmax].
    split; [assumption|]. split; [|split; [|assumption]].
    + eapply Permutation_in; [apply sort_values_perm|exact Hin].
    + intros r Hr'. apply Hmax.
      eapply Permutation_in; [symmetry; apply sort_values_perm|exact Hr'].
Qed.

End Derivation.

Section NotANumberAgain.
Local Open Scope float_scope.

Lemma SFmul_nan_cases prec emax a b :
  sf_nan (SFmul prec emax a b)
  = sf_nan a || sf_nan b || (sf_inf a && sf_zero b) || (sf_zero a && sf_inf b).
Proof.
  destruct a as [sa|sa| |sa ma ea], b as [sb|sb| |sb mb eb]; simpl;
    try reflexivity.
  apply binary_round_aux_not_nan. lia.
Qed.

Lemma is_zero_spec x : PrimFloat.is_zero x = sf_zero (Prim2SF x).
Proof.
  unfold PrimFloat.is_zero. rewrite eqb_spec.
  change (Prim2SF zero) with (S754_zero false).
  destruct (Prim2SF x) as [[]|[]| |[] m e]; reflexivity.
Qed.

(** A product is NaN exactly when an operand is, or when one operand is
    infinite and the other zero. *)
Lemma mul_nan_cases a b :
  is_nan (a * b)
  = is_nan a || is_nan b
    || (is_infinity a && is_zero b) || (is_zero a && is_infinity b).
Proof.
  rewrite !is_nan_spec, !is_infinity_spec, !is_zero_spec, mul_spec.
  apply SFmul_nan_cases.
Qed.

End NotANumberAgain.

Section OldWeeklyIncome.
Import Py CollectData.
Local Open Scope float_scope.

Lemma zip_rows_income to_numeric ds :
  forall rws he hw r,
    In r (zip_rows to_numeric ds rws he hw) ->
    Weekly_Income (vals r)
    = round0 (Hourly_Earnings (vals r) * Hours_Worked (vals r)).
Proof.
  induction ds as [|d ds IH]; intros [|row rws] [|e he] [|w hw] r; simpl;
    try tauto.
  intros [<-|H]; [reflexivity|]. eapply IH; eassumption.
Qed.

Lemma parse_json_income to_datetime to_numeric json_data columns table :
  parse_json to_datetime to_numeric json_data = Ok (columns, table) ->
  forall r, In r table ->
    Weekly_Income (vals r)
    = round0 (Hourly_Earnings (vals r) * Hours_Worked (vals r)).
Proof.
  unfold parse_json.
  destruct (parse_json_records json_data) as [rs|]; cbn [bind]; [|discriminate].
  destruct (pivot rs) as [w|]; cbn [bind]; [|discriminate].
  destruct (each to_datetime _) as [ds|]; cbn [bind]; [|discriminate].
  destruct (column "Hourly Earnings" w) as [he|]; cbn [bind]; [|discriminate].
  destruct (column "Hours Worked" w) as [hw|]; cbn [bind]; [|discriminate].
  intros [= _ <-] r Hr. eapply zip_rows_income; eassumption.
Qed.

End OldWeeklyIncome.

Section DerivedColumns.
Import Py ProcessData.
Local Open Scope float_scope.

(** C5 (as amended).  [process_data.process_macro_data]: on every table
    whose Hourly Earnings and Hours Worked columns are numeric (float64),
    whenever the script returns, its output holds the input rows in date
    order, each with a Weekly Earnings cell equal to the row's Hourly
    Earnings times its Hours Worked rounded to two decimals by
    [Series.round(2)]; and it does return when the CPI column is numeric too
    and the table has a row.  [collect_data.parse_json]: the derived column
    is ['Weekly Income'], the same product rounded to a whole number. *)
Theorem weekly_earnings_is_the_rounded_product :
  forall (q : Quicksort) (o : OtherDtypes),
    (forall df out : Table,
        is_float64 "Hourly Earnings" df = true ->
        is_float64 "Hours Worked" df = true ->
        process_macro_data (Some df) = Ok (Some out) ->
        dates (body out) = dates (sort_values (body df))
        /\ map Weekly_Earnings (body out)
           = map (fun r => Float (round2 (Hourly_Earnings r * Hours_Worked r)))
                 (sort_values (body df)))
    /\ (forall df : Table,
          is_float64 "Hourly Earnings" df = true ->
          is_float64 "Hours Worked" df = true ->
          is_float64 "CPI" df = true ->
          body df <> [] ->
          exists out, process_macro_data (Some df) = Ok (Some out))
    /\ (forall (to_datetime : string -> result Timestamp)
               (to_numeric : option string -> float)
               (json_data : Bls.json_data) columns table,
          CollectData.parse_json to_datetime to_numeric json_data = Ok (columns, table) ->
          forall r, In r table ->
            CollectData.Weekly_Income (vals r)
            = round0 (CollectData.Hourly_Earnings (vals r)
                      * CollectData.Hours_Worked (vals r))).
Proof.
  intros q o. split; [|split].
  - intros df out He Hw H.
    destruct (process_macro_data_weekly df out He Hw H) as [Hd [Hwe _]]. auto.
  - intros df He Hw Hc Hne.
    destruct (process_macro_data_total df He Hw Hc Hne) as [latest [out [H _]]]. eauto.
  - intros to_datetime to_numeric json_data columns table H.
    exact (parse_json_income _ _ _ _ _ H).
Qed.

Lemma weekly_earnings_is_the_rounded_product_witness :
  let q := insertion in
  let o := raising in
  exists out,
    process_macro_data (Some Examples.three_months) = Ok (Some out)
    /\ dates (body out) = dates (sort_values (body Examples.three_months))
    /\ map Weekly_Earnings (body out)
       = map (fun r => Float (round2 (Hourly_Earnings r * Hours_Worked r)))
             (sort_values (body Examples.three_months)).
Proof.
  intros q o.
  destruct (weekly_earnings_is_the_rounded_product q o) as [Hw [Ht _]].
  destruct (Ht Examples.three_months) as [out H]; try reflexivity; [discriminate|].
  exists out. split; [exact H|].
  apply (Hw Examples.three_months out); [reflexivity|reflexivity|exact H].
Defined.

(** C5 as stated fails on [collect_data.parse_json]: for June 2024 with
    27.15 an hour and 33.3 hours its derived column holds 904, where the
    product rounded to two decimals is 904.09. *)
Lemma weekly_income_is_rounded_to_whole_units :
  exists columns may june,
    CollectData.parse_json Examples.iso_date Examples.to_float Examples.earnings_payload
    = Ok (columns, [may; june])
    /\ CollectData.Hourly_Earnings (vals june) = 27.15
    /\ CollectData.Hours_Worked (vals june) = 33.3
    /\ CollectData.Weekly_Income (vals june) = 904
    /\ round2 (CollectData.Hourly_Earnings (vals june)
               * CollectData.Hours_Worked (vals june)) = 904.09
    /\ (CollectData.Weekly_Income (vals june)
        =? round2 (CollectData.Hourly_Earnings (vals june)
                   * CollectData.Hours_Worked (vals june))) = false.
Proof.
  do 3 eexists. split; [vm_compute; reflexivity|].
  repeat split; vm_compute; reflexivity.
Qed.

(** C6 as stated fails on the table [Examples.three_months] (April to June 2024):
    June is the row of the maximum date, yet its Real Weekly Earnings,
    904.1, differ from its Weekly Earnings, 904.09, because dividing and
    multiplying by the same CPI does not give back the product; May is
    not the latest row, yet its two values agree, since its CPI equals the
    latest one; and April's Real Weekly Earnings, 1117.47, are not the
    rounded Weekly Earnings 958.28 rescaled (1117.46), since the script
    rescales the unrounded product.  The dates of the table are distinct,
    so that the sort has one possible result. *)
Lemma real_weekly_earnings_counterexample :
  let q := insertion in
  let o := raising in
  exists columns april may june,
    process_macro_data (Some Examples.three_months)
    = Ok (Some (mkTable columns [april; may; june])) /\
    (forall r, In r (body Examples.three_months) -> ts_leb (Date r) (Date june) = true) /\
    Weekly_Earnings june = Float 904.09 /\
    Real_Weekly_Earnings june = Float 904.1 /\
    (904.1 =? 904.09) = false /\
    Date may <> Date june /\
    Weekly_Earnings may = Float 1020 /\
    Real_Weekly_Earnings may = Float 1020 /\
    Date april <> Date june /\
    Weekly_Earnings april = Float 958.28 /\
    Real_Weekly_Earnings april = Float 1117.47 /\
    round2 (958.28 / CPI april * CPI june) = 1117.46 /\
    (1117.47 =? 1117.46) = false.
Proof.
  cbv zeta. do 4 eexists. split; [vm_compute; reflexivity|].
  split.
  { intros r [<-|[<-|[<-|[]]]]; reflexivity. }
  repeat split; try (vm_compute; reflexivity); discriminate.
Qed.

(** C6 (as amended).  On every table with a row whose three columns are
    numeric (float64), with [latest] the last row in date order (a row of
    the maximum date), every output row's Real Weekly Earnings are the
    unrounded product Hourly Earnings times Hours Worked, divided by the
    row's CPI, multiplied by the CPI of [latest], and then rounded to two
    decimals; its Weekly Earnings are the same product rounded. *)
Theorem real_weekly_earnings_rescale_the_unrounded_product :
  forall (q : Quicksort) (o : OtherDtypes) (df : Table),
    is_float64 "Hourly Earnings" df = true ->
    is_float64 "Hours Worked" df = true ->
    is_float64 "CPI" df = true ->
    body df <> [] ->
    exists latest out,
      process_macro_data (Some df) = Ok (Some out) /\
      In latest (body df) /\
      (forall r, In r (body df) -> ts_leb (Date r) (Date latest) = true) /\
      dates (body out) = dates (sort_values (body df)) /\
      map Weekly_Earnings (body out)
      = map (fun r => Float (round2 (Hourly_Earnings r * Hours_Worked r)))
            (sort_values (body df)) /\
      map Real_Weekly_Earnings (body out)
      = map (fun r => Float (round2 (Hourly_Earnings r * Hours_Worked r
                                     / CPI r * CPI latest)))
            (sort_values (body df)).
Proof.
  intros q o df He Hw Hc Hne.
  destruct (process_macro_data_total df He Hw Hc Hne)
    as [latest [out [H [Hin [Hmax Hr]]]]].
  destruct (process_macro_data_weekly df out He Hw H) as [Hd [Hwe _]].
  exists latest, out. auto 10.
Qed.

Lemma real_weekly_earnings_rescale_the_unrounded_product_witness :
  let q := insertion in
  let o := raising in
  let df := Examples.three_months in
  exists latest out,
    process_macro_data (Some df) = Ok (Some out) /\
    In latest (body df) /\
    (forall r, In r (body df) -> ts_leb (Date r) (Date latest) = true) /\
    dates (body out) = dates (sort_values (body df)) /\
    map Weekly_Earnings (body out)
    = map (fun r => Float (round2 (Hourly_Earnings r * Hours_Worked r)))
          (sort_values (body df)) /\
    map Real_Weekly_Earnings (body out)
    = map (fun r => Float (round2 (Hourly_Earnings r * Hours_Worked r
                                   / CPI r * CPI latest)))
          (sort_values (body df)).
Proof.
  intros q o df.
  apply (real_weekly_earnings_rescale_the_unrounded_product q o df);
    try reflexivity. discriminate.
Defined.

Lemma map_eq_Forall2 {A B C} (f : A -> C) (g : B -> C) (l1 : list A) :
  forall l2 : list B, map f l1 = map g l2 -> Forall2 (fun a b => f a = g b) l1 l2.
Proof.
  induction l1 as [|a t IH]; intros [|b u] H; simpl in H; try discriminate;
    constructor.
  - now injection H.
  - apply IH. now injection H.
Qed.

(** C7 as stated fails on a file whose row has [inf] for Hourly Earnings
    and 0 for Hours Worked: neither is NaN, yet Weekly Earnings is. *)
Lemma infinite_earnings_times_zero_hours_is_nan :
  let q := insertion in
  let o := raising in
  exists columns r,
    process_macro_data (Some Examples.month_with_infinite_earnings)
    = Ok (Some (mkTable columns [r]))
    /\ is_nan (Hourly_Earnings r) = false
    /\ is_nan (Hours_Worked r) = false
    /\ is_float (Weekly_Earnings r) = true
    /\ is_nan (number (Weekly_Earnings r)) = true.
Proof.
  cbv zeta. do 2 eexists. split; [vm_compute; reflexivity|].
  repeat split; vm_compute; reflexivity.
Qed.

(** C7 (as amended).  On every table with a row whose three columns are
    numeric (float64) no row is dropped: the output holds the input rows in
    date order, with the cells they had.  In every row Weekly Earnings is
    NaN if and only if Hourly Earnings or Hours Worked is NaN, or one of
    them is infinite and the other zero; and whenever Weekly Earnings is
    NaN, so is Real Weekly Earnings. *)
Theorem nan_weekly_earnings_iff_nan_input :
  forall (q : Quicksort) (o : OtherDtypes) (df : Table),
    is_float64 "Hourly Earnings" df = true ->
    is_float64 "Hours Worked" df = true ->
    is_float64 "CPI" df = true ->
    body df <> [] ->
    exists out,
      process_macro_data (Some df) = Ok (Some out) /\
      dates (body out) = dates (sort_values (body df)) /\
      Permutation (sort_values (body df)) (body df) /\
      List.length (body out) = List.length (body df) /\
      (forall name,
          name <> "Weekly Earnings"%string -> name <> "Real Weekly Earnings"%string ->
          map (value name) (body out) = map (value name) (sort_values (body df))) /\
      Forall2
        (fun r w =>
           exists weekly real,
             Weekly_Earnings w = Float weekly /\
             Real_Weekly_Earnings w = Float real /\
             (is_nan weekly = true <->
              is_nan (Hourly_Earnings r) = true \/
              is_nan (Hours_Worked r) = true \/
              (is_infinity (Hourly_Earnings r) = true /\ is_zero (Hours_Worked r) = true) \/
              (is_zero (Hourly_Earnings r) = true /\ is_infinity (Hours_Worked r) = true)) /\
             (is_nan weekly = true -> is_nan real = true))
        (sort_values (body df)) (body out).
Proof.
  intros q o df He Hw Hc Hne.
  destruct (process_macro_data_total df He Hw Hc Hne)
    as [latest [out [H [_ [_ Hr]]]]].
  destruct (process_macro_data_weekly df out He Hw H) as [Hd [Hwe Hother]].
  exists out. split; [assumption|]. split; [assumption|].
  split; [apply sort_values_perm|]. split.
  { rewrite <- (length_map Date (body out)).
    change (map Date (body out)) with (dates (body out)). rewrite Hd.
    unfold dates. rewrite length_map. apply Permutation_length, sort_values_perm. }
  split.
  { intros name N1 N2. apply Hother; now apply String.eqb_neq. }
  symmetry in Hwe, Hr.
  apply map_eq_Forall2 in Hwe. apply map_eq_Forall2 in Hr.
  revert Hwe Hr. generalize (body out). generalize (sort_values (body df)).
  intros l. induction l as [|r t IH]; intros l' Hwe Hr;
    inversion Hwe as [|? w ? u Hw1 Hwt]; subst; [constructor|].
  inversion Hr as [|? ? ? ? Hr1 Hrt]; subst.
  constructor; [|now apply IH].
  eexists _, _. split; [symmetry; exact Hw1|]. split; [symmetry; exact Hr1|].
  rewrite !round2_nan. split.
  - rewrite mul_nan_cases, !orb_true_iff, !andb_true_iff. tauto.
  - intros Hn. apply mul_nan_l. now apply div_nan_l.
Qed.

Lemma nan_weekly_earnings_iff_nan_input_witness :
  let q := insertion in
  let o := raising in
  let df := Examples.month_with_missing_hours in
  exists out,
    process_macro_data (Some df) = Ok (Some out) /\
    dates (body out) = dates (sort_values (body df)) /\
    Permutation (sort_values (body df)) (body df) /\
    List.length (body out) = List.length (body df) /\
    (forall name,
        name <> "Weekly Earnings"%string -> name <> "Real Weekly Earnings"%string ->
        map (value name) (body out) = map (value name) (sort_values (body df))) /\
    Forall2
      (fun r w =>
         exists weekly real,
           Weekly_Earnings w = Float weekly /\
           Real_Weekly_Earnings w = Float real /\
           (is_nan weekly = true <->
            is_nan (Hourly_Earnings r) = true \/
            is_nan (Hours_Worked r) = true \/
            (is_infinity (Hourly_Earnings r) = true /\ is_zero (Hours_Worked r) = true) \/
            (is_zero (Hourly_Earnings r) = true /\ is_infinity (Hours_Worked r) = true)) /\
           (is_nan weekly = true -> is_nan real = true))
      (sort_values (body df)) (body out).
Proof.
  intros q o df.
  apply (nan_weekly_earnings_iff_nan_input q o df); try reflexivity. discriminate.
Defined.

End DerivedColumns.

(** * Further properties of the code *)

Open Scope Z_scope.

(** ** What a pivoted table holds *)

Section PivotContents.
Import Py.

Lemma pivot_Ok rs w :
  pivot rs = Ok w ->
  rs <> [] /\ NoDup (map key rs) /\
  w = mkWide (sorted_unique (map rSeries rs))
        (map (fun d => (d, map (cell rs d) (sorted_unique (map rSeries rs))))
             (sorted_unique (map rDate rs))).
Proof.
  unfold pivot. destruct rs as [|r t]; [discriminate|].
  destruct (duplicate_entries (r :: t)) eqn:E; [discriminate|].
  intros [= <-]. split; [discriminate|]. split; [|reflexivity].
  now apply duplicate_entries_spec.
Qed.

Lemma cell_of_record rs r :
  NoDup (map key rs) -> In r rs -> cell rs (rDate r) (rSeries r) = Some (rValue r).
Proof.
  intros Hnd Hin. unfold cell.
  rewrite (find_unique (rDate r) (rSeries r) rs r Hnd Hin); [reflexivity|].
  now apply same_key_spec.
Qed.

Lemma cell_Some rs d c v :
  cell rs d c = Some v -> In (mkRecord d c v) rs.
Proof.
  unfold cell. destruct (find (same_key d c) rs) as [r|] eqn:E; [|discriminate].
  intros [= <-]. apply find_some in E. destruct E as [Hin Hk].
  apply same_key_spec in Hk. destruct r as [d' c' v']. unfold key in Hk. simpl in *.
  now inversion Hk; subst.
Qed.

Lemma cell_None rs d c :
  cell rs d c = None -> forall v, ~ In (mkRecord d c v) rs.
Proof.
  unfold cell. destruct (find (same_key d c) rs) as [r|] eqn:E; [discriminate|].
  intros _ v Hin. pose proof (find_none _ _ E _ Hin) as H.
  unfold same_key in H. simpl in H. now rewrite !String.eqb_refl in H.
Qed.

Lemma nth_error_map_Some {A B} (f : A -> B) l i y :
  nth_error (map f l) i = Some y -> exists x, nth_error l i = Some x /\ y = f x.
Proof.
  rewrite nth_error_map. destruct (nth_error l i) as [x|]; [|discriminate].
  intros [= <-]. eauto.
Qed.

End PivotContents.

(** In a pivoted table every record is found again: the row of its
    date holds its value in the column of its series.  Conversely a cell
    that holds a value comes from a record with that date, series and value,
    an empty cell (NaN) means no record has that date and series, and every
    row has one cell per column. *)
Lemma pivot_cells :
  forall (rs : list record) (w : Wide),
    pivot rs = Py.Ok w ->
    (forall r, In r rs ->
       exists cells i,
         In (rDate r, cells) (rows w) /\
         nth_error (columns w) i = Some (rSeries r) /\
         nth_error cells i = Some (Some (rValue r)))
    /\ (forall d cells, In (d, cells) (rows w) ->
          List.length cells = List.length (columns w) /\
          forall i c,
            nth_error (columns w) i = Some c ->
            (forall v, nth_error cells i = Some (Some v) -> In (mkRecord d c v) rs) /\
            (nth_error cells i = Some None -> forall v, ~ In (mkRecord d c v) rs)).
Proof.
  intros rs w H. destruct (pivot_Ok _ _ H) as [Hne [Hnd ->]]. cbn [rows columns].
  split.
  - intros r Hr.
    assert (Hc : In (rSeries r) (sorted_unique (map rSeries rs)))
      by (apply sorted_unique_In; now apply in_map).
    destruct (In_nth_error _ _ Hc) as [i Hi].
    exists (map (cell rs (rDate r)) (sorted_unique (map rSeries rs))), i.
    split; [|split; [exact Hi|]].
    + apply in_map_iff. exists (rDate r). split; [reflexivity|].
      apply sorted_unique_In. now apply in_map.
    + rewrite nth_error_map, Hi. simpl. f_equal. now apply cell_of_record.
  - intros d cells Hin. apply in_map_iff in Hin. destruct Hin as [d' [[= <- <-] _]].
    split; [apply length_map|].
    intros i c Hi. rewrite nth_error_map, Hi. simpl. split.
    + intros v [= Hv]. now apply cell_Some.
    + intros [= Hn]. now apply cell_None.
Qed.

(** The axes of a pivoted table: the rows come in strictly ascending
    order of their date strings and the columns in strictly ascending order
    of their names, so neither repeats, and they are exactly the dates and
    the series names that occur in the records. *)
Lemma pivot_axes :
  forall (rs : list record) (w : Wide),
    pivot rs = Py.Ok w ->
    StronglySorted str_lt (map fst (rows w)) /\
    StronglySorted str_lt (columns w) /\
    NoDup (map fst (rows w)) /\
    NoDup (columns w) /\
    (forall d, In d (map fst (rows w)) <-> In d (map rDate rs)) /\
    (forall c, In c (columns w) <-> In c (map rSeries rs)).
Proof.
  intros rs w H. destruct (pivot_Ok _ _ H) as [Hne [Hnd ->]]. cbn [rows columns].
  rewrite map_map. cbn [fst]. rewrite map_id.
  assert (Hsn : forall l, StronglySorted str_lt l -> NoDup l).
  { induction 1 as [|x t Hs IH Hx]; constructor; [|assumption].
    intros Hin. rewrite Forall_forall in Hx. specialize (Hx x Hin).
    unfold str_lt in Hx. rewrite str_ltb_irrefl in Hx. discriminate. }
  repeat split; try apply sorted_unique_sorted;
    try (apply Hsn, sorted_unique_sorted); try apply sorted_unique_In.
Qed.

Lemma pivot_raise_kinds rs e :
  pivot rs = Py.Raise e ->
  (e = Py.KeyError "Date" /\ rs = []) \/ (e = Py.ValueError /\ rs <> []).
Proof.
  unfold pivot. destruct rs as [|r t]; [intros [= <-]; now left|].
  destruct (duplicate_entries (r :: t)); [|discriminate].
  intros [= <-]. right. split; [reflexivity|discriminate].
Qed.

(** When [pivot] fails: on no records at all it raises
    [KeyError('Date')]; on records of which two share a date and a series it
    raises [ValueError] (it does not keep the last one); on anything else it
    returns a table, and it raises nothing else. *)
Lemma pivot_outcomes :
  forall rs : list record,
    (pivot rs = Py.Raise (Py.KeyError "Date") <-> rs = []) /\
    (pivot rs = Py.Raise Py.ValueError <-> rs <> [] /\ ~ NoDup (map key rs)) /\
    ((exists w, pivot rs = Py.Ok w) <-> rs <> [] /\ NoDup (map key rs)) /\
    (forall e, pivot rs = Py.Raise e -> e = Py.KeyError "Date" \/ e = Py.ValueError).
Proof.
  intros rs. unfold pivot. destruct rs as [|r t].
  - split; [tauto|]. split; [split; [discriminate|tauto]|].
    split; [split; [intros [w H]; discriminate|tauto]|].
    intros e [= <-]. now left.
  - destruct (duplicate_entries (r :: t)) eqn:E.
    + assert (Hd : ~ NoDup (map key (r :: t))).
      { intros Hnd. apply duplicate_entries_spec in Hnd. congruence. }
      split; [split; discriminate|].
      split; [split; [intros _; split; [discriminate|assumption]|reflexivity]|].
      split; [split; [intros [w H]; discriminate|tauto]|].
      intros e [= <-]. now right.
    + apply duplicate_entries_spec in E.
      split; [split; discriminate|].
      split; [split; [discriminate|tauto]|].
      split; [split; [intros _; split; [discriminate|assumption]|eauto]|].
      discriminate.
Qed.

(** ** The three parsers side by side *)

Section Parsers.
Import Py.

Lemma extend_each_ext {A B} (f g : A -> result (list B)) xs :
  (forall x, In x xs -> f x = g x) -> extend_each f xs = extend_each g xs.
Proof.
  induction xs as [|x t IH]; intros H; simpl; [reflexivity|].
  rewrite (H x (or_introl eq_refl)), IH by (intros; apply H; now right).
  reflexivity.
Qed.

Lemma extend_each_Ok {A B} (f : A -> result (list B)) (g : A -> list B) xs :
  (forall x, In x xs -> f x = Ok (g x)) -> extend_each f xs = Ok (flat_map g xs).
Proof.
  induction xs as [|x t IH]; intros H; simpl; [reflexivity|].
  rewrite (H x (or_introl eq_refl)), IH by (intros; apply H; now right).
  reflexivity.
Qed.

Lemma parse_series_same s :
  UpdateRawData.parse_series s = InitialRawData.parse_series s.
Proof. reflexivity. Qed.

(** The record one monthly observation gives. *)
Lemma monthly_item_record col (it : Bls.item) :
  In (Bls.period it) Bls.monthly_codes ->
  let r := mkRecord (Bls.year it ++ "-" ++ substring 1 2 (Bls.period it) ++ "-01")
                    col (Bls.value it) in
  InitialRawData.parse_item col it = Ok [r] /\
  UpdateRawData.parse_item col it = Ok [r] /\
  CollectData.parse_item col it = Ok [r].
Proof.
  unfold InitialRawData.parse_item, UpdateRawData.parse_item, CollectData.parse_item.
  destruct it as [y p v]. cbn [Bls.period Bls.year Bls.value].
  unfold Bls.monthly_codes. intros H.
  repeat (destruct H as [<-|H]; [repeat split|]). destruct H.
Qed.

End Parsers.

Lemma parse_and_process_spec (json_data : Bls.json_data) :
  UpdateRawData.parse_and_process json_data
  = match InitialRawData.parse_bls_response json_data with
    | Py.Raise e => Py.Raise e
    | Py.Ok [] => Py.Ok no_frame
    | Py.Ok (r :: rest) => pivot (r :: rest)
    end.
Proof.
  destruct json_data as [o|]; [|reflexivity].
  unfold UpdateRawData.parse_and_process, UpdateRawData.parse_records,
    InitialRawData.parse_bls_response.
  destruct (Bls.falsy (Some o) || negb (Bls.has_Results o)); [reflexivity|].
  destruct (Bls.Results o) as [res|]; [|reflexivity].
  destruct (Bls.series res) as [blocks|]; [|reflexivity].
  change (Py.extend_each UpdateRawData.parse_series blocks)
    with (Py.extend_each InitialRawData.parse_series blocks).
  destruct (Py.extend_each InitialRawData.parse_series blocks) as [[|r rest]|e];
    reflexivity.
Qed.

(** X1.  The updater's parser and the backfill's parser agree on every
    payload: [parse_and_process] returns the pivot of exactly the records
    [parse_bls_response] returns, an empty frame when there are none, and
    raises where it raises. *)
Theorem parse_and_process_pivots_the_backfill_records :
  forall json_data : Bls.json_data,
    UpdateRawData.parse_and_process json_data
    = match InitialRawData.parse_bls_response json_data with
      | Py.Raise e => Py.Raise e
      | Py.Ok [] => Py.Ok no_frame
      | Py.Ok (r :: rest) => pivot (r :: rest)
      end.
Proof. exact parse_and_process_spec. Qed.

(** X2.  What the guarded parsers can raise.  An answer whose ['Results']
    object has no ['series'] passes the guard and raises
    [KeyError('series')].  With ['series'] present the only exception is the
    [ValueError] of [int()], raised exactly when some observation has a period
    that contains ["M"], is not ["M13"], and does not read as an integer once
    the ["M"] is removed; the same holds for [parse_and_process] up to the
    [ValueError] of [pivot]. *)
Theorem guarded_parser_exceptions :
  forall (keys : list string),
    (InitialRawData.parse_bls_response
       (Some (Bls.mkObject keys (Some (Bls.mkResults None))))
     = Py.Raise (Py.KeyError "series")) /\
    (UpdateRawData.parse_and_process
       (Some (Bls.mkObject keys (Some (Bls.mkResults None))))
     = Py.Raise (Py.KeyError "series")) /\
    forall blocks : list Bls.series_block,
      let json_data := Some (Bls.mkObject keys (Some (Bls.mkResults (Some blocks)))) in
      let unreadable (it : Bls.item) :=
        Py.contains "M" (Bls.period it) &&
        negb (String.eqb (Bls.period it) "M13") &&
        Py.raises (Py.int (Py.replace_by_empty "M" (Bls.period it))) in
      (InitialRawData.parse_bls_response json_data = Py.Raise Py.ValueError <->
       exists s it, In s blocks /\ In it (Bls.data s) /\ unreadable it = true) /\
      (forall e, InitialRawData.parse_bls_response json_data = Py.Raise e ->
                 e = Py.ValueError) /\
      (forall e, UpdateRawData.parse_and_process json_data = Py.Raise e ->
                 e = Py.ValueError).
Proof.
  intros keys. split; [now destruct keys|]. split; [now destruct keys|].
  intros blocks json_data unreadable.
  assert (Hp : InitialRawData.parse_bls_response json_data
               = Py.extend_each InitialRawData.parse_series blocks)
    by (now destruct keys).
  assert (Hraise : forall it col,
             Py.raises (InitialRawData.parse_item col it) = unreadable it).
  { intros it col. unfold InitialRawData.parse_item, unreadable. cbv zeta.
    destruct (Py.contains "M" (Bls.period it) && negb (Bls.period it =? "M13")%string);
      [|reflexivity].
    destruct (Py.int _); reflexivity. }
  assert (Hspec := extend_each_spec InitialRawData.parse_series blocks
                     (fun x e _ => parse_series_raises x e)).
  rewrite Hp, Hspec.
  assert (Hex : existsb (fun s => Py.raises (InitialRawData.parse_series s)) blocks = true
                <-> exists s it, In s blocks /\ In it (Bls.data s) /\ unreadable it = true).
  { rewrite existsb_exists. split.
    - intros [s [Hs Hr]]. rewrite parse_series_spec in Hr. cbv zeta in Hr.
      destruct (existsb _ (Bls.data s)) eqn:E; [|discriminate].
      apply existsb_exists in E. destruct E as [it [Hit Hb]].
      rewrite Hraise in Hb. eauto.
    - intros [s [it [Hs [Hit Hb]]]]. exists s. split; [assumption|].
      rewrite parse_series_spec. cbv zeta.
      assert (E : existsb (fun it0 => Py.raises (InitialRawData.parse_item
                   (Py.get InitialRawData.SERIES_MAPPING (Bls.seriesID s) (Bls.seriesID s)) it0))
                   (Bls.data s) = true).
      { apply existsb_exists. exists it. rewrite Hraise. auto. }
      now rewrite E. }
  split; [|split].
  - rewrite <- Hex. destruct (existsb _ blocks); split; congruence.
  - intros e. destruct (existsb _ blocks); [|discriminate]. now intros [= <-].
  - intros e. rewrite parse_and_process_spec, Hp, Hspec.
    destruct (existsb _ blocks); [now intros [= <-]|].
    destruct (flat_map _ blocks) as [|r rest] eqn:E; [discriminate|].
    intros H. destruct (pivot_raise_kinds _ _ H) as [[_ Hn]|[-> _]];
      [discriminate|reflexivity].
Qed.

Lemma flat_map_singleton {A B} (f : A -> B) l :
  flat_map (fun x => [f x]) l = map f l.
Proof. induction l as [|x t IH]; simpl; congruence. Qed.

(** X3.  On an answer whose observations all carry a monthly code
    (M01 to M12) the three parsers build the same long records, in the order
    of the answer: one per observation, dated [year-MM-01] with [MM] the two
    digits of the period, named by the series table (the identifier itself
    when the table does not know it), and holding the value string as it
    came. *)
Theorem monthly_observations_become_records :
  forall (keys : list string) (blocks : list Bls.series_block),
    (forall s it, In s blocks -> In it (Bls.data s) ->
                  In (Bls.period it) Bls.monthly_codes) ->
    let json_data := Some (Bls.mkObject keys (Some (Bls.mkResults (Some blocks)))) in
    let records :=
      flat_map
        (fun s =>
           map (fun it =>
                  mkRecord (Bls.year it ++ "-" ++ substring 1 2 (Bls.period it) ++ "-01")
                           (Py.get InitialRawData.SERIES_MAPPING
                                   (Bls.seriesID s) (Bls.seriesID s))
                           (Bls.value it))
               (Bls.data s))
        blocks in
    InitialRawData.parse_bls_response json_data = Py.Ok records /\
    CollectData.parse_json_records json_data = Py.Ok records /\
    UpdateRawData.parse_and_process json_data
    = match records with [] => Py.Ok no_frame | _ => pivot records end.
Proof.
  intros keys blocks Hm json_data records.
  assert (H1 : InitialRawData.parse_bls_response json_data = Py.Ok records).
  { transitivity (Py.extend_each InitialRawData.parse_series blocks);
      [now destruct keys|].
    apply extend_each_Ok. intros s Hs. unfold InitialRawData.parse_series. cbv zeta.
    rewrite <- flat_map_singleton. apply extend_each_Ok. intros it Hit.
    now apply monthly_item_record, (Hm s). }
  split; [exact H1|]. split.
  - unfold json_data, CollectData.parse_json_records. cbn [Bls.Results Bls.series].
    apply extend_each_Ok. intros s Hs. unfold CollectData.parse_series. cbv zeta.
    rewrite <- flat_map_singleton. apply extend_each_Ok. intros it Hit.
    change CollectData.series_keys with InitialRawData.SERIES_MAPPING.
    now apply monthly_item_record, (Hm s).
  - rewrite parse_and_process_spec, H1. destruct records; reflexivity.
Qed.

Lemma monthly_observations_become_records_witness :
  let keys := ["status"]%string in
  let blocks :=
    [Bls.mkSeries "CUUR0000SA0" [Bls.mkItem "2019" "M02" "252.776"; Bls.mkItem "2019" "M01" "251.712"];
     Bls.mkSeries "XYZ" [Bls.mkItem "2019" "M01" "-"]] in
  let json_data := Some (Bls.mkObject keys (Some (Bls.mkResults (Some blocks)))) in
  let records :=
    flat_map
      (fun s =>
         map (fun it =>
                mkRecord (Bls.year it ++ "-" ++ substring 1 2 (Bls.period it) ++ "-01")
                         (Py.get InitialRawData.SERIES_MAPPING
                                 (Bls.seriesID s) (Bls.seriesID s))
                         (Bls.value it))
             (Bls.data s))
      blocks in
  InitialRawData.parse_bls_response json_data = Py.Ok records /\
  CollectData.parse_json_records json_data = Py.Ok records /\
  UpdateRawData.parse_and_process json_data
  = match records with [] => Py.Ok no_frame | _ => pivot records end.
Proof.
  intros keys blocks.
  apply (monthly_observations_become_records keys blocks).
  intros s it [<-|[<-|[]]]; simpl.
  - intros [<-|[<-|[]]]; simpl; auto 12.
  - intros [<-|[]]; simpl; auto 12.
Defined.

(** ** The table of the updater's parser *)

Section UpdaterTable.
Import Py InitialRawData.

Lemma existsb_map_comp {A B} (f : B -> bool) (g : A -> B) l :
existsb f (map g l) = existsb (fun x => f (g x)) l.
Proof. induction l as [|x t IH]; simpl; congruence. Qed.

Lemma flat_map_map_comp {A B C} (f : B -> list C) (g : A -> B) l :
flat_map f (map g l) = flat_map (fun x => f (g x)) l.
Proof. induction l as [|x t IH]; simpl; congruence. Qed.

Lemma existsb_perm {A} (f : A -> bool) l l' :
Permutation l l' -> existsb f l = existsb f l'.
Proof.
induction 1; simpl; try congruence.
destruct (f x), (f y); reflexivity.
Qed.

(** The column an observation of series [sid] lands in, what one
    observation contributes, and whether it makes the parser raise. *)
Lemma parse_response_by_observation keys blocks :
parse_bls_response (Some (Bls.mkObject keys (Some (Bls.mkResults (Some blocks)))))
= if existsb (fun p => raises (parse_item (get SERIES_MAPPING (fst p) (fst p)) (snd p)))
             (Bls.observations blocks)
  then Raise ValueError
  else Ok (flat_map (fun p => outputs (parse_item (get SERIES_MAPPING (fst p) (fst p))) (snd p))
                    (Bls.observations blocks)).
Proof.
transitivity (extend_each parse_series blocks); [now destruct keys|].
rewrite extend_each_spec by (intros x e _; apply parse_series_raises).
unfold Bls.observations.
induction blocks as [|s t IH]; [reflexivity|].
cbn [existsb flat_map]. rewrite existsb_app, flat_map_app, existsb_map_comp, flat_map_map_comp.
cbn [fst snd]. unfold outputs at 1. rewrite parse_series_spec. cbv zeta; cbn [raises].
destruct (existsb _ (Bls.data s)); cbn [raises orb]; [reflexivity|].
destruct (existsb _ t); [destruct (existsb _ (flat_map _ t)); [reflexivity|discriminate]|].
destruct (existsb _ (flat_map _ t)); [discriminate|].
injection IH as IH. now rewrite IH.
Qed.

Lemma parse_item_record col it r :
In r (outputs (parse_item col) it) ->
contains "M" (Bls.period it) && negb (String.eqb (Bls.period it) "M13") = true
/\ exists month, int (replace_by_empty "M" (Bls.period it)) = Ok month
   /\ r = mkRecord (Bls.year it ++ "-" ++ format_02d month ++ "-01") col (Bls.value it).
Proof.
unfold outputs, parse_item. cbv zeta.
destruct (contains "M" (Bls.period it) && negb (Bls.period it =? "M13")%string);
  [|intros []].
destruct (int (replace_by_empty "M" (Bls.period it))) as [m|e]; cbn [bind]; [|intros []].
intros [<-|[]]. split; [reflexivity|]. exists m. split; reflexivity.
Qed.

Lemma In_observations blocks s it :
In s blocks -> In it (Bls.data s) -> In (Bls.seriesID s, it) (Bls.observations blocks).
Proof.
intros Hs Hit. unfold Bls.observations. apply in_flat_map. exists s. split; [assumption|].
now apply in_map.
Qed.

Lemma observations_In blocks sid it :
In (sid, it) (Bls.observations blocks) ->
exists s, In s blocks /\ In it (Bls.data s) /\ Bls.seriesID s = sid.
Proof.
unfold Bls.observations. rewrite in_flat_map. intros [s [Hs Hin]].
apply in_map_iff in Hin. destruct Hin as [it' [[= <- <-] Hit]]. eauto.
Qed.

Lemma repeated_key_no_NoDup {A} (k : A) l1 l2 l3 : ~ NoDup (l1 ++ k :: l2 ++ k :: l3).
Proof.
intros H. apply NoDup_remove_2 in H. apply H.
apply in_or_app. right. apply in_or_app. right. now left.
Qed.

End UpdaterTable.

(** X5.  The table [update_raw_data.parse_and_process] returns for an
    answer with series.  Every observation with a monthly code M01..M12 is
    found in it: the row dated [year-MM-01] holds its value in the column of
    its series.  The rows come in strictly ascending order of their date
    strings and the columns in strictly ascending order of their names,
    every row has one cell per column, and every filled cell holds the value
    of an observation of that column and date that passed the filter. *)
Theorem parse_and_process_table_holds_the_monthly_observations :
forall (keys : list string) (blocks : list Bls.series_block) (w : Wide),
  UpdateRawData.parse_and_process
    (Some (Bls.mkObject keys (Some (Bls.mkResults (Some blocks))))) = Py.Ok w ->
  (forall s it, In s blocks -> In it (Bls.data s) ->
     In (Bls.period it) Bls.monthly_codes ->
     exists cells i,
       In ((Bls.year it ++ "-" ++ substring 1 2 (Bls.period it) ++ "-01")%string, cells)
          (rows w)
       /\ nth_error (columns w) i
          = Some (Py.get UpdateRawData.SERIES_MAPPING (Bls.seriesID s) (Bls.seriesID s))
       /\ nth_error cells i = Some (Some (Bls.value it)))
  /\ StronglySorted str_lt (map fst (rows w))
  /\ StronglySorted str_lt (columns w)
  /\ (forall d cells, In (d, cells) (rows w) ->
        List.length cells = List.length (columns w))
  /\ (forall d cells i c v,
        In (d, cells) (rows w) ->
        nth_error (columns w) i = Some c ->
        nth_error cells i = Some (Some v) ->
        exists s it month,
          In s blocks /\ In it (Bls.data s)
          /\ Py.contains "M" (Bls.period it)
             && negb (String.eqb (Bls.period it) "M13") = true
          /\ Py.int (Py.replace_by_empty "M" (Bls.period it)) = Py.Ok month
          /\ d = (Bls.year it ++ "-" ++ Py.format_02d month ++ "-01")%string
          /\ c = Py.get UpdateRawData.SERIES_MAPPING (Bls.seriesID s) (Bls.seriesID s)
          /\ v = Bls.value it).
Proof.
intros keys blocks w. rewrite parse_and_process_spec, parse_response_by_observation.
destruct (existsb _ (Bls.observations blocks)); [discriminate|].
set (records := flat_map _ (Bls.observations blocks)).
assert (Hrec : forall s it, In s blocks -> In it (Bls.data s) ->
          In (Bls.period it) Bls.monthly_codes ->
          In (mkRecord (Bls.year it ++ "-" ++ substring 1 2 (Bls.period it) ++ "-01")
                (Py.get InitialRawData.SERIES_MAPPING (Bls.seriesID s) (Bls.seriesID s))
                (Bls.value it)) records).
{ intros s it Hs Hit Hm. unfold records. apply in_flat_map.
  exists (Bls.seriesID s, it). split; [now apply In_observations|].
  cbn [fst snd]. unfold Py.outputs.
  destruct (monthly_item_record
              (Py.get InitialRawData.SERIES_MAPPING (Bls.seriesID s) (Bls.seriesID s))
              it Hm) as [-> _]. now left. }
assert (Hsrc : forall d c v, In (mkRecord d c v) records ->
          exists s it month,
            In s blocks /\ In it (Bls.data s)
            /\ Py.contains "M" (Bls.period it)
               && negb (String.eqb (Bls.period it) "M13") = true
            /\ Py.int (Py.replace_by_empty "M" (Bls.period it)) = Py.Ok month
            /\ d = (Bls.year it ++ "-" ++ Py.format_02d month ++ "-01")%string
            /\ c = Py.get UpdateRawData.SERIES_MAPPING (Bls.seriesID s) (Bls.seriesID s)
            /\ v = Bls.value it).
{ intros d c v Hin. unfold records in Hin. apply in_flat_map in Hin.
  destruct Hin as [[sid it] [Hobs Hr]]. cbn [fst snd] in Hr.
  apply parse_item_record in Hr. destruct Hr as [Hf [month [Hm [= -> -> ->]]]].
  apply observations_In in Hobs. destruct Hobs as [s [Hs [Hit <-]]].
  exists s, it, month. repeat split; assumption. }
destruct records as [|r rest] eqn:E.
- intros [= <-]. cbn [rows columns no_frame map].
  split; [intros s it Hs Hit Hm; destruct (Hrec s it Hs Hit Hm)|].
  split; [constructor|]. split; [constructor|].
  split; [intros ? ? []|intros ? ? ? ? ? []].
- intros Hw. destruct (pivot_cells _ _ Hw) as [Hall Hcells].
  destruct (pivot_axes _ _ Hw) as [Hr [Hc _]].
  split.
  + intros s it Hs Hit Hm. destruct (Hall _ (Hrec s it Hs Hit Hm)) as [cells [i H]].
    exists cells, i. exact H.
  + split; [assumption|]. split; [assumption|]. split.
    * intros d cells Hin. now apply (Hcells d cells Hin).
    * intros d cells i c v Hin Hi Hv.
      destruct (Hcells d cells Hin) as [_ Hcell].
      destruct (Hcell i c Hi) as [Hsome _]. apply Hsrc. now apply Hsome.
Qed.

Lemma parse_and_process_table_holds_the_monthly_observations_witness :
let blocks :=
  [Bls.mkSeries "CUUR0000SA0"
     [Bls.mkItem "2019" "M13" "255.657"; Bls.mkItem "2019" "M02" "252.776";
      Bls.mkItem "2019" "M01" "251.712"];
   Bls.mkSeries "XYZ" [Bls.mkItem "2019" "M01" "-"]] in
let w := mkWide ["CPI"; "XYZ"]%string
           [("2019-01-01", [Some "251.712"; Some "-"]);
            ("2019-02-01", [Some "252.776"; None])]%string in
UpdateRawData.parse_and_process
  (Some (Bls.mkObject ["status"]%string (Some (Bls.mkResults (Some blocks))))) = Py.Ok w
/\ StronglySorted str_lt (map fst (rows w))
/\ StronglySorted str_lt (columns w).
Proof.
intros blocks w.
assert (H : UpdateRawData.parse_and_process
              (Some (Bls.mkObject ["status"]%string (Some (Bls.mkResults (Some blocks)))))
            = Py.Ok w) by reflexivity.
split; [exact H|].
destruct (parse_and_process_table_holds_the_monthly_observations
            ["status"]%string blocks w H) as [_ [Hr [Hc _]]].
split; assumption.
Defined.

(** X6.  An answer that lists the same month of the same column twice
    makes [update_raw_data.parse_and_process] raise [ValueError]: either
    [int()] has failed on some period before, or [pivot] refuses the
    repeated index.  The two observations may sit in one series or in two
    series the table maps to one column name. *)
Theorem parse_and_process_raises_on_a_repeated_month :
forall (keys : list string) (blocks : list Bls.series_block)
       (sid sid' : string) (it it' : Bls.item)
       (l1 l2 l3 : list (string * Bls.item)),
  Bls.observations blocks = l1 ++ (sid, it) :: l2 ++ (sid', it') :: l3 ->
  Py.get UpdateRawData.SERIES_MAPPING sid sid
  = Py.get UpdateRawData.SERIES_MAPPING sid' sid' ->
  In (Bls.period it) Bls.monthly_codes ->
  Bls.year it' = Bls.year it ->
  Bls.period it' = Bls.period it ->
  UpdateRawData.parse_and_process
    (Some (Bls.mkObject keys (Some (Bls.mkResults (Some blocks)))))
  = Py.Raise Py.ValueError.
Proof.
intros keys blocks sid sid' it it' l1 l2 l3 Hobs Hcol Hm Hy Hp.
rewrite parse_and_process_spec, parse_response_by_observation.
destruct (existsb _ (Bls.observations blocks)); [reflexivity|].
rewrite Hobs, flat_map_app. cbn [flat_map]. rewrite flat_map_app. cbn [flat_map fst snd].
assert (Hm' : In (Bls.period it') Bls.monthly_codes) by now rewrite Hp.
unfold Py.outputs at 2 4.
destruct (monthly_item_record
            (Py.get InitialRawData.SERIES_MAPPING sid sid) it Hm) as [-> _].
destruct (monthly_item_record
            (Py.get InitialRawData.SERIES_MAPPING sid' sid') it' Hm') as [-> _].
set (R1 := flat_map _ l1). set (R2 := flat_map _ l2). set (R3 := flat_map _ l3).
set (r := mkRecord _ _ (Bls.value it)). set (r' := mkRecord _ _ (Bls.value it')).
assert (Hk : key r' = key r).
{ unfold key, r, r'. cbn [rDate rSeries]. rewrite Hy, Hp.
  change InitialRawData.SERIES_MAPPING with UpdateRawData.SERIES_MAPPING.
  now rewrite Hcol. }
assert (Hnd : ~ NoDup (map key (R1 ++ [r] ++ R2 ++ [r'] ++ R3))).
{ rewrite !map_app. cbn [map app]. rewrite Hk. apply repeated_key_no_NoDup. }
destruct (pivot_outcomes (R1 ++ [r] ++ R2 ++ [r'] ++ R3)) as [_ [Hv _]].
destruct (R1 ++ [r] ++ R2 ++ [r'] ++ R3) as [|r0 rest] eqn:E.
- exfalso. apply Hnd. constructor.
- apply Hv. split; [discriminate|assumption].
Qed.

Lemma parse_and_process_raises_on_a_repeated_month_witness :
UpdateRawData.parse_and_process
  (Some (Bls.mkObject ["status"]%string (Some (Bls.mkResults (Some
     [Bls.mkSeries "CUUR0000SA0" [Bls.mkItem "2019" "M01" "251.712"];
      Bls.mkSeries "CPI" [Bls.mkItem "2019" "M01" "251.7"]])))))
= Py.Raise Py.ValueError.
Proof.
apply (parse_and_process_raises_on_a_repeated_month ["status"]%string
         [Bls.mkSeries "CUUR0000SA0" [Bls.mkItem "2019" "M01" "251.712"];
          Bls.mkSeries "CPI" [Bls.mkItem "2019" "M01" "251.7"]]
         "CUUR0000SA0" "CPI"
         (Bls.mkItem "2019" "M01" "251.712") (Bls.mkItem "2019" "M01" "251.7")
         [] [] []); try reflexivity.
simpl. tauto.
Defined.

(** X7.  [update_raw_data.parse_and_process] does not depend on the order
    of the answer: two answers with the same observations of the same
    series, listed in any order and grouped into blocks in any way, give the
    same table, the same empty frame or the same exception. *)
Theorem parse_and_process_ignores_the_order_of_the_answer :
forall (keys keys' : list string) (blocks blocks' : list Bls.series_block),
  Permutation (Bls.observations blocks) (Bls.observations blocks') ->
  UpdateRawData.parse_and_process
    (Some (Bls.mkObject keys (Some (Bls.mkResults (Some blocks)))))
  = UpdateRawData.parse_and_process
      (Some (Bls.mkObject keys' (Some (Bls.mkResults (Some blocks'))))).
Proof.
intros keys keys' blocks blocks' Hp.
rewrite !parse_and_process_spec, !parse_response_by_observation.
rewrite (existsb_perm _ _ _ Hp).
destruct (existsb _ (Bls.observations blocks')); [reflexivity|].
pose proof (Permutation_flat_map
  (fun p => Py.outputs
     (InitialRawData.parse_item
        (Py.get InitialRawData.SERIES_MAPPING (fst p) (fst p))) (snd p)) Hp) as Hr.
destruct (flat_map _ (Bls.observations blocks)) as [|r rest];
  destruct (flat_map _ (Bls.observations blocks')) as [|r' rest'].
- reflexivity.
- apply Permutation_nil in Hr. discriminate.
- symmetry in Hr. apply Permutation_nil in Hr. discriminate.
- now apply pivot_perm.
Qed.

Lemma parse_and_process_ignores_the_order_of_the_answer_witness :
UpdateRawData.parse_and_process
  (Some (Bls.mkObject ["status"]%string (Some (Bls.mkResults (Some
     [Bls.mkSeries "CUUR0000SA0"
        [Bls.mkItem "2019" "M02" "252.776"; Bls.mkItem "2019" "M01" "251.712"];
      Bls.mkSeries "LNS14000000" [Bls.mkItem "2019" "M01" "4.0"]])))))
= UpdateRawData.parse_and_process
    (Some (Bls.mkObject [] (Some (Bls.mkResults (Some
       [Bls.mkSeries "LNS14000000" [Bls.mkItem "2019" "M01" "4.0"];
        Bls.mkSeries "CUUR0000SA0"
          [Bls.mkItem "2019" "M01" "251.712"; Bls.mkItem "2019" "M02" "252.776"]]))))).
Proof.
apply parse_and_process_ignores_the_order_of_the_answer.
exact (Permutation_rev
         [("CUUR0000SA0"%string, Bls.mkItem "2019" "M02" "252.776");
          ("CUUR0000SA0"%string, Bls.mkItem "2019" "M01" "251.712");
          ("LNS14000000"%string, Bls.mkItem "2019" "M01" "4.0")]).
Defined.

(** ** The windows of the backfill *)

Lemma range_10_In start stop y :
  In y (Py.range start stop 10) <-> start <= y < stop /\ (y - start) mod 10 = 0.
Proof.
  unfold Py.range. rewrite in_map_iff. split.
  - intros [i [<- Hi]]. apply in_seq in Hi.
    assert (Z.of_nat i < (stop - start + 10 - 1) / 10).
    { destruct (Z.le_gt_cases ((stop - start + 10 - 1) / 10) 0) as [H|H].
      - destruct ((stop - start + 10 - 1) / 10); simpl in Hi; lia.
      - apply Z2Nat.inj_lt; lia || (rewrite Nat2Z.id; lia). }
    split.
    + Z.to_euclidean_division_equations. lia.
    + replace (start + 10 * Z.of_nat i - start) with (Z.of_nat i * 10) by lia.
      apply Z.mod_mul. lia.
  - intros [Hy Hm]. exists (Z.to_nat ((y - start) / 10)).
    assert (0 <= (y - start) / 10) by (apply Z.div_pos; lia).
    split.
    + rewrite Z2Nat.id by assumption. Z.to_euclidean_division_equations. lia.
    + apply in_seq. split; [lia|]. simpl. apply Z2Nat.inj_lt; try lia.
      * Z.to_euclidean_division_equations. lia.
      * Z.to_euclidean_division_equations. lia.
Qed.

(** X8.  The loop of [initial_raw_data.main] asks for windows that tile
    the span: every window starts inside the span, ends inside it and covers
    at most ten years, and every year of the span lies in exactly one
    window. *)
Theorem backfill_windows_tile_the_span :
  forall start_year end_year : Z,
    (forall y, In y (Py.range start_year (end_year + 1) 10) ->
       let chunk_end := Z.min (y + 9) end_year in
       start_year <= y <= chunk_end /\ chunk_end <= end_year /\ chunk_end - y + 1 <= 10)
    /\ (forall v, start_year <= v <= end_year ->
          exists y,
            In y (Py.range start_year (end_year + 1) 10) /\
            y <= v <= Z.min (y + 9) end_year /\
            forall y', In y' (Py.range start_year (end_year + 1) 10) ->
                       y' <= v <= Z.min (y' + 9) end_year -> y' = y)
    /\ Py.range InitialRawData.START_YEAR (InitialRawData.END_YEAR + 1) 10 = [2008; 2018].
Proof.
  intros start_year end_year. split; [|split; [|reflexivity]].
  - intros y Hy chunk_end. apply range_10_In in Hy. unfold chunk_end. lia.
  - intros v Hv. exists (v - (v - start_year) mod 10).
    pose proof (Z.mod_pos_bound (v - start_year) 10 ltac:(lia)) as Hb.
    split; [|split].
    + apply range_10_In. split; [Z.to_euclidean_division_equations; lia|].
      replace (v - (v - start_year) mod 10 - start_year)
        with ((v - start_year) - (v - start_year) mod 10) by lia.
      Z.to_euclidean_division_equations. lia.
    + lia.
    + intros y' Hy' Hv'. apply range_10_In in Hy'.
      Z.to_euclidean_division_equations. lia.
Qed.

(** ** A backfill whose requests all fail *)

Lemma extend_each_all_empty {A B} (f : A -> Py.result (list B)) xs :
  (forall x, In x xs -> f x = Py.Ok []) -> Py.extend_each f xs = Py.Ok [].
Proof.
  induction xs as [|x t IH]; intros H; simpl; [reflexivity|].
  rewrite (H x (or_introl eq_refl)), IH by (intros; apply H; now right).
  reflexivity.
Qed.

(** X9.  When no window brings usable data, because the request failed
    ([fetch_bls_chunk] returned [None]) or the answer has no ['Results'],
    [initial_raw_data.main] neither raises nor writes a file: it ends on
    "No data found". *)
Theorem backfill_without_data_writes_nothing :
  forall (q : Quicksort) (fetch_bls_chunk : list string -> Z -> Z -> Bls.json_data)
         (to_datetime : string -> Py.result Timestamp)
         (start_year end_year : Z),
    (forall ids s e,
        fetch_bls_chunk ids s e = None \/
        exists o, fetch_bls_chunk ids s e = Some o /\ Bls.Results o = None) ->
    InitialRawData.main_span fetch_bls_chunk to_datetime start_year end_year
    = Py.Ok InitialRawData.NoFile
    /\ InitialRawData.main fetch_bls_chunk to_datetime = Py.Ok InitialRawData.NoFile.
Proof.
  intros q fetch to_datetime start_year end_year H.
  assert (Hs : forall s e, InitialRawData.main_span fetch to_datetime s e
                           = Py.Ok InitialRawData.NoFile).
  { intros s e. unfold InitialRawData.main_span.
    rewrite extend_each_all_empty; [reflexivity|].
    intros y _. unfold InitialRawData.chunk. cbv zeta.
    apply guarded_parsers_on_missing_results. apply H. }
  split; [apply Hs|apply Hs].
Qed.

Lemma backfill_without_data_writes_nothing_witness :
  let q := insertion in
  InitialRawData.main_span (fun _ _ _ => None) (fun _ => Py.Raise Py.ValueError) 2008 2024
  = Py.Ok InitialRawData.NoFile
  /\ InitialRawData.main (fun _ _ _ => None) (fun _ => Py.Raise Py.ValueError)
     = Py.Ok InitialRawData.NoFile.
Proof.
  intros q. apply backfill_without_data_writes_nothing. intros. now left.
Defined.

(** ** More on the two merges *)

Section MergeAgain.
Context {q : Quicksort} {V : Type}.
Implicit Types (a b df existing incoming merged : DataFrame V) (r : Row V).

Lemma has_date_app d a b : has_date d (a ++ b) = has_date d a || has_date d b.
Proof. unfold has_date. apply existsb_app. Qed.

(** Dropping duplicates from two tables put end to end: the rows of the
    first that survive are those without a later twin in either table. *)
Lemma drop_duplicates_app a b :
  drop_duplicates_last (a ++ b)
  = filter (fun r => negb (has_date (Date r) b)) (drop_duplicates_last a)
    ++ drop_duplicates_last b.
Proof.
  induction a as [|x t IH]; simpl; [reflexivity|].
  rewrite has_date_app, IH.
  destruct (has_date (Date x) t); simpl; [reflexivity|].
  destruct (has_date (Date x) b); reflexivity.
Qed.

Lemma drop_duplicates_NoDup_id a : NoDup (dates a) -> drop_duplicates_last a = a.
Proof.
  induction a as [|x t IH]; simpl; [reflexivity|].
  intros H. inversion H as [|? ? Hnotin Hnd]; subst.
  rewrite (proj2 (has_date_false _ _) Hnotin), IH by assumption. reflexivity.
Qed.

Lemma drop_duplicates_idem a :
  drop_duplicates_last (drop_duplicates_last a) = drop_duplicates_last a.
Proof. apply drop_duplicates_NoDup_id, drop_duplicates_NoDup. Qed.

Lemma filter_filter_same {A} (p : A -> bool) l : filter p (filter p l) = filter p l.
Proof.
  induction l as [|x t IH]; simpl; [reflexivity|].
  destruct (p x) eqn:E; simpl; [rewrite E|]; congruence.
Qed.

Lemma update_data_twice df new_df :
  drop_duplicates_last (drop_duplicates_last (df ++ new_df) ++ new_df)
  = drop_duplicates_last (df ++ new_df).
Proof.
  rewrite (drop_duplicates_app (drop_duplicates_last (df ++ new_df)) new_df).
  rewrite drop_duplicates_idem.
  rewrite (drop_duplicates_app df new_df) at 1.
  rewrite filter_app, filter_filter_same.
  rewrite (drop_duplicates_app df new_df). rewrite <- app_assoc. f_equal.
  assert (E : filter (fun r => negb (has_date (Date r) new_df)) (drop_duplicates_last new_df) = []).
  { assert (forall l, (forall r, In r l -> has_date (Date r) new_df = true) ->
                      filter (fun r => negb (has_date (Date r) new_df)) l = []) as Hf.
    { induction l as [|x t IH]; intros H; simpl; [reflexivity|].
      rewrite (H x (or_introl eq_refl)). simpl. apply IH. intros; apply H; now right. }
    apply Hf. intros r Hr. apply has_date_In. apply in_map.
    now apply drop_duplicates_incl. }
  now rewrite E.
Qed.

Lemma after_nothing m incoming :
  (forall r, In r incoming -> ts_leb (Date r) m = true) -> after (Some m) incoming = [].
Proof.
  intros H. unfold after. induction incoming as [|x t IH]; simpl; [reflexivity|].
  pose proof (H x (or_introl eq_refl)) as Hx. rewrite ts_leb_ltb in Hx.
  apply negb_true_iff in Hx. rewrite Hx. apply IH. intros; apply H; now right.
Qed.

Lemma after_nil_iff m incoming :
  after (Some m) incoming = [] <-> forall r, In r incoming -> ts_leb (Date r) m = true.
Proof.
  split; [|apply after_nothing].
  intros H r Hr. rewrite ts_leb_ltb. destruct (ts_ltb m (Date r)) eqn:E; [|reflexivity].
  assert (In r (after (Some m) incoming)) by (apply after_In; auto).
  rewrite H in H0. destruct H0.
Qed.

Lemma main_second_run existing incoming merged :
  UpdateRawData.main (Some existing) incoming = UpdateRawData.ToCsv merged ->
  UpdateRawData.main (Some merged) incoming = UpdateRawData.Untouched.
Proof.
  intros H. destruct (main_writes _ _ _ H) as [m [Hm [Hne ->]]].
  unfold UpdateRawData.main. cbv zeta.
  destruct (empty incoming); [reflexivity|].
  set (merged := sort_values (existing ++ after (Some m) incoming)).
  destruct (ts_max (dates merged)) as [m'|] eqn:E; [|reflexivity].
  rewrite after_nothing; [reflexivity|].
  intros r Hr. destruct (ts_max_spec _ _ E) as [_ Hle].
  destruct (ts_ltb m (Date r)) eqn:L.
  - apply Hle. apply in_map. unfold merged.
    eapply Permutation_in; [symmetry; apply sort_values_perm|].
    apply in_or_app. right. apply after_In. auto.
  - destruct (ts_max_spec _ _ Hm) as [Hin _].
    eapply ts_leb_trans; [rewrite ts_leb_ltb, L; reflexivity|].
    apply Hle. unfold merged, dates.
    eapply Permutation_in; [apply Permutation_map; symmetry; apply sort_values_perm|].
    rewrite map_app. apply in_or_app. now left.
Qed.

Lemma main_untouched_iff existing incoming :
  UpdateRawData.main (Some existing) incoming = UpdateRawData.Untouched <->
  existing = [] \/
  forall r, In r incoming -> exists e, In e existing /\ ts_leb (Date r) (Date e) = true.
Proof.
  unfold UpdateRawData.main. cbv zeta. split.
  - intros H. destruct existing as [|x t]; [now left|]. right.
    destruct (ts_max (dates (x :: t))) as [m|] eqn:E;
      [|apply ts_max_None in E; discriminate].
    destruct (ts_max_spec _ _ E) as [Hin _].
    apply in_map_iff in Hin. destruct Hin as [e [He1 He2]].
    assert (Hn : after (Some m) incoming = []).
    { destruct (empty incoming) eqn:Ei.
      - destruct incoming; [reflexivity|discriminate].
      - destruct (after (Some m) incoming); [reflexivity|discriminate]. }
    intros r Hr. exists e. split; [assumption|]. rewrite He1.
    now apply (proj1 (after_nil_iff m incoming) Hn).
  - intros [->|H]; [destruct (empty incoming); reflexivity|].
    destruct (empty incoming); [reflexivity|].
    destruct (ts_max (dates existing)) as [m|] eqn:E; [|reflexivity].
    rewrite after_nothing; [reflexivity|].
    intros r Hr. destruct (H r Hr) as [e [He Hle]].
    eapply ts_leb_trans; [exact Hle|].
    apply (ts_max_spec _ _ E). now apply in_map.
Qed.

End MergeAgain.

(** X10.  What [collect_data.update_data] writes, for an existing table
    and a non-empty incoming table that each hold a date once: the existing
    rows whose date is not in the incoming table, in their order, followed
    by the incoming rows in theirs. *)
Theorem update_data_writes_old_rows_then_incoming :
  forall (q : Quicksort) (V : Type) (df new_df : DataFrame V),
    new_df <> [] -> NoDup (dates df) -> NoDup (dates new_df) ->
    CollectData.update_data df new_df
    = CollectData.ToCsv
        (filter (fun r => negb (has_date (Date r) new_df)) df ++ new_df).
Proof.
  intros q V df new_df Hne Hd Hn.
  rewrite update_data_writes by assumption.
  rewrite drop_duplicates_app, !drop_duplicates_NoDup_id by assumption.
  reflexivity.
Qed.

Lemma update_data_writes_old_rows_then_incoming_witness :
  let q := insertion in
  CollectData.update_data Examples.snapshot Examples.update
  = CollectData.ToCsv
      (filter (fun r => negb (has_date (Date r) Examples.update)) Examples.snapshot
       ++ Examples.update).
Proof.
  intros q. apply update_data_writes_old_rows_then_incoming.
  - discriminate.
  - repeat constructor; simpl; tauto.
  - repeat constructor; simpl; intuition discriminate.
Defined.

(** X11.  [collect_data.update_data] is idempotent: merging the same
    incoming table into the table it just wrote writes that table again. *)
Theorem update_data_is_idempotent :
  forall (q : Quicksort) (V : Type) (df new_df merged : DataFrame V),
    CollectData.update_data df new_df = CollectData.ToCsv merged ->
    CollectData.update_data merged new_df = CollectData.ToCsv merged.
Proof.
  intros q V df new_df merged. unfold CollectData.update_data.
  destruct (empty new_df); [discriminate|]. simpl. intros [= <-].
  f_equal. apply update_data_twice.
Qed.

Lemma update_data_is_idempotent_witness :
  let q := insertion in
  CollectData.update_data
    [mkRow Examples.june_2024 "4.1"%string; mkRow Examples.july_2024 "4.3"%string]
    Examples.update
  = CollectData.ToCsv
      [mkRow Examples.june_2024 "4.1"%string; mkRow Examples.july_2024 "4.3"%string].
Proof.
  intros q. apply (update_data_is_idempotent q string Examples.snapshot). reflexivity.
Defined.

(** X12.  A second run of [update_raw_data.main] on the same answer
    changes nothing: once the later rows are appended, no incoming row is
    dated after the new maximum, and the file is left untouched. *)
Theorem update_raw_data_main_second_run_is_a_no_op :
  forall (q : Quicksort) (V : Type) (existing incoming merged : DataFrame V),
    UpdateRawData.main (Some existing) incoming = UpdateRawData.ToCsv merged ->
    UpdateRawData.main (Some merged) incoming = UpdateRawData.Untouched.
Proof. intros q V. exact main_second_run. Qed.

Lemma update_raw_data_main_second_run_is_a_no_op_witness :
  let q := insertion in
  UpdateRawData.main
    (Some [mkRow Examples.june_2024 "3.0"%string; mkRow Examples.july_2024 "4.3"%string])
    Examples.update
  = UpdateRawData.Untouched.
Proof.
  intros q.
  apply (update_raw_data_main_second_run_is_a_no_op q string Examples.snapshot).
  reflexivity.
Defined.

(** X13.  When [update_raw_data.main] leaves the file alone: when there
    is no file, when the file has no rows (its maximum date is NaT, and no
    date compares greater than NaT), and when no incoming row is dated after
    every existing row.  In every other case it writes. *)
Theorem update_raw_data_main_writes_only_later_rows :
  forall (q : Quicksort) (V : Type) (incoming : DataFrame V),
    UpdateRawData.main None incoming = UpdateRawData.Untouched /\
    UpdateRawData.main (Some []) incoming = UpdateRawData.Untouched /\
    forall existing : DataFrame V,
      UpdateRawData.main (Some existing) incoming = UpdateRawData.Untouched <->
      existing = [] \/
      forall r, In r incoming ->
                exists e, In e existing /\ ts_leb (Date r) (Date e) = true.
Proof.
  intros q V incoming. split; [reflexivity|]. split.
  - apply main_untouched_iff. now left.
  - intros existing. apply main_untouched_iff.
Qed.

(** X14.  [update_raw_data.main] keeps the snapshot's invariant: if the
    existing dates are strictly increasing and the incoming table holds each
    date once, the dates of the written table are strictly increasing. *)
Theorem update_raw_data_main_keeps_dates_strictly_increasing :
  forall (q : Quicksort) (V : Type) (existing incoming merged : DataFrame V),
    UpdateRawData.main (Some existing) incoming = UpdateRawData.ToCsv merged ->
    strictly_increasing (dates existing) ->
    NoDup (dates incoming) ->
    strictly_increasing (dates merged).
Proof. intros q V. exact main_writes_strictly_increasing_dates. Qed.

Lemma update_raw_data_main_keeps_dates_strictly_increasing_witness :
  strictly_increasing
    (dates [mkRow Examples.june_2024 "3.0"%string; mkRow Examples.july_2024 "4.3"%string]).
Proof.
  apply (update_raw_data_main_keeps_dates_strictly_increasing
           insertion string Examples.snapshot Examples.update).
  - reflexivity.
  - apply strictly_increasingb_spec. reflexivity.
  - repeat constructor; simpl; intuition discriminate.
Defined.

(** ** More on the derivation step *)

Section DerivationAgain.
Import Py ProcessData.
Local Open Scope float_scope.
Context {q : Quicksort} {o : OtherDtypes}.

Lemma mul_nan_r a b : is_nan b = true -> is_nan (a * b) = true.
Proof.
  rewrite !is_nan_spec, mul_spec. destruct (Prim2SF b); try discriminate.
  destruct (Prim2SF a); reflexivity.
Qed.

Lemma div_nan_r a b : is_nan b = true -> is_nan (a / b) = true.
Proof.
  rewrite !is_nan_spec, div_spec. destruct (Prim2SF b); try discriminate.
  destruct (Prim2SF a); reflexivity.
Qed.

Lemma same_date_same_row {V} (l : DataFrame V) a b :
  NoDup (dates l) -> In a l -> In b l -> Date a = Date b -> a = b.
Proof.
  induction l as [|x t IH]; simpl; [tauto|].
  intros Hnd Ha Hb E. inversion Hnd as [|? ? Hnotin Hnd']; subst.
  destruct Ha as [<-|Ha], Hb as [<-|Hb]; auto.
  - exfalso. apply Hnotin. rewrite E. now apply in_map.
  - exfalso. apply Hnotin. rewrite <- E. now apply in_map.
Qed.

Lemma sorted_by_dates {V W} (l : DataFrame V) :
  forall l' : DataFrame W,
    dates l' = dates l -> StronglySorted by_date l -> StronglySorted by_date l'.
Proof.
  unfold dates. induction l as [|x t IH]; intros [|y u] E Hs; simpl in E;
    try discriminate; [constructor|].
  injection E as Ey Eu. inversion Hs as [|? ? Hs' Hx]; subst.
  constructor; [now apply IH|].
  rewrite Forall_forall in *. intros z Hz.
  assert (Hd : In (Date z) (map Date t)) by (rewrite <- Eu; now apply in_map).
  apply in_map_iff in Hd. destruct Hd as [z' [Ez Hz']].
  specialize (Hx z' Hz'). unfold by_date in *. now rewrite Ey, <- Ez.
Qed.

(** Whatever the columns hold, what the script writes has the rows of
    the file, in date order. *)
Lemma process_macro_data_dates (df out : Table) :
  process_macro_data (Some df) = Ok (Some out) ->
  dates (body out) = dates (sort_values (body df)).
Proof.
  unfold process_macro_data. cbv zeta.
  repeat match goal with
         | |- bind ?m _ = _ -> _ =>
             destruct m; cbn [bind]; [|discriminate]
         end.
  intros [= <-]. rewrite !body_assign. cbn [body]. now rewrite !set_rows_dates.
Qed.

(** The first column the table lacks is named by a [KeyError]. *)
Lemma process_macro_data_missing (df : Table) :
  (existsb (String.eqb "Hourly Earnings") (header df) = false ->
   process_macro_data (Some df) = Raise (KeyError "Hourly Earnings"))
  /\ (existsb (String.eqb "Hourly Earnings") (header df) = true ->
      existsb (String.eqb "Hours Worked") (header df) = false ->
      process_macro_data (Some df) = Raise (KeyError "Hours Worked"))
  /\ (is_float64 "Hourly Earnings" df = true ->
      is_float64 "Hours Worked" df = true ->
      existsb (String.eqb "CPI") (header df) = false ->
      process_macro_data (Some df) = Raise (KeyError "CPI")).
Proof.
  split; [|split].
  - intros H. unfold process_macro_data, column. cbn [header body]. now rewrite H.
  - intros H1 H2. unfold process_macro_data, column. cbn [header body].
    now rewrite H1, H2.
  - intros He Hw Hc.
    destruct (is_float64_sorted _ _ He) as [Hhe Ece].
    destruct (is_float64_sorted _ _ Hw) as [Hhw Ecw].
    unfold process_macro_data. cbv zeta.
    unfold column at 1 2. cbn [header body]. rewrite Hhe, Hhw. cbn [bind].
    rewrite Ece, Ecw. unfold mul. rewrite !float64_floats. cbn [bind].
    rewrite ?column_assign, ?header_assign, ?body_assign. cbn [header body bind].
    column_names. rewrite ?orb_false_r, ?orb_true_r. now rewrite Hc.
Qed.

Lemma is_float64_no_rows name (df : Table) :
  existsb (String.eqb name) (header df) = true -> body df = [] ->
  is_float64 name df = true.
Proof. unfold is_float64. intros -> ->. reflexivity. Qed.

End DerivationAgain.

Section DerivationFacts.
Import Py ProcessData.
Local Open Scope string_scope.
Local Open Scope float_scope.

(** X15.  [process_macro_data] on its edges.  Without [raw_data.csv] it
    stops without output and without an exception.  Of the files whose
    ['Date'] column line 16 converts: a file without the column
    ['Hourly Earnings'], or with it and without ['Hours Worked'], raises a
    [KeyError] naming that column; with these two numeric, a file without
    ['CPI'] raises [KeyError('CPI')].  A file with the three columns and no
    rows raises [IndexError] at [iloc[-1]]; one with rows whose three
    columns are numeric gives one output row per input row. *)
Theorem process_macro_data_names_the_missing_column :
  forall (q : Quicksort) (o : OtherDtypes),
    process_macro_data None = Ok None /\
    forall df : Table,
      let has := fun name => existsb (String.eqb name) (header df) in
      (has "Hourly Earnings" = false ->
       process_macro_data (Some df) = Raise (KeyError "Hourly Earnings"))
      /\ (has "Hourly Earnings" = true -> has "Hours Worked" = false ->
          process_macro_data (Some df) = Raise (KeyError "Hours Worked"))
      /\ (is_float64 "Hourly Earnings" df = true ->
          is_float64 "Hours Worked" df = true ->
          has "CPI" = false ->
          process_macro_data (Some df) = Raise (KeyError "CPI"))
      /\ (has "Hourly Earnings" = true -> has "Hours Worked" = true ->
          has "CPI" = true -> body df = [] ->
          process_macro_data (Some df) = Raise IndexError)
      /\ (is_float64 "Hourly Earnings" df = true ->
          is_float64 "Hours Worked" df = true ->
          is_float64 "CPI" df = true ->
          body df <> [] ->
          exists out,
            process_macro_data (Some df) = Ok (Some out)
            /\ List.length (body out) = List.length (body df)).
Proof.
  intros q o. split; [reflexivity|]. intros df has.
  destruct (process_macro_data_missing df) as [H1 [H2 H3]].
  split; [exact H1|]. split; [exact H2|]. split; [exact H3|]. split.
  - intros He Hw Hc Hn.
    pose proof (process_macro_data_real df
                  (is_float64_no_rows _ _ He Hn) (is_float64_no_rows _ _ Hw Hn)
                  (is_float64_no_rows _ _ Hc Hn)) as H.
    assert (E : sort_values (body df) = []).
    { apply Permutation_nil. symmetry.
      pose proof (sort_values_perm (body df)) as Hp. now rewrite Hn in Hp at 2. }
    rewrite E in H. exact H.
  - intros He Hw Hc Hne.
    destruct (process_macro_data_total df He Hw Hc Hne) as [latest [out [H _]]].
    exists out. split; [exact H|].
    rewrite <- (length_map Date (body out)).
    change (map Date (body out)) with (dates (body out)).
    rewrite (process_macro_data_dates df out H). unfold dates.
    rewrite length_map. apply Permutation_length, sort_values_perm.
Qed.

(** X16.  A missing CPI spoils Real Weekly Earnings.  On a table whose
    three columns are numeric and whose dates are distinct, a row whose own
    CPI is NaN gets NaN, and when the CPI of the latest month (the row of
    the maximum date) is NaN, every row of the output gets NaN. *)
Theorem missing_cpi_makes_real_weekly_earnings_nan :
  forall (q : Quicksort) (o : OtherDtypes) (df : Table) (latest : Row Cells),
    is_float64 "Hourly Earnings" df = true ->
    is_float64 "Hours Worked" df = true ->
    is_float64 "CPI" df = true ->
    NoDup (dates (body df)) ->
    In latest (body df) ->
    (forall r, In r (body df) -> ts_leb (Date r) (Date latest) = true) ->
    exists out,
      process_macro_data (Some df) = Ok (Some out) /\
      Forall2 (fun r w =>
                 Date w = Date r /\
                 exists real,
                   Real_Weekly_Earnings w = Float real /\
                   (is_nan (CPI r) = true -> is_nan real = true) /\
                   (is_nan (CPI latest) = true -> is_nan real = true))
              (sort_values (body df)) (body out).
Proof.
  intros q o df latest He Hw Hc Hnd Hin Hmax.
  assert (Hne : body df <> []) by (intros E; rewrite E in Hin; destruct Hin).
  destruct (process_macro_data_total df He Hw Hc Hne)
    as [latest' [out [H [Hin' [Hmax' Hr]]]]].
  assert (latest' = latest) as ->.
  { apply (same_date_same_row (body df)); try assumption.
    apply ts_leb_antisym; [now apply Hmax|now apply Hmax']. }
  exists out. split; [exact H|].
  pose proof (process_macro_data_dates df out H) as Hd.
  symmetry in Hr, Hd. unfold dates in Hd.
  apply map_eq_Forall2 in Hr. apply map_eq_Forall2 in Hd.
  revert Hr Hd. generalize (body out). generalize (sort_values (body df)).
  intros l. induction l as [|r t IH]; intros l' Hr Hd;
    inversion Hr as [|? w ? u Hr1 Hrt]; subst; [constructor|].
  inversion Hd as [|? ? ? ? Hd1 Hdt]; subst.
  constructor; [|now apply IH].
  split; [now symmetry|]. eexists. split; [symmetry; exact Hr1|].
  rewrite !round2_nan. split; intros Hn.
  - apply mul_nan_l. now apply div_nan_r.
  - now apply mul_nan_r.
Qed.

Lemma missing_cpi_makes_real_weekly_earnings_nan_witness :
  let q := insertion in
  let o := raising in
  let latest := Examples.raw_row 2024 6 nan 27.15 33.3 in
  let df := mkTable Examples.raw_columns
              [Examples.raw_row 2024 5 300.991 30.0 34.0; latest] in
  exists out,
    process_macro_data (Some df) = Ok (Some out) /\
    Forall2 (fun r w =>
               Date w = Date r /\
               exists real,
                 Real_Weekly_Earnings w = Float real /\
                 (is_nan (CPI r) = true -> is_nan real = true) /\
                 (is_nan (CPI latest) = true -> is_nan real = true))
            (sort_values (body df)) (body out).
Proof.
  intros q o latest df.
  apply (missing_cpi_makes_real_weekly_earnings_nan q o df latest);
    try reflexivity.
  - repeat constructor; simpl; intuition discriminate.
  - simpl. auto.
  - intros r [<-|[<-|[]]]; reflexivity.
Defined.

(** X17.  The output of [process_macro_data] is in ascending date order
    whatever the order of the rows in the file, and for a file that holds
    each date once the output does not depend on that order at all. *)
Theorem process_macro_data_ignores_row_order :
  forall (q : Quicksort) (o : OtherDtypes) (df : Table) (rows' : DataFrame Cells),
    NoDup (dates (body df)) -> Permutation (body df) rows' ->
    process_macro_data (Some df)
    = process_macro_data (Some (mkTable (header df) rows')) /\
    forall out, process_macro_data (Some df) = Ok (Some out) ->
                StronglySorted by_date (body out)
                /\ strictly_increasing (dates (body out)).
Proof.
  intros q o df rows' Hnd Hp. split.
  - unfold process_macro_data. cbn [header body].
    now rewrite (sort_values_unique (body df) rows' Hnd Hp).
  - intros out H. pose proof (process_macro_data_dates df out H) as Hd.
    assert (Hs : StronglySorted by_date (body out))
      by (apply (sorted_by_dates _ _ Hd), sort_values_sorted).
    split; [exact Hs|]. apply sorted_NoDup_strict; [exact Hs|].
    rewrite Hd. eapply Permutation_NoDup; [|exact Hnd].
    apply Permutation_map. symmetry. apply sort_values_perm.
Qed.

Lemma process_macro_data_ignores_row_order_witness :
  let q := insertion in
  let o := raising in
  let df := Examples.three_months in
  let rows' := rev (body Examples.three_months) in
  process_macro_data (Some df)
  = process_macro_data (Some (mkTable (header df) rows')) /\
  forall out, process_macro_data (Some df) = Ok (Some out) ->
              StronglySorted by_date (body out)
              /\ strictly_increasing (dates (body out)).
Proof.
  intros q o df rows'. apply (process_macro_data_ignores_row_order q o df rows').
  - repeat constructor; simpl; intuition discriminate.
  - apply Permutation_rev.
Defined.

End DerivationFacts.

Section OldParser.
Import Py CollectData.

Lemma position_None name cols : position name cols = None <-> ~ In name cols.
Proof.
induction cols as [|c cols IH]; simpl; [tauto|].
destruct (String.eqb c name) eqn:E.
- apply String.eqb_eq in E. split; [discriminate|]. intros H. exfalso. apply H. now left.
- apply String.eqb_neq in E. destruct (position name cols); simpl.
  + split; [discriminate|]. intros H. exfalso.
    destruct IH as [_ IH]. assert (Hn : ~ In name cols) by tauto.
    specialize (IH Hn). discriminate.
  + split; [|reflexivity]. intros _ [H|H]; [congruence|]. now apply IH.
Qed.

Lemma position_Some name cols i :
position name cols = Some i -> nth_error cols i = Some name.
Proof.
revert i. induction cols as [|c cols IH]; simpl; [discriminate|]. intros i.
destruct (String.eqb c name) eqn:E.
- apply String.eqb_eq in E. intros [= <-]. now subst.
- destruct (position name cols) as [j|]; simpl; [|discriminate].
  intros [= <-]. simpl. now apply IH.
Qed.

Lemma pivot_columns rs w name :
pivot rs = Ok w -> (In name (columns w) <-> In name (map rSeries rs)).
Proof.
intros H. apply pivot_Ok in H. destruct H as [_ [_ ->]]. simpl.
apply sorted_unique_In.
Qed.

Lemma column_missing rs w name :
pivot rs = Ok w -> ~ In name (map rSeries rs) ->
column name w = Raise (KeyError name).
Proof.
intros H Hn. unfold column.
assert (E : position name (columns w) = None).
{ apply position_None. intros Hin. apply Hn. now apply (pivot_columns rs w name H). }
now rewrite E.
Qed.

Lemma column_cells rs w name :
pivot rs = Ok w -> In name (map rSeries rs) ->
column name w = Ok (map (fun row => cell rs (fst row) name) (rows w)).
Proof.
intros H Hin. unfold column.
destruct (position name (columns w)) as [i|] eqn:E.
- f_equal. apply position_Some in E.
  apply pivot_Ok in H. destruct H as [_ [_ ->]]. simpl in *.
  rewrite !map_map. apply map_ext. intros d. simpl.
  apply nth_error_nth. rewrite nth_error_map, E. reflexivity.
- exfalso. apply position_None in E. apply E. now apply (pivot_columns rs w name H).
Qed.

Lemma each_length {A B} (f : A -> result B) xs ys :
each f xs = Ok ys -> List.length ys = List.length xs.
Proof.
revert ys. induction xs as [|x xs IH]; simpl; intros ys.
- now intros [= <-].
- destruct (f x) as [y|e]; simpl; [|discriminate].
  destruct (each f xs) as [ys'|e]; simpl; [|discriminate].
  intros [= <-]. simpl. f_equal. now apply IH.
Qed.

Lemma each_Forall2 {A B} (f : A -> result B) xs ys :
each f xs = Ok ys -> Forall2 (fun x y => f x = Ok y) xs ys.
Proof.
revert ys. induction xs as [|x xs IH]; simpl; intros ys.
- intros [= <-]. constructor.
- destruct (f x) as [y|e] eqn:E; simpl; [|discriminate].
  destruct (each f xs) as [ys'|e]; simpl; [|discriminate].
  intros [= <-]. constructor; [assumption|]. now apply IH.
Qed.

Lemma zip_rows_spec to_numeric (f g : string * list (option string) -> option string) rws :
forall ds, List.length ds = List.length rws ->
let table := zip_rows to_numeric ds rws (map f rws) (map g rws) in
dates table = ds /\
Forall2 (fun row r =>
   cells (vals r) = snd row /\
   Hourly_Earnings (vals r) = to_numeric (f row) /\
   Hours_Worked (vals r) = to_numeric (g row) /\
   Weekly_Income (vals r)
   = round0 (to_numeric (f row) * to_numeric (g row))%float) rws table.
Proof.
induction rws as [|row rws IH]; intros [|d ds] Hlen; simpl in *; try discriminate.
- split; constructor.
- injection Hlen as Hlen. destruct (IH ds Hlen) as [Hd Hf]. split.
  + unfold dates in *. simpl. now f_equal.
  + constructor; [simpl; tauto|exact Hf].
Qed.

End OldParser.

Section OldParserTable.
Import Py CollectData.
Local Open Scope float_scope.

(** X18.  [collect_data.parse_json] needs both earnings series.  When the
    records pivot and their dates parse, an answer without an
    ['Hourly Earnings'] record raises [KeyError('Hourly Earnings')] on
    line 59, and one with it but without an ['Hours Worked'] record raises
    [KeyError('Hours Worked')] on line 60: the old parser cannot read an
    answer for any other selection of series. *)
Theorem parse_json_raises_without_the_earnings_series
  (to_datetime : string -> result Timestamp) (to_numeric : option string -> float)
  json rs w ds :
parse_json_records json = Ok rs ->
pivot rs = Ok w ->
each to_datetime (map fst (rows w)) = Ok ds ->
(~ In "Hourly Earnings"%string (map rSeries rs) ->
 parse_json to_datetime to_numeric json = Raise (KeyError "Hourly Earnings"))
/\ (In "Hourly Earnings"%string (map rSeries rs) ->
    ~ In "Hours Worked"%string (map rSeries rs) ->
    parse_json to_datetime to_numeric json = Raise (KeyError "Hours Worked")).
Proof.
intros Hrs Hw Hds. unfold parse_json. rewrite Hrs. cbn [bind]. rewrite Hw.
cbn [bind]. rewrite Hds. cbn [bind]. split.
- intros Hn. now rewrite (column_missing rs w _ Hw Hn).
- intros Hin Hn. rewrite (column_cells rs w _ Hw Hin). cbn [bind].
  now rewrite (column_missing rs w _ Hw Hn).
Qed.

Lemma parse_json_raises_without_the_earnings_series_witness :
parse_json Examples.iso_date Examples.to_float Examples.cpi_only_payload
= Raise (KeyError "Hourly Earnings").
Proof.
refine (proj1 (parse_json_raises_without_the_earnings_series
  Examples.iso_date Examples.to_float Examples.cpi_only_payload
  [mkRecord "2019-12-01" "CPI" "256.974"]
  (mkWide ["CPI"%string] [("2019-12-01"%string, [Some "256.974"%string])])
  [mkTs 2019 12 1] _ _ _) _); try reflexivity.
simpl. intros [H|[]]. discriminate.
Defined.

(** X19.  The table [collect_data.parse_json] returns.  When both earnings
    series are among the records, the table has the pivoted columns
    followed by ['Weekly Income'], one row per pivoted row in the same
    order, dated by [pd.to_datetime]; the two numeric columns are
    [pd.to_numeric] of the pivoted cells of that date, ['Weekly Income']
    is their product rounded to a whole number, and it is NaN as soon as
    either of the two is. *)
Theorem parse_json_weekly_income_is_the_whole_rounded_product
  (to_datetime : string -> result Timestamp) (to_numeric : option string -> float)
  json rs w ds :
parse_json_records json = Ok rs ->
pivot rs = Ok w ->
each to_datetime (map fst (rows w)) = Ok ds ->
In "Hourly Earnings"%string (map rSeries rs) ->
In "Hours Worked"%string (map rSeries rs) ->
exists table,
  parse_json to_datetime to_numeric json
  = Ok ((columns w ++ ["Weekly Income"%string])%list, table)
  /\ dates table = ds
  /\ Forall2 (fun row r =>
        to_datetime (fst row) = Ok (Date r)
        /\ cells (vals r) = snd row
        /\ Hourly_Earnings (vals r) = to_numeric (cell rs (fst row) "Hourly Earnings")
        /\ Hours_Worked (vals r) = to_numeric (cell rs (fst row) "Hours Worked")
        /\ Weekly_Income (vals r)
           = round0 (Hourly_Earnings (vals r) * Hours_Worked (vals r))
        /\ (is_nan (Hourly_Earnings (vals r)) || is_nan (Hours_Worked (vals r)) = true ->
            is_nan (Weekly_Income (vals r)) = true))
      (rows w) table.
Proof.
intros Hrs Hw Hds He Hh. unfold parse_json. rewrite Hrs. cbn [bind]. rewrite Hw.
cbn [bind]. rewrite Hds. cbn [bind].
rewrite (column_cells rs w _ Hw He). cbn [bind].
rewrite (column_cells rs w _ Hw Hh). cbn [bind].
eexists. split; [reflexivity|].
pose proof (each_length _ _ _ Hds) as Hlen. rewrite length_map in Hlen.
destruct (zip_rows_spec to_numeric
            (fun row => cell rs (fst row) "Hourly Earnings")
            (fun row => cell rs (fst row) "Hours Worked") (rows w) ds Hlen)
  as [Hd Hf].
split; [exact Hd|].
apply each_Forall2 in Hds. rewrite <- Hd in Hds. unfold dates in Hds.
revert Hds Hf.
generalize (zip_rows to_numeric ds (rows w)
  (map (fun row => cell rs (fst row) "Hourly Earnings") (rows w))
  (map (fun row => cell rs (fst row) "Hours Worked") (rows w))).
generalize (rows w). clear.
induction l as [|row l IH]; intros [|r table] Hds Hf;
  inversion Hf; subst; [constructor|].
simpl in Hds. inversion Hds; subst.
constructor; [|now apply IH].
destruct H2 as [Hc [He [Hh Hwi]]].
rewrite He, Hh, Hwi.
repeat split; try assumption; try reflexivity.
unfold round0. rewrite rint_nan. intros Hn.
apply orb_true_iff in Hn. destruct Hn as [Hn|Hn].
- now apply mul_nan_l.
- now apply mul_nan_r.
Qed.

Lemma parse_json_weekly_income_is_the_whole_rounded_product_witness :
exists table,
  parse_json Examples.iso_date Examples.to_float Examples.earnings_payload
  = Ok (["Hourly Earnings"; "Hours Worked"; "Weekly Income"]%string, table)
  /\ dates table = [mkTs 2024 5 1; mkTs 2024 6 1]
  /\ map (fun r => Weekly_Income (vals r)) table = [1020; 904].
Proof.
destruct (parse_json_weekly_income_is_the_whole_rounded_product
  Examples.iso_date Examples.to_float Examples.earnings_payload
  [mkRecord "2024-06-01" "Hourly Earnings" "27.15";
   mkRecord "2024-05-01" "Hourly Earnings" "30.0";
   mkRecord "2024-06-01" "Hours Worked" "33.3";
   mkRecord "2024-05-01" "Hours Worked" "34.0"]
  (mkWide ["Hourly Earnings"; "Hours Worked"]%string
     [("2024-05-01", [Some "30.0"; Some "34.0"]);
      ("2024-06-01", [Some "27.15"; Some "33.3"])]%string)
  [mkTs 2024 5 1; mkTs 2024 6 1]
  eq_refl eq_refl eq_refl (or_introl eq_refl) (or_intror (or_intror (or_introl eq_refl))))
  as [table [Ht [Hd _]]].
exists table. split; [exact Ht|]. split; [exact Hd|].
vm_compute in Ht. injection Ht as <-. reflexivity.
Defined.

End OldParserTable.

(** ** The old backfill, [collect_data.initial_data] *)

Section OldBackfill.
Import Py CollectData.
Context {q : Quicksort} {V : Type}.
Variable request_json : list string -> Z -> Z -> Bls.json_data.
Variable parse_json : Bls.json_data -> result (DataFrame V).
Variable default_end_year : Z.

Lemma while_loop_spec turns :
forall start_year df,
  default_end_year + 1 - start_year <= Z.of_nat turns * 10 ->
  while_loop request_json parse_json default_end_year turns start_year df
  = Some (match each (window request_json parse_json default_end_year) (range start_year (default_end_year + 1) 10) with
          | Raise e => Raise e
          | Ok ts => Ok (gathered df ts)
          end).
Proof.
induction turns as [|turns IH]; intros start_year df Hb;
  rewrite range_step; cbn [while_loop];
  destruct (Z.leb_spec start_year default_end_year) as [Hle|Hgt];
  try reflexivity; try lia.
cbn [each]. unfold turn. cbv zeta.
change (parse_json _) with (window request_json parse_json default_end_year start_year).
destruct (window _ _ _ start_year) as [t|e]; cbn [bind]; [|reflexivity].
rewrite IH by lia.
destruct (each _ _) as [ts|e]; [|reflexivity].
do 2 f_equal. unfold gathered, concat.
destruct ts as [|t' ts]; destruct df as [d|]; cbn [List.concat];
  rewrite ?app_nil_r, ?app_assoc; reflexivity.
Qed.

Lemma initial_data_spec :
initial_data request_json parse_json default_end_year
= Some (match each (window request_json parse_json default_end_year) (range default_start_year (default_end_year + 1) 10) with
        | Raise e => Raise e
        | Ok [] => Raise (KeyError "Date")
        | Ok ts => Ok (ToCsv (List.concat ts))
        end).
Proof.
unfold initial_data. cbv zeta. rewrite while_loop_spec by lia.
destruct (each _ _) as [[|t ts]|e]; reflexivity.
Qed.

Lemma each_In {A B} (f : A -> result B) xs ys x :
each f xs = Ok ys -> In x xs -> exists y, f x = Ok y /\ In y ys.
Proof.
revert ys. induction xs as [|a xs IH]; simpl; intros ys; [tauto|].
destruct (f a) as [b|e] eqn:E; [|discriminate].
destruct (each f xs) as [bs|e]; [|discriminate].
intros [= <-] [->|Hin].
- exists b. split; [assumption|now left].
- destruct (IH bs eq_refl Hin) as [y [Hy Hiny]]. exists y. split; [assumption|now right].
Qed.

Lemma range_10_sorted stop n :
forall start, stop - start <= Z.of_nat n * 10 ->
  StronglySorted (fun a b => a + 10 <= b) (range start stop 10).
Proof.
induction n as [|n IH]; intros start Hb;
  replace stop with (stop - 1 + 1) by lia; rewrite range_step;
  destruct (Z.leb_spec start (stop - 1)) as [Hle|Hgt]; try constructor; try lia.
- replace (stop - 1 + 1) with stop by lia. apply IH. lia.
- apply Forall_forall. intros b Hb'. apply range_10_In in Hb'. lia.
Qed.

Lemma strictly_increasing_app l1 l2 :
strictly_increasing l1 -> strictly_increasing l2 ->
(forall a b, In a l1 -> In b l2 -> ts_ltb a b = true) ->
strictly_increasing (l1 ++ l2).
Proof.
unfold strictly_increasing. induction 1 as [|x t Hs IH Hx]; simpl; intros H2 Hc; [assumption|].
constructor.
- apply IH; [assumption|]. intros a b Ha Hb. apply Hc; [now right|assumption].
- apply Forall_app. split; [assumption|]. apply Forall_forall. intros b Hb.
  apply Hc; [now left|assumption].
Qed.

Lemma year_lt_ts_ltb a b : year a < year b -> ts_ltb a b = true.
Proof. intros H. unfold ts_ltb, ts_compare. now rewrite (proj2 (Z.compare_lt_iff _ _) H). Qed.

Lemma windows_in_date_order (ys : list Z) :
forall ts : list (DataFrame V),
  Forall2 (fun y t => strictly_increasing (dates t)
                      /\ forall d, In d (dates t) -> y <= year d <= y + 9) ys ts ->
  StronglySorted (fun a b => a + 10 <= b) ys ->
  strictly_increasing (dates (List.concat ts))
  /\ forall y, Forall (fun y' => y + 10 <= y') ys ->
       forall d, In d (dates (List.concat ts)) -> y + 10 <= year d.
Proof.
induction ys as [|y ys IH]; intros ts Hf Hs; inversion Hf as [|? t ? ts' [Ht Hy] Hf']; subst.
- split; [constructor|]. intros ? ? ? [].
- inversion Hs as [|? ? Hs' Hall]; subst.
  destruct (IH ts' Hf' Hs') as [Hinc Hlow]. cbn [List.concat]. unfold dates in *.
  rewrite map_app. split.
  + apply strictly_increasing_app; [assumption|assumption|].
    intros a b Ha Hb. apply year_lt_ts_ltb.
    specialize (Hy a Ha). specialize (Hlow y Hall b Hb). lia.
  + intros y0 Hall0 d Hd. inversion Hall0; subst. apply in_app_or in Hd.
    destruct Hd as [Hd|Hd].
    * specialize (Hy d Hd). lia.
    * apply (Hlow y0); [|assumption].
      eapply Forall_impl; [|exact Hall]. simpl. intros. lia.
Qed.

End OldBackfill.

Section OrchestratorAgain.
Import Py CollectData.
Context {q : Quicksort} {V : Type}.
Variable request_json : list string -> Z -> Z -> Bls.json_data.
Variable parse_json : Bls.json_data -> result (DataFrame V).
Variable default_end_year : Z.

Lemma collect_data_some (df : DataFrame V) N later :
  df <> [] ->
  exists D, max_by ts_ltb (dates df) = Ok D /\
    collect_data request_json parse_json default_end_year (Some df) N later
    = Some (if (year N * 12 + month N) - (year D * 12 + month D) - 1 <? 1
            then Ok UpToDate
            else w <- run_update_data request_json parse_json df later ;;
                 Ok (UpdateData w)).
Proof.
  intros Hne. destruct (max_by ts_ltb (dates df)) as [D|e] eqn:E.
  - destruct (max_by_Ok _ _ E) as [Hin Hmax]. exists D. split; [reflexivity|].
    rewrite (collect_data_branch request_json parse_json default_end_year
               df D N later Hin Hmax).
    pose proof (minus_one_month_index N) as Hi.
    replace ((year (minus_one_month N) - year D) * 12
             + (month (minus_one_month N) - month D))
      with (year N * 12 + month N - (year D * 12 + month D) - 1) by lia.
    reflexivity.
  - apply max_by_Raise in E. destruct df; [congruence|discriminate].
Qed.

Lemma run_update_data_raises (df : DataFrame V) D later e :
  max_by ts_ltb (dates df) = Ok D ->
  parse_json (request_json (map fst series_keys) (year D) (year later)) = Raise e ->
  run_update_data request_json parse_json df later = Raise e.
Proof. intros HD He. unfold run_update_data. rewrite HD. cbn [bind]. now rewrite He. Qed.

End OrchestratorAgain.

(** X20.  The edges of [collect_data].  Without [data.csv] it runs
    [initial_data], whose loop ends, and ends as [initial_data] ends, with
    its exception if it raises.  With a file that has no row it raises
    [ValueError] at [max(df['Date'])], whatever the endpoint would answer.
    With a file that has rows it either reports the data up to date or
    runs [update_data] and ends as that ends: an exception of [parse_json]
    on the answer for the years from the latest date's to the clock's is an
    exception of [collect_data].  A snapshot that is stale in one month is
    stale in every later month, and one that is up to date was up to date
    in every earlier month. *)
Theorem collect_data_ends_as_the_call_it_makes :
  forall (q : Quicksort) (V : Type)
         (request_json : list string -> Z -> Z -> Bls.json_data)
         (parse_json : Bls.json_data -> Py.result (DataFrame V))
         (default_end_year : Z),
    let collect_data :=
      CollectData.collect_data request_json parse_json default_end_year in
    let initial_data :=
      CollectData.initial_data request_json parse_json default_end_year in
    let update_data := fun df later =>
      w <- CollectData.run_update_data request_json parse_json df later ;;
      Py.Ok (CollectData.UpdateData w) in
    let index := fun N : Timestamp => year N * 12 + month N in
    (exists r, initial_data = Some r /\
       forall now later,
         collect_data None now later
         = Some (w <- r ;; Py.Ok (CollectData.InitialData w)))
    /\ (forall now later,
          collect_data (Some []) now later = Some (Py.Raise Py.ValueError))
    /\ (forall df now later,
          collect_data (Some df) now later = Some (Py.Ok CollectData.UpToDate)
          \/ collect_data (Some df) now later = Some (update_data df later))
    /\ (forall df D now later e,
          Py.max_by ts_ltb (dates df) = Py.Ok D ->
          1 <= index now - index D - 1 ->
          parse_json (request_json (map fst CollectData.series_keys)
                        (year D) (year later)) = Py.Raise e ->
          collect_data (Some df) now later = Some (Py.Raise e))
    /\ (forall df N N' later,
          index N <= index N' ->
          (collect_data (Some df) N later = Some (update_data df later) ->
           collect_data (Some df) N' later = Some (update_data df later))
          /\ (collect_data (Some df) N' later = Some (Py.Ok CollectData.UpToDate) ->
              collect_data (Some df) N later = Some (Py.Ok CollectData.UpToDate))).
Proof.
  intros q V request_json parse_json default_end_year
         collect_data initial_data update_data index.
  assert (Hne : forall df later, update_data df later <> Py.Ok CollectData.UpToDate)
    by (intros; apply update_branch_is_not_up_to_date).
  split; [|split; [|split; [|split]]].
  - pose proof (initial_data_spec request_json parse_json default_end_year) as Hs.
    eexists. split; [exact Hs|]. intros now later.
    unfold collect_data, CollectData.collect_data.
    fold (CollectData.initial_data request_json parse_json default_end_year).
    rewrite Hs. reflexivity.
  - reflexivity.
  - intros [|r t] now later; [right; reflexivity|].
    destruct (collect_data_some request_json parse_json default_end_year
                (r :: t) now later) as [D [_ H]]; [discriminate|].
    unfold collect_data. rewrite H. destruct (_ <? 1); [now left|now right].
  - intros df D now later e HD Hstale He.
    assert (Hdf : df <> []) by (intros ->; discriminate).
    destruct (collect_data_some request_json parse_json default_end_year
                df now later Hdf) as [D' [HD' H]].
    assert (D' = D) by congruence. subst D'.
    unfold collect_data. rewrite H. unfold index in Hstale.
    destruct (Z.ltb_spec (year now * 12 + month now - (year D * 12 + month D) - 1) 1);
      [lia|].
    now rewrite (run_update_data_raises request_json parse_json df D later e HD He).
  - intros [|r t] N N' later Hle; [split; [reflexivity|discriminate]|].
    destruct (collect_data_some request_json parse_json default_end_year
                (r :: t) N later) as [D [HD H]]; [discriminate|].
    destruct (collect_data_some request_json parse_json default_end_year
                (r :: t) N' later) as [D' [HD' H']]; [discriminate|].
    assert (D' = D) by congruence. subst D'.
    unfold collect_data. rewrite H, H'. unfold index in Hle.
    fold (update_data (r :: t) later).
    destruct (Z.ltb_spec (year N * 12 + month N - (year D * 12 + month D) - 1) 1);
      destruct (Z.ltb_spec (year N' * 12 + month N' - (year D * 12 + month D) - 1) 1);
      split; try reflexivity; try lia; intros [= E]; exfalso;
      [symmetry in E|]; exact (Hne _ _ E).
Qed.

Section OldBackfillFacts.
Import Py CollectData.


(** X22.  The old backfill has no guard for a window without data.  If
    the answer for one of its windows holds no observation, [parse_json]
    fails in [pivot] and [initial_data] raises without writing a file; when
    that window is the first one the exception is [KeyError('Date')]. *)
Theorem initial_data_raises_on_a_window_without_observations :
forall (q : Quicksort) (to_datetime : string -> result Timestamp) (to_numeric : option string -> float)
       (request_json : list string -> Z -> Z -> Bls.json_data)
       (default_end_year y : Z),
  In y (range default_start_year (default_end_year + 1) 10) ->
  parse_json_records
    (request_json (map fst series_keys) y (Z.min (y + 9) default_end_year)) = Ok [] ->
  let parse := fun j => table <- parse_json to_datetime to_numeric j ;; Ok (snd table) in
  (exists e, initial_data request_json parse default_end_year = Some (Raise e))
  /\ (y = default_start_year ->
      initial_data request_json parse default_end_year = Some (Raise (KeyError "Date"))).
Proof.
intros q to_datetime to_numeric request_json default_end_year y Hy Hrs parse.
pose proof (initial_data_spec request_json parse default_end_year) as Hs.
assert (Hw : window request_json parse default_end_year y = Raise (KeyError "Date")).
{ unfold window, parse, parse_json. rewrite Hrs. reflexivity. }
split.
- rewrite Hs. destruct (each _ _) as [ts|e] eqn:E.
  + destruct (each_In _ _ _ _ E Hy) as [t [Ht _]]. congruence.
  + eauto.
- intros ->. rewrite Hs. rewrite range_step in Hy |- *.
  destruct (default_start_year <=? default_end_year); [|destruct Hy].
  cbn [each]. rewrite Hw. reflexivity.
Qed.

Lemma initial_data_raises_on_a_window_without_observations_witness :
let q := insertion in
initial_data (fun _ _ _ => Examples.no_series_payload)
  (fun j => table <- parse_json Examples.iso_date Examples.to_float j ;; Ok (snd table))
  2024
= Some (Raise (KeyError "Date")).
Proof.
intros q.
refine (proj2 (initial_data_raises_on_a_window_without_observations q
  Examples.iso_date Examples.to_float (fun _ _ _ => Examples.no_series_payload)
  2024 2008 _ _) eq_refl).
- vm_compute. now left.
- reflexivity.
Defined.

(** X23.  The dropped sort of line 81 is harmless in [initial_data] as long
    as each window is answered with its own years: if every window's table
    has strictly increasing dates whose years lie in the window, the table
    written has strictly increasing dates and sorting it would not change
    it. *)
Theorem initial_data_writes_dates_in_order_for_in_window_answers :
forall (q : Quicksort) (V : Type) (request_json : list string -> Z -> Z -> Bls.json_data)
       (parse_json : Bls.json_data -> result (DataFrame V))
       (default_end_year : Z) (df : DataFrame V),
  (forall y t, In y (range default_start_year (default_end_year + 1) 10) ->
     window request_json parse_json default_end_year y = Ok t ->
     strictly_increasing (dates t)
     /\ forall d, In d (dates t) -> y <= year d <= Z.min (y + 9) default_end_year) ->
  initial_data request_json parse_json default_end_year = Some (Ok (ToCsv df)) ->
  strictly_increasing (dates df) /\ sort_values df = df.
Proof.
intros q V request_json parse_json default_end_year df Hwin Hrun.
rewrite initial_data_spec in Hrun.
destruct (each _ _) as [ts|e] eqn:E; [|discriminate].
assert (Hdf : df = List.concat ts) by (destruct ts; [discriminate|congruence]).
subst df. clear Hrun.
assert (Hinc : strictly_increasing (dates (List.concat ts))).
{ apply (windows_in_date_order (range default_start_year (default_end_year + 1) 10)).
  - apply each_Forall2 in E. revert Hwin. clear -E.
    induction E as [|y t ys ts Hy _ IH]; intros Hwin; constructor.
    + destruct (Hwin y t (or_introl eq_refl) Hy) as [H1 H2]. split; [assumption|].
      intros d Hd. specialize (H2 d Hd). lia.
    + apply IH. intros y' t' Hin. apply Hwin. now right.
  - apply (range_10_sorted _ (Z.to_nat (default_end_year + 1 - default_start_year))). lia. }
split; [assumption|]. now apply sorted_is_its_own_sort.
Qed.

Lemma initial_data_writes_dates_in_order_for_in_window_answers_witness :
let q := insertion in
exists df,
  initial_data (InitialRawData.bls_api Examples.two_window_dataset)
    (fun j => table <- parse_json Examples.iso_date Examples.to_float j ;; Ok (snd table))
    2024
  = Some (Ok (ToCsv df))
  /\ dates df = [mkTs 2008 1 1; mkTs 2018 1 1]
  /\ strictly_increasing (dates df) /\ sort_values df = df.
Proof.
intros q.
eexists. split; [vm_compute; reflexivity|]. split; [reflexivity|].
apply (initial_data_writes_dates_in_order_for_in_window_answers q Parsed
         (InitialRawData.bls_api Examples.two_window_dataset)
         (fun j => table <- parse_json Examples.iso_date Examples.to_float j ;; Ok (snd table))
         2024).
- intros y t Hy Ht. vm_compute in Hy.
  destruct Hy as [<-|[<-|[]]]; vm_compute in Ht; injection Ht as <-;
    (split; [apply strictly_increasingb_spec; reflexivity|]);
    intros d [<-|[]]; vm_compute; split; discriminate.
- vm_compute. reflexivity.
Defined.

End OldBackfillFacts.

(** ** What the backfill saves *)

Section Saved.
Import Py InitialRawData.
Context {q : Quicksort}.
Variable to_datetime : string -> result Timestamp.

Lemma str_sorted_NoDup l : StronglySorted str_lt l -> NoDup l.
Proof.
induction 1 as [|x t Hs IH Hx]; constructor; [|assumption].
intros Hin. rewrite Forall_forall in Hx. specialize (Hx x Hin).
unfold str_lt in Hx. now rewrite str_ltb_irrefl in Hx.
Qed.

Lemma combine_dates (ds : list Timestamp) :
forall rws : list (string * list (option string)),
  List.length ds = List.length rws ->
  dates (map (fun dr => mkRow (fst dr) (snd (snd dr))) (combine ds rws)) = ds.
Proof.
induction ds as [|d ds IH]; intros [|row rws] Hlen; simpl in *; try discriminate;
  [reflexivity|]. unfold dates in *. simpl. f_equal. apply IH. now injection Hlen.
Qed.

Lemma Forall2_inj_NoDup {A B} (R : A -> B -> Prop) xs ys :
Forall2 R xs ys ->
(forall a b y, In a xs -> In b xs -> R a y -> R b y -> a = b) ->
NoDup xs -> NoDup ys.
Proof.
induction 1 as [|x y xs ys Hxy Hf IH]; intros Hinj Hnd; [constructor|].
inversion Hnd as [|? ? Hnotin Hnd']; subst. constructor.
- intros Hin. apply Hnotin.
  assert (Hex : exists a, In a xs /\ R a y).
  { clear -Hf Hin. induction Hf as [|a b xs ys Hab _ IH]; [destruct Hin|].
    destruct Hin as [->|Hin]; [exists a; split; [now left|assumption]|].
    destruct (IH Hin) as [a' [Ha' Hr]]. exists a'. split; [now right|assumption]. }
  destruct Hex as [a [Ha Hr]].
  rewrite (Hinj x a y (or_introl eq_refl) (or_intror Ha) Hxy Hr). assumption.
- apply IH; [|assumption]. intros a b y' Ha Hb. apply Hinj; now right.
Qed.

Lemma save_spec rs df_wide :
save to_datetime rs = Ok (ToCsv df_wide) ->
exists ds,
  each to_datetime (sorted_unique (map rDate rs)) = Ok ds
  /\ Permutation (dates (frame_rows df_wide)) ds
  /\ StronglySorted by_date (frame_rows df_wide)
  /\ frame_columns df_wide = sorted_unique (map rSeries rs).
Proof.
unfold save. destruct rs as [|r t]; [discriminate|].
destruct (pivot (r :: t)) as [w|] eqn:Hw; [|discriminate]. cbn [bind].
destruct (each to_datetime (map fst (rows w))) as [ds|] eqn:Hds; [|discriminate].
cbn [bind]. intros [= <-]. cbn [frame_rows frame_columns].
pose proof (each_length _ _ _ Hds) as Hlen. rewrite length_map in Hlen.
apply pivot_Ok in Hw. destruct Hw as [_ [_ Hw]].
assert (Hfst : map fst (rows w) = sorted_unique (map rDate (r :: t))).
{ rewrite Hw. cbn [rows]. rewrite map_map. cbn [fst]. apply map_id. }
exists ds. split; [now rewrite <- Hfst|]. split; [|split].
- unfold dates. rewrite (Permutation_map Date (sort_values_perm _)).
  fold (dates (map (fun dr => mkRow (fst dr) (snd (snd dr))) (combine ds (rows w)))).
  now rewrite combine_dates.
- apply sort_values_sorted.
- now rewrite Hw.
Qed.

End Saved.

(** X24.  What [initial_raw_data.main] saves.  When it writes, the table
    has the sorted series names as columns and one row for each distinct
    date string of the records, dated by [pd.to_datetime] and put in date
    order; when [pd.to_datetime] sends different strings to different dates
    the dates are strictly increasing, no month twice. *)
Theorem backfill_saves_one_row_per_date_in_date_order :
forall (q : Quicksort) (to_datetime : string -> Py.result Timestamp)
       (rs : list record) (df_wide : Frame),
  InitialRawData.save to_datetime rs = Py.Ok (InitialRawData.ToCsv df_wide) ->
  frame_columns df_wide = sorted_unique (map rSeries rs)
  /\ StronglySorted by_date (frame_rows df_wide)
  /\ (exists ds,
        Py.each to_datetime (sorted_unique (map rDate rs)) = Py.Ok ds
        /\ Permutation (dates (frame_rows df_wide)) ds)
  /\ ((forall a b d, In a (map rDate rs) -> In b (map rDate rs) ->
         to_datetime a = Py.Ok d -> to_datetime b = Py.Ok d -> a = b) ->
      strictly_increasing (dates (frame_rows df_wide))).
Proof.
intros q to_datetime rs df_wide H.
destruct (save_spec to_datetime rs df_wide H) as [ds [Hds [Hp [Hs Hc]]]].
split; [assumption|]. split; [assumption|]. split; [eauto|].
intros Hinj. apply sorted_NoDup_strict; [assumption|].
apply (Permutation_NoDup (Permutation_sym Hp)).
apply each_Forall2 in Hds.
apply (Forall2_inj_NoDup _ _ _ Hds).
- intros a b y Ha Hb. apply Hinj; now apply sorted_unique_In.
- apply str_sorted_NoDup, sorted_unique_sorted.
Qed.

Lemma backfill_saves_one_row_per_date_in_date_order_witness :
let q := insertion in
let rs := [mkRecord "2019-02-01" "CPI" "252.7"; mkRecord "2019-01-01" "CPI" "251.7";
           mkRecord "2019-01-01" "Hours Worked" "34.5"]%string in
let df_wide := mkFrame ["CPI"; "Hours Worked"]%string
                 [mkRow (mkTs 2019 1 1) [Some "251.7"; Some "34.5"];
                  mkRow (mkTs 2019 2 1) [Some "252.7"; None]]%string in
frame_columns df_wide = sorted_unique (map rSeries rs)
/\ StronglySorted by_date (frame_rows df_wide)
/\ (exists ds,
      Py.each Examples.iso_date (sorted_unique (map rDate rs)) = Py.Ok ds
      /\ Permutation (dates (frame_rows df_wide)) ds)
/\ ((forall a b d, In a (map rDate rs) -> In b (map rDate rs) ->
       Examples.iso_date a = Py.Ok d -> Examples.iso_date b = Py.Ok d -> a = b) ->
    strictly_increasing (dates (frame_rows df_wide))).
Proof.
intros q rs df_wide.
apply (backfill_saves_one_row_per_date_in_date_order q Examples.iso_date rs df_wide).
reflexivity.
Defined.
